(** * Recipe document service: a shallow embedding of [main.py] and
    [function_app.py], and the properties of its lookup, synthesis loop,
    renderers, coordinator and HTTP entry point.

    Conventions of the embedding.
    - Python [str] is [string]; [str.upper] is a method of the Python
      runtime ([PythonStr]), fixed on ASCII text.
    - A cost is a finite binary floating-point number, kept as sign, mantissa
      and binary exponent; ["{x:.2f}"] is its correctly rounded (half to even)
      two-place decimal expansion.
    - The dictionaries of the data model (recipe, ingredient, instructions)
      are records with the keys the code subscripts; the parsed answer of
      the generation service is also given as a dictionary in which any key
      may be missing ([ai_object]), with the renderers on it.
    - A written PDF file is represented by the story handed to [doc.build], a
      written Word file by the body of the document that is saved.
    - Calls to [logger] are not part of the model. *)

From Stdlib Require Import ZArith NArith Ascii String List Bool Lia.
From Stdlib Require Import DecimalString DecimalPos DecimalN.
From stdpp Require Import base option list strings gmap.

Local Open Scope N_scope.

(** ** Python values shared by both source files *)

(** What a Python call produces: a value, or a raised exception carrying its
    type name and message. [FileNotFoundError] is the [OSError] with errno 2;
    its text shows the file name in quotes. *)
Inductive exn : Type :=
  | ValueError (msg : string)
  | AttributeError (msg : string)
  | OSError (msg : string)
  | FileNotFoundError (strerror filename : string)
  | KeyError (msg : string)
  | Exception (msg : string).

Definition str_exn (e : exn) : string :=
  match e with
  | ValueError m | AttributeError m | OSError m | KeyError m
  | Exception m => m
  | FileNotFoundError m f => "[Errno 2] " +:+ m +:+ ": '" +:+ f +:+ "'"
  end.

Inductive result (A : Type) : Type :=
  | Ok (a : A)
  | Raise (e : exn).
Arguments Ok {A} a.
Arguments Raise {A} e.

(** Sequencing of calls that may raise: the first exception raised ends the
    sequence. *)
#[global] Instance result_bind : MBind result :=
  λ A B f m, match m with Ok a => f a | Raise e => Raise e end.

(** *** Strings *)

Definition is_lower (c : ascii) : bool :=
  (97 <=? N_of_ascii c) && (N_of_ascii c <=? 122).

Definition is_upper (c : ascii) : bool :=
  (65 <=? N_of_ascii c) && (N_of_ascii c <=? 90).

Definition is_digit (c : ascii) : bool :=
  (48 <=? N_of_ascii c) && (N_of_ascii c <=? 57).

Definition upper_char (c : ascii) : ascii :=
  if is_lower c then ascii_of_N (N_of_ascii c - 32) else c.

Definition lower_char (c : ascii) : ascii :=
  if is_upper c then ascii_of_N (N_of_ascii c + 32) else c.

Fixpoint map_string (f : ascii → ascii) (s : string) : string :=
  match s with
  | EmptyString => EmptyString
  | String c s' => String (f c) (map_string f s')
  end.

(** Upper and lower case on the ASCII letters; [lower] is [s.lower()] on the
    strings the code applies it to, whose result only matters when it is
    ['pdf'] or ['docx']. *)
Definition ascii_upper : string → string := map_string upper_char.
Definition lower : string → string := map_string lower_char.

Fixpoint string_forall (p : ascii → bool) (s : string) : bool :=
  match s with
  | EmptyString => true
  | String c s' => p c && string_forall p s'
  end.

(** Every character is in the ASCII range. *)
Definition is_ascii (s : string) : bool :=
  string_forall (λ c, N_of_ascii c <? 128) s.

(** [str.upper] is Python's own, and follows the Unicode case mappings; what
    is used of it is that on ASCII text it changes the letters [a]-[z] to
    [A]-[Z] and nothing else. Strings are kept in UTF-8. *)
Class PythonStr : Type := {
  upper : string → string;
  upper_ascii : ∀ s, is_ascii s = true → upper s = ascii_upper s
}.

(** [str(n)] for a Python [int]. *)
Definition str_int (z : Z) : string :=
  NilEmpty.string_of_int (Z.to_int z).

(** *** Floats and the [.2f] format *)

(** A finite float: [(-1)^negative * mantissa * 2^exponent]. *)
Record pyfloat : Type := PyFloat {
  negative : bool;
  mantissa : N;
  exponent : Z
}.

(** [num / den] rounded to the nearest integer, ties to the even one. *)
Definition round_half_even (num den : N) : N :=
  let q := num / den in
  let r := num mod den in
  if (den <? 2 * r) || ((2 * r =? den) && N.odd q) then q + 1 else q.

(** The magnitude of [x], in hundredths, as [.2f] rounds it. *)
Definition hundredths (x : pyfloat) : N :=
  match exponent x with
  | Z0 => mantissa x * 100
  | Zpos e => mantissa x * 2 ^ Npos e * 100
  | Zneg e => round_half_even (mantissa x * 100) (2 ^ Npos e)
  end.

Definition digit_char (d : N) : ascii := ascii_of_N (48 + d mod 10).

Definition str_N (n : N) : string := NilEmpty.string_of_uint (N.to_uint n).

(** ["{x:.2f}"]. *)
Definition format_2f (x : pyfloat) : string :=
  let h := hundredths x in
  (if negative x then "-" else "")
    +:+ str_N (h / 100)
    +:+ "."
    +:+ String (digit_char (h / 10)) (String (digit_char h) EmptyString).

(** ["${x:.2f}"]. *)
Definition dollars (x : pyfloat) : string := "$" +:+ format_2f x.

(** A dollar sign, an optional minus sign, one or more digits, a point, and
    exactly two digits. *)
Definition two_decimal_currency (s : string) : Prop :=
  ∃ (sign whole : string) (d1 d2 : ascii),
    s = "$" +:+ sign +:+ whole +:+ "." +:+ String d1 (String d2 EmptyString)
    ∧ (sign = "" ∨ sign = "-")
    ∧ whole ≠ ""
    ∧ string_forall is_digit whole = true
    ∧ is_digit d1 = true ∧ is_digit d2 = true.

(** No ASCII lower-case letter occurs in [s]. *)
Definition is_upper_case (s : string) : bool :=
  string_forall (λ c, negb (is_lower c)) s.

Example format_2f_12_40 :
  dollars (PyFloat false 6980579422424269 (-49)) = "$12.40".
Proof. vm_compute. reflexivity. Qed.

Example format_2f_half_even :
  dollars (PyFloat false 1 (-3)) = "$0.12" ∧
  dollars (PyFloat false 3 (-3)) = "$0.38" ∧
  dollars (PyFloat true 1 (-10)) = "$-0.00" ∧
  dollars (PyFloat false 5 2) = "$20.00".
Proof. vm_compute. auto. Qed.

Local Close Scope N_scope.

Section python_runtime.
Context `{python : PythonStr}.

(** ** The data model (the dictionaries both files read) *)

(** One entry of [recipe['data']['ingredients']]; [ing_total_cost] is the
    ingredient's own ['total_cost'] key. *)
Record Ingredient : Type := {
  ingredient : string;
  recipe_amount : string;
  unit_cost : pyfloat;
  ing_total_cost : pyfloat
}.

(** [recipe['data']]. *)
Record RecipeData : Type := {
  servings : Z;
  total_cost : pyfloat;
  cost_per_serving : pyfloat;
  ingredients : list Ingredient
}.

Record Recipe : Type := {
  name : string;
  data : RecipeData
}.

(** The object [generate_instructions] parses out of the model's answer;
    [timing] keeps the order of its items. *)
Record Instructions : Type := {
  preparation_steps : list string;
  cooking_tips : list string;
  timing : list (string * string);
  techniques : list string;
  storage : string;
  serving : string
}.

(** A value paired with a recipe in [ai_instructions_list] when every answer
    of the generation service has the keys the prompt asks for: [None], the
    empty dictionary, or an instructions object. The renderers on any
    dictionary, with keys missing, are [pdf_recipe_raw] and [docx_recipe_raw]
    below; on these values they agree with [pdf_recipe] and [docx_recipe]. *)
Inductive ai_value : Type :=
  | ai_None
  | ai_empty_dict
  | ai_dict (i : Instructions).

(** The test [if ai_instructions:]. *)
Definition truthy_ai (v : ai_value) : bool :=
  match v with
  | ai_None | ai_empty_dict => false
  | ai_dict _ => true
  end.

(** [enumerate(l, start)]. *)
Fixpoint enumerate {A : Type} (start : nat) (l : list A) : list (nat * A) :=
  match l with
  | [] => []
  | x :: l' => (start, x) :: enumerate (S start) l'
  end.

(** ** [main.py]: [PDFGenerator] *)

Record ParagraphStyle : Type := {
  style_name : string;
  parent : option string;
  fontSize : Z;
  spaceAfter : Z;
  centered : bool;
  textColor : option string
}.

Global Instance ParagraphStyle_eq_dec : EqDecision ParagraphStyle.
Proof. solve_decision. Defined.

Inductive TableCmd : Type :=
  | GRID (first last : Z * Z) (color : string)
  | BACKGROUND (first last : Z * Z) (color : string)
  | TEXTCOLOR (first last : Z * Z) (color : string)
  | PADDING (first last : Z * Z) (amount : Z).

(** The flowables the story is made of; column widths are in points
    ([inch] is 72). *)
Inductive Flowable : Type :=
  | PageBreak
  | Paragraph (text : string) (style : ParagraphStyle)
  | Spacer (width height : Z)
  | Table (cells : list (list string)) (colWidths : list Z)
          (style : list TableCmd).

Definition is_PageBreak (f : Flowable) : bool :=
  match f with PageBreak => true | _ => false end.

Definition sample_style (n : string) (size after : Z) : ParagraphStyle :=
  {| style_name := n; parent := None; fontSize := size; spaceAfter := after;
     centered := false; textColor := None |}.

(** The three entries of [getSampleStyleSheet()] the generator reads. *)
Definition getSampleStyleSheet : list (string * ParagraphStyle) :=
  [ ("Normal", sample_style "Normal" 10 0);
    ("Heading1", sample_style "Heading1" 18 6);
    ("Heading2", sample_style "Heading2" 14 6) ].

Fixpoint style_lookup (sheet : list (string * ParagraphStyle)) (n : string)
  : ParagraphStyle :=
  match sheet with
  | [] => sample_style n 10 0
  | (k, s) :: sheet' => if String.eqb k n then s else style_lookup sheet' n
  end.

Record PDFGenerator : Type := {
  styles : list (string * ParagraphStyle);
  title_style : ParagraphStyle;
  section_style : ParagraphStyle
}.

(** [PDFGenerator.__init__], with [setup_styles] run. *)
Definition PDFGenerator_init : PDFGenerator :=
  let sheet := getSampleStyleSheet in
  {| styles := sheet;
     title_style :=
       {| style_name := "CustomTitle"; parent := Some "Heading1";
          fontSize := 24; spaceAfter := 30; centered := true;
          textColor := None |};
     section_style :=
       {| style_name := "Section"; parent := Some "Heading2";
          fontSize := 16; spaceAfter := 12; centered := false;
          textColor := Some "#2E5A88" |} |}.

Definition inch : Z := 72.

Definition info_table_style : list TableCmd :=
  [ GRID (0, 0)%Z (-1, -1)%Z "grey";
    BACKGROUND (0, 0)%Z (0, -1)%Z "#F5F5F5";
    PADDING (0, 0)%Z (-1, -1)%Z 6 ].

Definition ing_table_style : list TableCmd :=
  [ GRID (0, 0)%Z (-1, -1)%Z "grey";
    BACKGROUND (0, 0)%Z (-1, 0)%Z "#2E5A88";
    TEXTCOLOR (0, 0)%Z (-1, 0)%Z "whitesmoke";
    PADDING (0, 0)%Z (-1, -1)%Z 6 ].

Definition ingredients_header : list string :=
  ["INGREDIENT"; "AMOUNT"; "COST PER UNIT"; "TOTAL COST"].

Section pdf_loop.
Variable self : PDFGenerator.

Definition Normal : ParagraphStyle := style_lookup (styles self) "Normal".

(** The rows [ingredients_data] collects, header first. *)
Definition ingredients_data (recipe_info : RecipeData) : list (list string) :=
  fold_left
    (λ rows ing,
       rows ++ [[ upper (ingredient ing);
                  upper (recipe_amount ing);
                  dollars (unit_cost ing);
                  dollars (ing_total_cost ing) ]])
    (ingredients recipe_info)
    [ingredients_header].

(** The block under [if ai_instructions:]; [story] is the list being
    appended to. *)
Definition pdf_instructions (story : list Flowable) (ai : Instructions)
  : list Flowable :=
  let story := story ++ [Paragraph "Preparation Method" (section_style self)] in
  let story :=
    fold_left
      (λ story '(i, step),
         story ++ [Paragraph (str_int (Z.of_nat i) +:+ ". " +:+ step) Normal])
      (enumerate 1 (preparation_steps ai)) story in
  let story := story ++ [Spacer 1 20] in
  let story := story ++ [Paragraph "Cooking Tips" (section_style self)] in
  let story :=
    fold_left (λ story tip, story ++ [Paragraph ("• " +:+ tip) Normal])
      (cooking_tips ai) story in
  let story := story ++ [Spacer 1 20] in
  let story := story ++ [Paragraph "Timing" (section_style self)] in
  let story :=
    fold_left
      (λ story '(step, time),
         story ++ [Paragraph ("• " +:+ step +:+ ": " +:+ time) Normal])
      (timing ai) story in
  let story := story ++ [Spacer 1 20] in
  let story := story ++ [Paragraph "Storage" (section_style self)] in
  let story := story ++ [Paragraph (storage ai) Normal] in
  let story := story ++ [Spacer 1 12] in
  let story := story ++ [Paragraph "Serving Suggestions" (section_style self)] in
  story ++ [Paragraph (serving ai) Normal].

(** Everything one iteration appends after its optional page break. The
    test [if ai_instructions:] holds for an instructions object only
    ([truthy_ai]), which is then the dictionary that is subscripted. *)
Definition pdf_recipe (story : list Flowable) (recipe : Recipe)
    (ai_instructions : ai_value) : list Flowable :=
  let recipe_info := data recipe in
  let story := story ++ [Paragraph (name recipe) (title_style self)] in
  let story := story ++ [Spacer 1 20] in
  let info_data :=
    [ ["Servings"; str_int (servings recipe_info)];
      ["Total Cost"; dollars (total_cost recipe_info)];
      ["Cost per Serving"; dollars (cost_per_serving recipe_info)] ] in
  let info_table :=
    Table info_data [2 * inch; 4 * inch]%Z info_table_style in
  let story := story ++ [info_table] in
  let story := story ++ [Spacer 1 20] in
  let story := story ++ [Paragraph "Ingredients" (section_style self)] in
  let ing_table :=
    Table (ingredients_data recipe_info) [180; 108; 108; 108]%Z
      ing_table_style in
  let story := story ++ [ing_table] in
  let story := story ++ [Spacer 1 20] in
  match ai_instructions with
  | ai_dict ai => pdf_instructions story ai
  | ai_None | ai_empty_dict => story
  end.

(** One iteration of the loop over [enumerate(zip(...))]. *)
Definition pdf_iteration (story : list Flowable)
    (item : nat * (Recipe * ai_value)) : list Flowable :=
  let '(idx, (recipe, ai_instructions)) := item in
  let story := if (0 <? idx)%nat then story ++ [PageBreak] else story in
  pdf_recipe story recipe ai_instructions.

(** The story [create_recipe_pdf] hands to [doc.build]. *)
Definition pdf_story (recipe_list : list Recipe)
    (ai_instructions_list : list ai_value) : list Flowable :=
  fold_left pdf_iteration
    (enumerate 0 (zip recipe_list ai_instructions_list)) [].

(** [create_recipe_pdf]: the generator is left as it was, and the file
    written at [output_path] holds the built story. *)
Definition create_recipe_pdf (recipe_list : list Recipe)
    (ai_instructions_list : list ai_value) : PDFGenerator * list Flowable :=
  (self, pdf_story recipe_list ai_instructions_list).
End pdf_loop.

(** ** [main.py]: [WordGenerator] *)

(** The body of a [python-docx] document, in order. A table is created with
    empty cells and filled through the handle [add_table] returned, so a
    handle is the table's position in the body. *)
Inductive Block : Type :=
  | DocxParagraph (text : string) (style : option string) (center : bool)
  | DocxPageBreak
  | DocxTable (style : option string) (cols : nat) (rows : list (list string)).

Definition is_DocxPageBreak (b : Block) : bool :=
  match b with DocxPageBreak => true | _ => false end.

Record Document : Type := {
  doc_styles : list string;
  body : list Block
}.

Definition with_body (d : Document) (b : list Block) : Document :=
  {| doc_styles := doc_styles d; body := b |}.

(** The operations of [python-docx] that [create_recipe_docx] calls; each
    takes the document and returns it changed, with a handle when the call
    returns an object. *)
Definition add_paragraph (text : string) (style : option string)
    (d : Document) : nat * Document :=
  (length (body d), with_body d (body d ++ [DocxParagraph text style false])).

Definition set_alignment_center (h : nat) (d : Document) : Document :=
  with_body d
    (alter (λ b, match b with
                 | DocxParagraph t s _ => DocxParagraph t s true
                 | _ => b
                 end) h (body d)).

Definition add_page_break (d : Document) : Document :=
  with_body d (body d ++ [DocxPageBreak]).

Definition add_table (rows cols : nat) (d : Document) : nat * Document :=
  (length (body d),
   with_body d (body d ++ [DocxTable None cols (replicate rows (replicate cols ""))])).

Definition set_table_style (h : nat) (s : string) (d : Document) : Document :=
  with_body d
    (alter (λ b, match b with
                 | DocxTable _ c rows => DocxTable (Some s) c rows
                 | _ => b
                 end) h (body d)).

(** [table.rows[i].cells[j].text = text]. *)
Definition set_cell_text (h i j : nat) (text : string) (d : Document)
  : Document :=
  with_body d
    (alter (λ b, match b with
                 | DocxTable s c rows =>
                     DocxTable s c (alter (λ row, <[j := text]> row) i rows)
                 | _ => b
                 end) h (body d)).

(** [table.add_row()]: the handle of the new row is its index. *)
Definition add_row (h : nat) (d : Document) : nat * Document :=
  let n := match body d !! h with
           | Some (DocxTable _ _ rows) => length rows
           | _ => O
           end in
  (n,
   with_body d
     (alter (λ b, match b with
                  | DocxTable s c rows =>
                      DocxTable s c (rows ++ [replicate c ""])
                  | _ => b
                  end) h (body d))).

Record WordGenerator : Type := { doc : Document }.

(** [WordGenerator.__init__]: a new empty document, then [setup_styles]. *)
Definition WordGenerator_init : WordGenerator :=
  {| doc := {| doc_styles := ["CustomTitle"; "CustomHeading"]; body := [] |} |}.

Definition docx_instructions (d : Document) (ai : Instructions) : Document :=
  let d := (add_paragraph "Preparation Method" (Some "CustomHeading") d).2 in
  let d :=
    fold_left
      (λ d '(i, step),
         (add_paragraph (str_int (Z.of_nat i) +:+ ". " +:+ step) None d).2)
      (enumerate 1 (preparation_steps ai)) d in
  let d := (add_paragraph "" None d).2 in
  let d := (add_paragraph "Cooking Tips" (Some "CustomHeading") d).2 in
  let d :=
    fold_left (λ d tip, (add_paragraph ("• " +:+ tip) None d).2)
      (cooking_tips ai) d in
  let d := (add_paragraph "" None d).2 in
  let d := (add_paragraph "Timing" (Some "CustomHeading") d).2 in
  let d :=
    fold_left
      (λ d '(step, time),
         (add_paragraph ("• " +:+ step +:+ ": " +:+ time) None d).2)
      (timing ai) d in
  let d := (add_paragraph "" None d).2 in
  let d := (add_paragraph "Storage" (Some "CustomHeading") d).2 in
  let d := (add_paragraph (storage ai) None d).2 in
  let d := (add_paragraph "Serving Suggestions" (Some "CustomHeading") d).2 in
  (add_paragraph (serving ai) None d).2.

(** Everything one iteration adds after its optional page break; the test
    [if ai_instructions:] is rendered as in [pdf_recipe]. *)
Definition docx_recipe (d : Document) (recipe : Recipe)
    (ai_instructions : ai_value) : Document :=
  let recipe_info := data recipe in
  let '(title, d) := add_paragraph (name recipe) (Some "CustomTitle") d in
  let d := set_alignment_center title d in
  let d := (add_paragraph "" None d).2 in
  let '(info_table, d) := add_table 3 2 d in
  let d := set_table_style info_table "Table Grid" d in
  let cells :=
    [ ("Servings", str_int (servings recipe_info));
      ("Total Cost", dollars (total_cost recipe_info));
      ("Cost per Serving", dollars (cost_per_serving recipe_info)) ] in
  let d :=
    fold_left
      (λ d '(i, (label, value)),
         let d := set_cell_text info_table i 0 label d in
         set_cell_text info_table i 1 value d)
      (enumerate 0 cells) d in
  let d := (add_paragraph "" None d).2 in
  let d := (add_paragraph "INGREDIENTS" (Some "CustomHeading") d).2 in
  let '(ingredients_table, d) := add_table 1 4 d in
  let d := set_table_style ingredients_table "Table Grid" d in
  let d :=
    fold_left
      (λ d '(i, text), set_cell_text ingredients_table 0 i text d)
      (enumerate 0 ingredients_header) d in
  let d :=
    fold_left
      (λ d ing,
         let '(row, d) := add_row ingredients_table d in
         let d := set_cell_text ingredients_table row 0 (upper (ingredient ing)) d in
         let d := set_cell_text ingredients_table row 1 (upper (recipe_amount ing)) d in
         let d := set_cell_text ingredients_table row 2 (dollars (unit_cost ing)) d in
         set_cell_text ingredients_table row 3 (dollars (ing_total_cost ing)) d)
      (ingredients recipe_info) d in
  let d := (add_paragraph "" None d).2 in
  match ai_instructions with
  | ai_dict ai => docx_instructions d ai
  | ai_None | ai_empty_dict => d
  end.

Definition docx_iteration (d : Document) (item : nat * (Recipe * ai_value))
  : Document :=
  let '(idx, (recipe, ai_instructions)) := item in
  let d := if (0 <? idx)%nat then add_page_break d else d in
  docx_recipe d recipe ai_instructions.

(** [create_recipe_docx]: the loop works on [self.doc]; the generator keeps
    the document, and the file written at [output_path] holds its body. *)
Definition create_recipe_docx (self : WordGenerator) (recipe_list : list Recipe)
    (ai_instructions_list : list ai_value) : WordGenerator * list Block :=
  let d :=
    fold_left docx_iteration
      (enumerate 0 (zip recipe_list ai_instructions_list)) (doc self) in
  ({| doc := d |}, body d).

(** ** [main.py]: the renderers on any dictionary *)

(** What [json.loads] makes of an answer of the generation service, which is
    asked for a JSON object: a dictionary in which each of the six keys the
    prompt names is present or not, next to any other keys. A value found
    under one of the six keys has the type the prompt names for it. *)
Record InstructionsDict : Type := {
  dict_preparation_steps : option (list string);
  dict_cooking_tips : option (list string);
  dict_timing : option (list (string * string));
  dict_techniques : option (list string);
  dict_storage : option string;
  dict_serving : option string;
  dict_other_keys : list string
}.

Inductive ai_object : Type :=
  | py_None
  | py_dict (o : InstructionsDict).

Definition present {A : Type} (field : option A) : nat :=
  match field with Some _ => 1 | None => 0 end.

(** [len(o)]. *)
Definition dict_len (o : InstructionsDict) : nat :=
  present (dict_preparation_steps o) + present (dict_cooking_tips o)
  + present (dict_timing o) + present (dict_techniques o)
  + present (dict_storage o) + present (dict_serving o)
  + length (dict_other_keys o).

(** The test [if ai_instructions:] on any such value. *)
Definition truthy_object (v : ai_object) : bool :=
  match v with
  | py_None => false
  | py_dict o => (0 <? dict_len o)%nat
  end.

(** [d[key]], where [field] is what the dictionary holds under [key]; the
    text of a [KeyError] is the key in quotes. *)
Definition subscript {A : Type} (key : string) (field : option A) : result A :=
  match field with
  | Some v => Ok v
  | None => Raise (KeyError ("'" +:+ key +:+ "'"))
  end.

(** The block under [if ai_instructions:] of [create_recipe_pdf]: each
    heading is appended before the key under it is read. *)
Definition pdf_instructions_raw (self : PDFGenerator) (story : list Flowable)
    (ai_instructions : InstructionsDict) : result (list Flowable) :=
  let story := story ++ [Paragraph "Preparation Method" (section_style self)] in
  steps ← subscript "preparation_steps" (dict_preparation_steps ai_instructions);
  let story :=
    fold_left
      (λ story '(i, step),
         story ++ [Paragraph (str_int (Z.of_nat i) +:+ ". " +:+ step)
                     (Normal self)])
      (enumerate 1 steps) story in
  let story := story ++ [Spacer 1 20] in
  let story := story ++ [Paragraph "Cooking Tips" (section_style self)] in
  tips ← subscript "cooking_tips" (dict_cooking_tips ai_instructions);
  let story :=
    fold_left (λ story tip, story ++ [Paragraph ("• " +:+ tip) (Normal self)])
      tips story in
  let story := story ++ [Spacer 1 20] in
  let story := story ++ [Paragraph "Timing" (section_style self)] in
  items ← subscript "timing" (dict_timing ai_instructions);
  let story :=
    fold_left
      (λ story '(step, time),
         story ++ [Paragraph ("• " +:+ step +:+ ": " +:+ time) (Normal self)])
      items story in
  let story := story ++ [Spacer 1 20] in
  let story := story ++ [Paragraph "Storage" (section_style self)] in
  text ← subscript "storage" (dict_storage ai_instructions);
  let story := story ++ [Paragraph text (Normal self)] in
  let story := story ++ [Spacer 1 12] in
  let story := story ++ [Paragraph "Serving Suggestions" (section_style self)] in
  text ← subscript "serving" (dict_serving ai_instructions);
  Ok (story ++ [Paragraph text (Normal self)]).

(** One iteration of [create_recipe_pdf] after its optional page break. *)
Definition pdf_recipe_raw (self : PDFGenerator) (story : list Flowable)
    (recipe : Recipe) (ai_instructions : ai_object) : result (list Flowable) :=
  let recipe_info := data recipe in
  let story := story ++ [Paragraph (name recipe) (title_style self)] in
  let story := story ++ [Spacer 1 20] in
  let info_data :=
    [ ["Servings"; str_int (servings recipe_info)];
      ["Total Cost"; dollars (total_cost recipe_info)];
      ["Cost per Serving"; dollars (cost_per_serving recipe_info)] ] in
  let info_table :=
    Table info_data [2 * inch; 4 * inch]%Z info_table_style in
  let story := story ++ [info_table] in
  let story := story ++ [Spacer 1 20] in
  let story := story ++ [Paragraph "Ingredients" (section_style self)] in
  let ing_table :=
    Table (ingredients_data recipe_info) [180; 108; 108; 108]%Z
      ing_table_style in
  let story := story ++ [ing_table] in
  let story := story ++ [Spacer 1 20] in
  if truthy_object ai_instructions
  then match ai_instructions with
       | py_dict o => pdf_instructions_raw self story o
       | py_None => Ok story
       end
  else Ok story.

(** The loop of [create_recipe_pdf]; an exception ends it, and the story,
    a local list, is lost. *)
Fixpoint pdf_loop_raw (self : PDFGenerator)
    (items : list (nat * (Recipe * ai_object))) (story : list Flowable)
  : result (list Flowable) :=
  match items with
  | [] => Ok story
  | (idx, (recipe, ai_instructions)) :: items' =>
      let story := if (0 <? idx)%nat then story ++ [PageBreak] else story in
      story ← pdf_recipe_raw self story recipe ai_instructions;
      pdf_loop_raw self items' story
  end.

(** [create_recipe_pdf]: the generator is left as it was; the file is
    written by [doc.build(story)], which comes after the loop, so an
    exception raised in the loop leaves no file. *)
Definition create_recipe_pdf_raw (self : PDFGenerator)
    (recipe_list : list Recipe) (ai_instructions_list : list ai_object)
  : PDFGenerator * result (list Flowable) :=
  (self,
   pdf_loop_raw self (enumerate 0 (zip recipe_list ai_instructions_list)) []).

(** The block under [if ai_instructions:] of [create_recipe_docx]. The
    paragraphs go into [self.doc] as they are added, so those added before
    an exception stay in it. *)
Definition docx_instructions_raw (d : Document)
    (ai_instructions : InstructionsDict) : result unit * Document :=
  let d := (add_paragraph "Preparation Method" (Some "CustomHeading") d).2 in
  match subscript "preparation_steps" (dict_preparation_steps ai_instructions) with
  | Raise e => (Raise e, d)
  | Ok steps =>
  let d :=
    fold_left
      (λ d '(i, step),
         (add_paragraph (str_int (Z.of_nat i) +:+ ". " +:+ step) None d).2)
      (enumerate 1 steps) d in
  let d := (add_paragraph "" None d).2 in
  let d := (add_paragraph "Cooking Tips" (Some "CustomHeading") d).2 in
  match subscript "cooking_tips" (dict_cooking_tips ai_instructions) with
  | Raise e => (Raise e, d)
  | Ok tips =>
  let d :=
    fold_left (λ d tip, (add_paragraph ("• " +:+ tip) None d).2) tips d in
  let d := (add_paragraph "" None d).2 in
  let d := (add_paragraph "Timing" (Some "CustomHeading") d).2 in
  match subscript "timing" (dict_timing ai_instructions) with
  | Raise e => (Raise e, d)
  | Ok items =>
  let d :=
    fold_left
      (λ d '(step, time),
         (add_paragraph ("• " +:+ step +:+ ": " +:+ time) None d).2)
      items d in
  let d := (add_paragraph "" None d).2 in
  let d := (add_paragraph "Storage" (Some "CustomHeading") d).2 in
  match subscript "storage" (dict_storage ai_instructions) with
  | Raise e => (Raise e, d)
  | Ok text =>
  let d := (add_paragraph text None d).2 in
  let d := (add_paragraph "Serving Suggestions" (Some "CustomHeading") d).2 in
  match subscript "serving" (dict_serving ai_instructions) with
  | Raise e => (Raise e, d)
  | Ok text => (Ok tt, (add_paragraph text None d).2)
  end end end end end.

(** One iteration of [create_recipe_docx] after its optional page break. *)
Definition docx_recipe_raw (d : Document) (recipe : Recipe)
    (ai_instructions : ai_object) : result unit * Document :=
  let recipe_info := data recipe in
  let '(title, d) := add_paragraph (name recipe) (Some "CustomTitle") d in
  let d := set_alignment_center title d in
  let d := (add_paragraph "" None d).2 in
  let '(info_table, d) := add_table 3 2 d in
  let d := set_table_style info_table "Table Grid" d in
  let cells :=
    [ ("Servings", str_int (servings recipe_info));
      ("Total Cost", dollars (total_cost recipe_info));
      ("Cost per Serving", dollars (cost_per_serving recipe_info)) ] in
  let d :=
    fold_left
      (λ d '(i, (label, value)),
         let d := set_cell_text info_table i 0 label d in
         set_cell_text info_table i 1 value d)
      (enumerate 0 cells) d in
  let d := (add_paragraph "" None d).2 in
  let d := (add_paragraph "INGREDIENTS" (Some "CustomHeading") d).2 in
  let '(ingredients_table, d) := add_table 1 4 d in
  let d := set_table_style ingredients_table "Table Grid" d in
  let d :=
    fold_left
      (λ d '(i, text), set_cell_text ingredients_table 0 i text d)
      (enumerate 0 ingredients_header) d in
  let d :=
    fold_left
      (λ d ing,
         let '(row, d) := add_row ingredients_table d in
         let d := set_cell_text ingredients_table row 0 (upper (ingredient ing)) d in
         let d := set_cell_text ingredients_table row 1 (upper (recipe_amount ing)) d in
         let d := set_cell_text ingredients_table row 2 (dollars (unit_cost ing)) d in
         set_cell_text ingredients_table row 3 (dollars (ing_total_cost ing)) d)
      (ingredients recipe_info) d in
  let d := (add_paragraph "" None d).2 in
  if truthy_object ai_instructions
  then match ai_instructions with
       | py_dict o => docx_instructions_raw d o
       | py_None => (Ok tt, d)
       end
  else (Ok tt, d).

(** The loop of [create_recipe_docx] on the document [d]. *)
Fixpoint docx_loop_raw (items : list (nat * (Recipe * ai_object)))
    (d : Document) : result unit * Document :=
  match items with
  | [] => (Ok tt, d)
  | (idx, (recipe, ai_instructions)) :: items' =>
      let d := if (0 <? idx)%nat then add_page_break d else d in
      match docx_recipe_raw d recipe ai_instructions with
      | (Ok _, d) => docx_loop_raw items' d
      | (Raise e, d) => (Raise e, d)
      end
  end.

(** [create_recipe_docx]: the generator keeps the document as the loop left
    it; the file is written by [self.doc.save], which comes after the
    loop. *)
Definition create_recipe_docx_raw (self : WordGenerator)
    (recipe_list : list Recipe) (ai_instructions_list : list ai_object)
  : WordGenerator * result (list Block) :=
  match docx_loop_raw (enumerate 0 (zip recipe_list ai_instructions_list))
          (doc self) with
  | (Ok _, d) => ({| doc := d |}, Ok (body d))
  | (Raise e, d) => ({| doc := d |}, Raise e)
  end.

(** ** [function_app.py]: [GetRecipes] *)

(** A document of the container: its [id] and, when present, its ['recipes']
    mapping from inventory keys to recipe lists. *)
Record UserDoc : Type := {
  doc_id : string;
  recipes : option (gmap string (list Recipe))
}.

(** [SELECT * FROM c WHERE c.id = @id] over the container's documents. *)
Definition query_items (container : list UserDoc) (user_id : string)
  : list UserDoc :=
  filter (λ c, doc_id c = user_id) container.

(** [r['name'] in recipe_ids]. *)
Definition name_in (recipe_ids : list string) (r : Recipe) : bool :=
  bool_decide (name r ∈ recipe_ids).

Definition truthy_list {A : Type} (l : list A) : bool :=
  match l with [] => false | _ :: _ => true end.

Definition GetRecipes (container : list UserDoc) (user_id : string)
    (recipe_ids : list string) : result (list Recipe) :=
  let items := query_items container user_id in
  match items with
  | user_doc :: _ =>
      let inventory_key := "inventory-items-" +:+ user_id in
      match default ∅ (recipes user_doc) !! inventory_key with
      | Some recipes =>
          let recipes :=
            if truthy_list recipe_ids
            then List.filter (name_in recipe_ids) recipes
            else recipes in
          if truthy_list recipes then Ok recipes else Ok []
      | None => Ok []
      end
  | [] => Ok []
  end.

(** The recipes stored for a user: the list under the user's inventory key in
    the first document carrying the user's id, if there is one. *)
Definition stored_recipes (container : list UserDoc) (user_id : string)
  : option (list Recipe) :=
  d ← head (query_items container user_id);
  m ← recipes d;
  m !! ("inventory-items-" +:+ user_id).

(** ** [main.py]: [OpenAIHelper], and [function_app.py]: [GenerateDocuments] *)

Inductive file_content : Type :=
  | PdfFile (story : list Flowable)
  | DocxFile (blocks : list Block)
  | PartialFile.

(** Base64 text, kept as the bytes it decodes to. *)
Record b64string : Type := b64encode { b64decode : file_content }.

(** How the two steps of one run that touch the file turn out: whether the
    call of the generator raises, be it while it lays the document out (as
    when ReportLab rejects the markup of a paragraph, or an answer of the
    generation service lacks a key) or while it writes the file (and
    whether a truncated file is then left behind), and whether reading the
    file back raises. *)
Inductive build_outcome : Type :=
  | build_ok
  | build_raises (e : exn) (file_left : bool).

Record Faults : Type := {
  on_build : build_outcome;
  on_read : option exn
}.

Fixpoint has_slash (s : string) : bool :=
  match s with
  | EmptyString => false
  | String c s' => Ascii.eqb c "/" || has_slash s'
  end.

Section activity.
(** The state of the generation service, the call that sends it a prompt
    and returns the answer's text, and [json.loads] on that text, read as
    an [ai_value]. *)
Variable W : Type.
Variable chat_completions_create : string → W → result string * W.
Variable json_loads : string → result ai_value.

(** What [GenerateDocuments] acts on: the generation service, the record of
    the calls made to [generate_instructions], and the directories under
    the temporary root, each a map from file names to contents. *)
Record World : Type := {
  llm : W;
  invocations : list (string * list Ingredient);
  fs : gmap string (gmap string file_content)
}.

Definition M (A : Type) : Type := World → result A * World.

Definition ret {A} (a : A) : M A := λ w, (Ok a, w).
Definition raise {A} (e : exn) : M A := λ w, (Raise e, w).
Definition bind {A B} (m : M A) (k : A → M B) : M B :=
  λ w, match m w with
       | (Ok a, w') => k a w'
       | (Raise e, w') => (Raise e, w')
       end.

(** [try: body finally: cleanup]. *)
Definition try_finally {A} (body : M A) (cleanup : M unit) : M A :=
  λ w, match body w with
       | (r, w') =>
           match cleanup w' with
           | (Ok _, w'') => (r, w'')
           | (Raise e, w'') => (Raise e, w'')
           end
       end.

(** [try: body except Exception as e: logger.error(...); raise]. *)
Definition try_log_reraise {A} (body : M A) : M A := body.

Notation "'let*' x ':=' m 'in' k" := (bind m (λ x, k))
  (at level 10, x binder, m at level 100, k at level 200).

Definition prompt_line (ing : Ingredient) : string :=
  "- " +:+ upper (recipe_amount ing) +:+ " of " +:+ upper (ingredient ing).

Definition newline : string := String (ascii_of_N 10) EmptyString.

Fixpoint join (sep : string) (l : list string) : string :=
  match l with
  | [] => ""
  | [s] => s
  | s :: l' => s +:+ sep +:+ join sep l'
  end.

Definition prompt (recipe_name : string) (ingredients : list Ingredient)
  : string :=
  let ingredients_text := join newline (map prompt_line ingredients) in
  newline +:+
  "        Create detailed cooking instructions for: " +:+ recipe_name +:+ newline +:+
  "        " +:+ newline +:+
  "        Ingredients:" +:+ newline +:+
  "        " +:+ ingredients_text +:+ newline +:+
  "        " +:+ newline +:+
  "        Create a comprehensive recipe guide with:" +:+ newline +:+
  "        1. Step-by-step preparation method" +:+ newline +:+
  "        2. Cooking tips specific to this recipe" +:+ newline +:+
  "        3. Timing for each major step" +:+ newline +:+
  "        4. Key techniques required" +:+ newline +:+
  "        5. Storage and serving suggestions" +:+ newline +:+
  "        " +:+ newline +:+
  "        Return as JSON with:" +:+ newline +:+
  "        - preparation_steps: (array of strings) Detailed steps" +:+ newline +:+
  "        - cooking_tips: (array of strings) At least 3 specific tips" +:+ newline +:+
  "        - timing: (object) Time estimates for major steps" +:+ newline +:+
  "        - techniques: (array of strings) Key cooking techniques" +:+ newline +:+
  "        - storage: (string) Storage instructions" +:+ newline +:+
  "        - serving: (string) Serving suggestions" +:+ newline +:+
  "        ".

(** [OpenAIHelper.generate_instructions]; entering it is recorded in
    [invocations]. *)
Definition generate_instructions (recipe_name : string)
    (ingredients : list Ingredient) : M ai_value :=
  λ w,
    let w := {| llm := llm w;
                invocations := invocations w ++ [(recipe_name, ingredients)];
                fs := fs w |} in
    let p := prompt recipe_name ingredients in
    try_log_reraise
      (λ w, match chat_completions_create p (llm w) with
            | (Ok content, l) =>
                let w := {| llm := l; invocations := invocations w; fs := fs w |} in
                match json_loads content with
                | Ok v => (Ok v, w)
                | Raise e => (Raise e, w)
                end
            | (Raise e, l) =>
                (Raise e, {| llm := l; invocations := invocations w; fs := fs w |})
            end) w.

(** The loop that fills [ai_instructions_list]. *)
Fixpoint synthesis_loop (recipes : list Recipe)
    (ai_instructions_list : list ai_value) : M (list ai_value) :=
  match recipes with
  | [] => ret ai_instructions_list
  | recipe :: rest =>
      let* ai_instructions :=
        generate_instructions (name recipe) (ingredients (data recipe)) in
      synthesis_loop rest (ai_instructions_list ++ [ai_instructions])
  end.

Definition with_fs (w : World) (f : gmap string (gmap string file_content))
  : World :=
  {| llm := llm w; invocations := invocations w; fs := f |}.

(** [tempfile.mkdtemp()]: a new, empty directory under a name not in use. *)
Definition mkdtemp : M string :=
  λ w, let d := fresh (dom (fs w)) in
       (Ok d, with_fs w (<[d := ∅]> (fs w))).

(** [shutil.rmtree(temp_dir, ignore_errors=True)]. *)
Definition rmtree (temp_dir : string) : M unit :=
  λ w, (Ok tt, with_fs w (delete temp_dir (fs w))).

(** The call of the generator that is to leave the document [content] in
    [file] inside [dir]. A file name with a slash names a directory that
    does not exist; otherwise the call turns out as [faults] says. *)
Definition write_document (faults : Faults) (dir file : string)
    (content : file_content) : M unit :=
  λ w,
    if has_slash file
    then (Raise (FileNotFoundError "No such file or directory"
                   (dir +:+ "/" +:+ file)), w)
    else
      match on_build faults with
      | build_ok =>
          (Ok tt, with_fs w (alter (insert file content) dir (fs w)))
      | build_raises e true =>
          (Raise e, with_fs w (alter (insert file PartialFile) dir (fs w)))
      | build_raises e false => (Raise e, w)
      end.

(** [with open(path, 'rb') as f: f.read()]. *)
Definition read_file (faults : Faults) (dir file : string) : M file_content :=
  λ w,
    match on_read faults with
    | Some e => (Raise e, w)
    | None =>
        match fs w !! dir ≫= (.!! file) with
        | Some c => (Ok c, w)
        | None => (Raise (FileNotFoundError "No such file or directory"
                            (dir +:+ "/" +:+ file)), w)
        end
    end.

(** The part of [GenerateDocuments] from [tempfile.mkdtemp()] on. *)
Definition render_in_temp_dir (faults : Faults) (user_id : string)
    (format_type : string) (recipes : list Recipe)
    (ai_instructions_list : list ai_value)
    (pdf_generator : PDFGenerator) (word_generator : WordGenerator)
  : M (list (string * b64string)) :=
  let* temp_dir := mkdtemp in
  try_finally
    (let pdf_path := "recipes_" +:+ user_id +:+ ".pdf" in
     let docx_path := "recipes_" +:+ user_id +:+ ".docx" in
     if String.eqb format_type "pdf"
     then
       let* _ :=
         write_document faults temp_dir pdf_path
           (PdfFile (create_recipe_pdf pdf_generator recipes ai_instructions_list).2) in
       let* f := read_file faults temp_dir pdf_path in
       ret [("pdf", b64encode f)]
     else
       let* _ :=
         write_document faults temp_dir docx_path
           (DocxFile (create_recipe_docx word_generator recipes ai_instructions_list).2) in
       let* f := read_file faults temp_dir docx_path in
       ret [("docx", b64encode f)])
    (rmtree temp_dir).

(** [GenerateDocuments]; [format] is [None] when the key is missing from
    [inputdata]. *)
Definition GenerateDocuments (faults : Faults) (recipes_data : list Recipe)
    (user_id : string) (format : option string)
  : M (list (string * b64string)) :=
  try_log_reraise
    (let recipes := recipes_data in
     let format_type := default "pdf" format in
     if negb (truthy_list recipes)
     then raise (ValueError "No recipes data provided")
     else
       let pdf_generator := PDFGenerator_init in
       let word_generator := WordGenerator_init in
       let* ai_instructions_list := synthesis_loop recipes [] in
       render_in_temp_dir faults user_id format_type recipes
         ai_instructions_list pdf_generator word_generator).
End activity.

#[global] Arguments llm {W} _.
#[global] Arguments invocations {W} _.
#[global] Arguments fs {W} _.
#[global] Arguments ret {W A} a _.
#[global] Arguments raise {W A} e _.
#[global] Arguments bind {W A B} m k _.
#[global] Arguments try_finally {W A} body cleanup _.
#[global] Arguments with_fs {W} w f.
#[global] Arguments mkdtemp {W} _.
#[global] Arguments rmtree {W} temp_dir _.
#[global] Arguments write_document {W} faults dir file content _.
#[global] Arguments read_file {W} faults dir file _.
#[global] Arguments generate_instructions {W} chat_completions_create json_loads
  recipe_name ingredients _.
#[global] Arguments synthesis_loop {W} chat_completions_create json_loads
  recipes ai_instructions_list _.
#[global] Arguments render_in_temp_dir {W} faults user_id format_type recipes
  ai_instructions_list pdf_generator word_generator _.
#[global] Arguments GenerateDocuments {W} chat_completions_create json_loads faults
  recipes_data user_id format _.

(** ** [function_app.py]: [RecipeOrchestrator] *)

(** The dictionary the orchestrator returns; a key that is absent is [None]. *)
Record OrchestratorResult : Type := {
  success : bool;
  message : option string;
  error : option string;
  documents : option (list (string * b64string))
}.

(** [context.call_activity(name, input)], indexed by what the activity
    returns. *)
Inductive activityE : Type → Type :=
  | call_GetRecipes (user_id : string) (recipe_ids : list string)
      : activityE (list Recipe)
  | call_GenerateDocuments (user_id : string) (recipes_data : list Recipe)
      (format : string)
      : activityE (list (string * b64string)).

Definition activity_name {X} (e : activityE X) : string :=
  match e with
  | call_GetRecipes _ _ => "GetRecipes"
  | call_GenerateDocuments _ _ _ => "GenerateDocuments"
  end.

(** A generator function: it returns, or yields an activity call and goes on
    with the activity's value, or with the exception thrown into it. *)
Inductive generator (R : Type) : Type :=
  | Return (r : R)
  | Yield {X : Type} (e : activityE X) (k : result X → generator R).
#[global] Arguments Return {R} r.
#[global] Arguments Yield {R X} e k.

Record OrchestratorInput : Type := {
  in_user_id : string;
  in_recipe_ids : list string;
  in_format : string
}.

Definition failure (e : exn) : OrchestratorResult :=
  {| success := false; message := None; error := Some (str_exn e);
     documents := None |}.

Definition RecipeOrchestrator (input_data : OrchestratorInput)
  : generator OrchestratorResult :=
  let user_id := in_user_id input_data in
  let recipe_ids := in_recipe_ids input_data in
  let format_type := in_format input_data in
  Yield (call_GetRecipes user_id recipe_ids) (λ r,
    match r with
    | Raise e => Return (failure e)
    | Ok recipes =>
        if negb (truthy_list recipes)
        then Return {| success := false; message := Some "No recipes found";
                       error := None; documents := None |}
        else
          Yield (call_GenerateDocuments user_id recipes format_type) (λ r,
            match r with
            | Raise e => Return (failure e)
            | Ok documents =>
                Return {| success := true; message := None; error := None;
                          documents := Some documents |}
            end)
    end).

(** The engine driving a generator: every yielded call goes to the activity
    host [act], which answers from its state; the names of the activities
    called are collected in order. *)
Fixpoint drive {R S : Type} (act : ∀ X, activityE X → S → result X * S)
    (g : generator R) (s : S) : R * S * list string :=
  match g with
  | Return r => (r, s, [])
  | Yield e k =>
      let '(x, s') := act _ e s in
      let '(r, s'', calls) := drive act (k x) s' in
      (r, s'', activity_name e :: calls)
  end.

(** ** [function_app.py]: [http_start] *)

#[local] Set Warnings "-register-all".
Inductive json : Type :=
  | JNull
  | JBool (b : bool)
  | JInt (z : Z)
  | JFloat (x : pyfloat)
  | JStr (s : string)
  | JList (l : list json)
  | JDict (items : list (string * json)).

(** Python truth value of a parsed JSON value. *)
Definition truthy (v : json) : bool :=
  match v with
  | JNull => false
  | JBool b => b
  | JInt z => negb (z =? 0)%Z
  | JFloat x => negb (mantissa x =? 0)%N
  | JStr s => negb (String.eqb s "")
  | JList l => truthy_list l
  | JDict items => truthy_list items
  end.

Definition type_name (v : json) : string :=
  match v with
  | JNull => "NoneType"
  | JBool _ => "bool"
  | JInt _ => "int"
  | JFloat _ => "float"
  | JStr _ => "str"
  | JList _ => "list"
  | JDict _ => "dict"
  end.

Definition no_attribute (v : json) (attr : string) : exn :=
  AttributeError
    ("'" +:+ type_name v +:+ "' object has no attribute '" +:+ attr +:+ "'").

Fixpoint assoc {V : Type} (k : string) (items : list (string * V))
  : option V :=
  match items with
  | [] => None
  | (k', v) :: items' => if String.eqb k' k then Some v else assoc k items'
  end.

(** [v.get(key, dflt)]. *)
Definition get (v : json) (key : string) (dflt : json) : result json :=
  match v with
  | JDict items => Ok (default dflt (assoc key items))
  | _ => Raise (no_attribute v "get")
  end.

(** [v.lower()]. *)
Definition json_lower (v : json) : result string :=
  match v with
  | JStr s => Ok (lower s)
  | _ => Raise (no_attribute v "lower")
  end.

(** The request: the route parameter, and the body as [req.get_json()]
    returns it ([None] when it raises [ValueError]). *)
Record HttpRequest : Type := {
  route_user_id : option string;
  get_json : option json
}.

Inductive response_body : Type :=
  | error_body (msg : string)
  | result_body (r : OrchestratorResult)
  | file_body (bytes : file_content).

Inductive HttpResponse : Type :=
  | Response (body : response_body) (status_code : Z)
      (headers : list (string * string))
  | CheckStatusResponse (instance_id : string).

Definition json_headers : list (string * string) :=
  [("Content-Type", "application/json")].

Definition bad_request (msg : string) : HttpResponse :=
  Response (error_body msg) 400 json_headers.

Definition server_error (e : exn) : HttpResponse :=
  Response (error_body (str_exn e)) 500 json_headers.

(** The input [client.start_new] is given. *)
Record StartInput : Type := {
  start_user_id : string;
  start_recipe_ids : json;
  start_format : string;
  start_download : json
}.

Inductive RuntimeStatus : Type := Pending | Running | Completed | Failed.

Record Status : Type := {
  runtime_status : RuntimeStatus;
  output : option OrchestratorResult
}.

Definition is_Completed (s : RuntimeStatus) : bool :=
  match s with Completed => true | _ => false end.

(** The double-quote character, as a string. *)
Definition quote : string := String (ascii_of_N 34) EmptyString.

Definition mime_type (format_type : string) : string :=
  if String.eqb format_type "pdf" then "application/pdf"
  else "application/vnd.openxmlformats-officedocument.wordprocessingml.document".

Section front_door.
(** The durable client: its state, and its two calls. *)
Variable C : Type.
Variable start_new : string → string → StartInput → C → result unit * C.
Variable get_status : string → C → result (option Status) * C.

(** The parsed and validated request, or the response that rejects it. *)
Definition validate (req : HttpRequest)
  : result (HttpResponse + (string * StartInput)) :=
  match route_user_id req with
  | None => Ok (inl (bad_request "Please provide a user_id in the URL"))
  | Some user_id =>
      if String.eqb user_id ""
      then Ok (inl (bad_request "Please provide a user_id in the URL"))
      else
        match get_json req with
        | None => Ok (inl (bad_request "Invalid request body"))
        | Some req_body =>
            match get req_body "recipe_names" (JList []) with
            | Raise e => Raise e
            | Ok recipe_ids =>
                match get req_body "format" (JStr "pdf") with
                | Raise e => Raise e
                | Ok fmt =>
                    match json_lower fmt with
                    | Raise e => Raise e
                    | Ok format_type =>
                        match get req_body "download" (JBool false) with
                        | Raise e => Raise e
                        | Ok download =>
                            if negb (truthy recipe_ids)
                            then Ok (inl (bad_request
                                   "Please provide recipe_ids in the request body"))
                            else if negb (bool_decide
                                            (format_type ∈ ["pdf"; "docx"]))
                            then Ok (inl (bad_request
                                   "Format must be either 'pdf' or 'docx'"))
                            else Ok (inr (user_id,
                                   {| start_user_id := user_id;
                                      start_recipe_ids := recipe_ids;
                                      start_format := format_type;
                                      start_download := download |}))
                        end
                    end
                end
            end
        end
  end.

(** What follows [client.get_status]. *)
Definition respond (status : option Status) (user_id : string)
    (input : StartInput) (instance_id : string) : result HttpResponse :=
  let format_type := start_format input in
  let pending := Ok (CheckStatusResponse instance_id) in
  match status with
  | None => pending
  | Some status =>
      if is_Completed (runtime_status status)
      then
        match output status with
        | None => pending
        | Some result =>
            if success result
            then
              match documents result with
              | None => Raise (KeyError "'documents'")
              | Some docs =>
                  match assoc format_type docs with
                  | Some content =>
                      if truthy (start_download input)
                      then
                        let filename :=
                          "recipes_" +:+ user_id +:+ "." +:+ format_type in
                        Ok (Response (file_body (b64decode content)) 200
                              [ ("Content-Type", mime_type format_type);
                                ("Content-Disposition",
                                 "attachment; filename=" +:+ quote +:+ filename +:+ quote);
                                ("Access-Control-Expose-Headers",
                                 "Content-Disposition") ])
                      else Ok (Response (result_body result) 200 json_headers)
                  | None => Ok (Response (result_body result) 200 json_headers)
                  end
              end
            else pending
        end
      else pending
  end.

(** [http_start]; [now] is the formatted [datetime.utcnow()]. It returns
    the response, the client's state, and the instance ids given to
    [client.start_new], in order. *)
Definition http_start (now : string) (req : HttpRequest) (c : C)
  : HttpResponse * C * list (string * StartInput) :=
  match validate req with
  | Raise e => (server_error e, c, [])
  | Ok (inl rejection) => (rejection, c, [])
  | Ok (inr (user_id, input)) =>
      let instance_id := "recipes-" +:+ user_id +:+ "-" +:+ now in
      match start_new "RecipeOrchestrator" instance_id input c with
      | (Raise e, c) => (server_error e, c, [(instance_id, input)])
      | (Ok _, c) =>
          match get_status instance_id c with
          | (Raise e, c) => (server_error e, c, [(instance_id, input)])
          | (Ok status, c) =>
              match respond status user_id input instance_id with
              | Raise e => (server_error e, c, [(instance_id, input)])
              | Ok r => (r, c, [(instance_id, input)])
              end
          end
      end
  end.
End front_door.

(** * Properties *)

(** ** Recipe lookup *)

(** A store with one user, [u1], holding two recipes. *)
Definition cost_12_40 : pyfloat := PyFloat false 6980579422424269 (-49).
Definition cost_3_10 : pyfloat := PyFloat false 6980579422424269 (-51).

Definition tomato : Ingredient :=
  {| ingredient := "Tomato"; recipe_amount := "2 kg";
     unit_cost := PyFloat false 5 0; ing_total_cost := PyFloat false 10 0 |}.

Definition basil : Ingredient :=
  {| ingredient := "Basil"; recipe_amount := "1 bunch";
     unit_cost := PyFloat false 19 (-3); ing_total_cost := PyFloat false 19 (-3) |}.

Definition tomato_soup : Recipe :=
  {| name := "Tomato Soup";
     data := {| servings := 4; total_cost := cost_12_40;
                cost_per_serving := cost_3_10;
                ingredients := [tomato; basil] |} |}.

Definition toast : Recipe :=
  {| name := "Toast";
     data := {| servings := 1; total_cost := PyFloat false 1 (-1);
                cost_per_serving := PyFloat false 1 (-1);
                ingredients := [] |} |}.

Definition example_container : list UserDoc :=
  [ {| doc_id := "u2"; recipes := None |};
    {| doc_id := "u1";
       recipes := Some {[ "inventory-items-u1" := [tomato_soup; toast] ]} |} ].

(** The lookup contract, word for word: the stored recipes whose name is
    among [recipe_names], in stored order. *)
Definition matching_recipes (container : list UserDoc) (user_id : string)
    (recipe_names : list string) : list Recipe :=
  filter (λ r, name r ∈ recipe_names)
    (default [] (stored_recipes container user_id)).

Lemma filter_name_in recipe_ids (l : list Recipe) :
  List.filter (name_in recipe_ids) l = filter (λ r, name r ∈ recipe_ids) l.
Proof.
  induction l as [|r l IH]; [reflexivity|].
  cbn [List.filter]. rewrite filter_cons. unfold name_in at 1.
  case_bool_decide; case_decide; try contradiction; by rewrite IH.
Qed.

Lemma option_bind_Some_l_eq {A B} (a : A) (f : A → option B) :
  Some a ≫= f = f a.
Proof. reflexivity. Qed.

Lemma truthy_list_id {A} (l : list A) :
  (if truthy_list l then Ok l else Ok []) = Ok l.
Proof. by destruct l. Qed.

(** What [GetRecipes] computes, in terms of the stored collection. *)
Lemma GetRecipes_unfold container user_id recipe_ids :
  GetRecipes container user_id recipe_ids =
  Ok (match stored_recipes container user_id with
      | None => []
      | Some stored =>
          if truthy_list recipe_ids
          then filter (λ r, name r ∈ recipe_ids) stored
          else stored
      end).
Proof.
  unfold GetRecipes, stored_recipes.
  destruct (query_items container user_id) as [|d items]; [reflexivity|].
  cbn [head]. rewrite option_bind_Some_l_eq.
  destruct (recipes d) as [m|]; cbn [default id].
  - rewrite option_bind_Some_l_eq. destruct (m !! ("inventory-items-" +:+ user_id)) as [stored|];
      [|reflexivity].
    rewrite truthy_list_id. by rewrite filter_name_in.
  - by rewrite lookup_empty.
Qed.

(** An empty request list switches the filter off, so the whole stored
    collection comes back, none of whose names was asked for. *)
Lemma GetRecipes_empty_request_returns_all :
  GetRecipes example_container "u1" [] = Ok [tomato_soup; toast] ∧
  GetRecipes example_container "u1" []
    ≠ Ok (matching_recipes example_container "u1" []).
Proof. split; [reflexivity | discriminate]. Qed.

(** C1 (as amended). For every store, user and request list, [GetRecipes]
    returns without raising: for a non-empty request list, exactly the stored
    recipes whose name is requested, in stored order; for an empty request
    list, the whole stored collection; and the empty list when nothing is
    stored for the user, when the stored list is empty, or when no stored name
    is requested. *)
Theorem GetRecipes_returns_requested_subset
    (container : list UserDoc) (user_id : string) (recipe_names : list string) :
  let stored := default [] (stored_recipes container user_id) in
  GetRecipes container user_id recipe_names =
    Ok (if truthy_list recipe_names
        then matching_recipes container user_id recipe_names
        else stored)
  ∧ (stored = [] → GetRecipes container user_id recipe_names = Ok [])
  ∧ (recipe_names ≠ [] →
     Forall (λ r, name r ∉ recipe_names) stored →
     GetRecipes container user_id recipe_names = Ok []).
Proof.
  intros stored.
  assert (Heq : GetRecipes container user_id recipe_names =
    Ok (if truthy_list recipe_names
        then matching_recipes container user_id recipe_names
        else stored)).
  { rewrite GetRecipes_unfold. unfold matching_recipes, stored.
    destruct (stored_recipes container user_id); cbn [default]; [done|].
    by destruct (truthy_list recipe_names). }
  split; [exact Heq|]. rewrite Heq. unfold matching_recipes. fold stored.
  split.
  - intros ->. by destruct (truthy_list recipe_names).
  - intros Hne Hnone. destruct recipe_names as [|n ns]; [done|].
    cbn [truthy_list]. f_equal. clear Heq.
    induction Hnone as [|r l Hr _ IH]; [done|].
    rewrite filter_cons. by rewrite decide_False.
Qed.

Lemma GetRecipes_returns_requested_subset_witness :
  GetRecipes example_container "u1" ["Toast"] = Ok [toast]
  ∧ GetRecipes example_container "u3" ["Toast"] = Ok []
  ∧ GetRecipes example_container "u1" ["Pie"] = Ok [].
Proof.
  split; [|split].
  - exact (proj1 (GetRecipes_returns_requested_subset
                    example_container "u1" ["Toast"])).
  - apply (proj1 (proj2 (GetRecipes_returns_requested_subset
                    example_container "u3" ["Toast"]))).
    reflexivity.
  - apply (proj2 (proj2 (GetRecipes_returns_requested_subset
                    example_container "u1" ["Pie"]))).
    + discriminate.
    + vm_compute. repeat constructor; intros H;
        repeat (apply elem_of_cons in H as [H|H]; [discriminate|]);
        by apply elem_of_nil in H.
Defined.

(** ** Formatting *)

Section formatting.
Local Open Scope N_scope.

Lemma is_digit_digit_char d : is_digit (digit_char d) = true.
Proof.
  unfold is_digit, digit_char.
  assert (d mod 10 < 10) as Hm by (apply N.mod_upper_bound; lia).
  generalize dependent (d mod 10). intros m Hm.
  rewrite N_ascii_embedding by lia.
  apply andb_true_iff; split; apply N.leb_le; lia.
Qed.

Lemma string_of_uint_digits d :
  string_forall is_digit (NilEmpty.string_of_uint d) = true.
Proof. induction d; cbn; auto. Qed.

Lemma string_of_uint_nonempty d :
  d ≠ Decimal.Nil → NilEmpty.string_of_uint d ≠ "".
Proof. destruct d; cbn; congruence. Qed.

Lemma str_N_digits n : string_forall is_digit (str_N n) = true.
Proof. apply string_of_uint_digits. Qed.

Lemma str_N_nonempty n : str_N n ≠ "".
Proof.
  apply string_of_uint_nonempty. destruct n as [|p]; cbn.
  - discriminate.
  - apply DecimalPos.Unsigned.to_uint_nonnil.
Qed.

(** ["${x:.2f}"] always has the shape of a two-decimal amount. *)
Lemma dollars_two_decimal x : two_decimal_currency (dollars x).
Proof.
  exists (if negative x then "-" else ""), (str_N (hundredths x / 100)),
    (digit_char (hundredths x / 10)), (digit_char (hundredths x)).
  repeat split.
  - destruct (negative x); [right | left]; reflexivity.
  - apply str_N_nonempty.
  - apply str_N_digits.
  - apply is_digit_digit_char.
  - apply is_digit_digit_char.
Qed.

Lemma upper_char_not_lower c : negb (is_lower (upper_char c)) = true.
Proof. destruct c as [[] [] [] [] [] [] [] []]; reflexivity. Qed.

(** Upper-casing the ASCII letters leaves no lower-case letter. *)
Lemma upper_is_upper_case s : is_upper_case (ascii_upper s) = true.
Proof.
  induction s as [|c s IH]; [reflexivity|].
  cbn. rewrite upper_char_not_lower. exact IH.
Qed.

(** The digits printed are those of the rounded amount: the value the
    string denotes, in hundredths, is [hundredths x]. *)
Lemma hundredths_two_digits x :
  let h := hundredths x in
  h = 100 * (h / 100) + 10 * ((h / 10) mod 10) + h mod 10.
Proof.
  intros h.
  pose proof (N.div_mod h 10 ltac:(lia)).
  pose proof (N.div_mod (h / 10) 10 ltac:(lia)).
  rewrite N.Div0.div_div in *. change (10 * 10) with 100 in *. lia.
Qed.
(** *** What a rendered amount and an upper-cased text are *)

(** The decimal numeral [s] read as a number. *)
Definition read_N (s : string) : option N :=
  N.of_uint <$> NilEmpty.uint_of_string s.

(** [h] is the magnitude of [x] in hundredths, rounded to the nearest
    integer, a tie going to the even one. *)
Definition nearest_hundredth (x : pyfloat) (h : N) : Prop :=
  let num := mantissa x * 2 ^ Z.to_N (exponent x) * 100 in
  let den := 2 ^ Z.to_N (- exponent x) in
  2 * num ≤ 2 * h * den + den
  ∧ 2 * h * den ≤ 2 * num + den
  ∧ (2 * num = 2 * h * den + den ∨ 2 * h * den = 2 * num + den →
     N.even h = true).

(** [s] shows the amount [x]: a dollar sign, a minus sign exactly when [x]
    is negative, then the numeral of the whole part, a point and two digits,
    which together read as [x] rounded to the nearest hundredth. *)
Definition renders_amount (x : pyfloat) (s : string) : Prop :=
  ∃ (sign whole : string) (d1 d2 : ascii) (w c : N),
    s = "$" +:+ sign +:+ whole +:+ "." +:+ String d1 (String d2 EmptyString)
    ∧ sign = (if negative x then "-" else "")
    ∧ whole ≠ ""
    ∧ string_forall is_digit whole = true
    ∧ is_digit d1 = true ∧ is_digit d2 = true
    ∧ read_N whole = Some w
    ∧ read_N (String d1 (String d2 EmptyString)) = Some c
    ∧ nearest_hundredth x (100 * w + c).

(** [c'] is [c] in upper case: the capital of a letter [a]-[z], and [c]
    itself otherwise. *)
Definition upper_case_char (c c' : ascii) : Prop :=
  if is_lower c then N_of_ascii c' + 32 = N_of_ascii c else c' = c.

(** [u] is [s] with every character in upper case. *)
Definition upper_case_of (s u : string) : Prop :=
  Forall2 upper_case_char (list_ascii_of_string s) (list_ascii_of_string u).

Lemma read_N_str_N n : read_N (str_N n) = Some n.
Proof.
  unfold read_N, str_N. rewrite NilEmpty.usu. cbn.
  by rewrite DecimalN.Unsigned.of_to.
Qed.

Lemma read_N_two_digits a b :
  read_N (String (digit_char a) (String (digit_char b) EmptyString))
  = Some (10 * (a mod 10) + b mod 10).
Proof.
  unfold digit_char.
  assert (a mod 10 < 10) as Ha by (apply N.mod_upper_bound; lia).
  assert (b mod 10 < 10) as Hb by (apply N.mod_upper_bound; lia).
  generalize dependent (a mod 10). intros m Hm.
  generalize dependent (b mod 10). intros n Hn.
  assert (Hcases : ∀ k, k < 10 →
    k = 0 ∨ k = 1 ∨ k = 2 ∨ k = 3 ∨ k = 4 ∨ k = 5 ∨ k = 6 ∨ k = 7 ∨ k = 8
    ∨ k = 9) by (intros; lia).
  destruct (Hcases m Hm) as [->|[->|[->|[->|[->|[->|[->|[->|[->| ->]]]]]]]]];
    destruct (Hcases n Hn) as [->|[->|[->|[->|[->|[->|[->|[->|[->| ->]]]]]]]]];
    reflexivity.
Qed.

Lemma two_digits_mod h : 10 * ((h / 10) mod 10) + h mod 10 = h mod 100.
Proof.
  pose proof (N.div_mod h 10 ltac:(lia)).
  pose proof (N.div_mod (h / 10) 10 ltac:(lia)).
  pose proof (N.div_mod h 100 ltac:(lia)).
  pose proof (N.mod_upper_bound h 10 ltac:(lia)).
  pose proof (N.mod_upper_bound (h / 10) 10 ltac:(lia)).
  pose proof (N.mod_upper_bound h 100 ltac:(lia)).
  rewrite N.Div0.div_div in *. change (10 * 10) with 100 in *.
  generalize dependent (h mod 100). generalize dependent (h mod 10).
  generalize dependent ((h / 10) mod 10). generalize dependent (h / 100).
  generalize dependent (h / 10). intros. lia.
Qed.

Lemma round_half_even_nearest num den :
  0 < den →
  let q := round_half_even num den in
  2 * num ≤ 2 * q * den + den
  ∧ 2 * q * den ≤ 2 * num + den
  ∧ (2 * num = 2 * q * den + den ∨ 2 * q * den = 2 * num + den →
     N.even q = true).
Proof.
  intros Hden q. subst q. unfold round_half_even.
  pose proof (N.div_mod num den ltac:(lia)) as Hdiv.
  pose proof (N.mod_upper_bound num den ltac:(lia)) as Hr.
  set (q0 := num / den) in *. set (r := num mod den) in *.
  assert (Hsucc : 2 * (q0 + 1) * den = 2 * (den * q0) + 2 * den) by ring.
  assert (Hsame : 2 * q0 * den = 2 * (den * q0)) by ring.
  destruct (den <? 2 * r) eqn:Hlt; cbn [orb].
  - apply N.ltb_lt in Hlt. rewrite Hsucc. repeat split; lia.
  - apply N.ltb_ge in Hlt.
    destruct (2 * r =? den) eqn:Heq; cbn [andb].
    + apply N.eqb_eq in Heq. destruct (N.odd q0) eqn:Hodd.
      * rewrite Hsucc. repeat split; try lia.
        intros _. by rewrite N.add_1_r, N.even_succ.
      * rewrite Hsame. repeat split; try lia.
        intros _. by rewrite <- N.negb_odd, Hodd.
    + apply N.eqb_neq in Heq. rewrite Hsame. repeat split; lia.
Qed.

Lemma hundredths_nearest x : nearest_hundredth x (hundredths x).
Proof.
  unfold nearest_hundredth, hundredths.
  destruct (exponent x) as [|e|e]; simpl Z.opp; simpl Z.to_N;
    rewrite ?N.pow_0_r, ?N.mul_1_r.
  - repeat split; lia.
  - generalize (mantissa x * 2 ^ N.pos e * 100). intros n.
    repeat split; lia.
  - apply round_half_even_nearest.
    apply N.neq_0_lt_0, N.pow_nonzero. lia.
Qed.

(** ["${x:.2f}"] shows [x] to the nearest hundredth. *)
Lemma dollars_renders_amount x : renders_amount x (dollars x).
Proof.
  exists (if negative x then "-" else ""), (str_N (hundredths x / 100)),
    (digit_char (hundredths x / 10)), (digit_char (hundredths x)),
    (hundredths x / 100), (hundredths x mod 100).
  split; [reflexivity|]. split; [reflexivity|].
  split; [apply str_N_nonempty|]. split; [apply str_N_digits|].
  split; [apply is_digit_digit_char|]. split; [apply is_digit_digit_char|].
  split; [apply read_N_str_N|].
  split; [by rewrite read_N_two_digits, two_digits_mod|].
  rewrite <- N.div_mod by lia. apply hundredths_nearest.
Qed.

Lemma upper_char_upper_case c : upper_case_char c (upper_char c).
Proof. destruct c as [[] [] [] [] [] [] [] []]; vm_compute; reflexivity. Qed.

(** On ASCII text [str.upper] gives the text in upper case, letter by
    letter. *)
Lemma upper_upper_case_of s :
  is_ascii s = true → upper_case_of s (upper s) ∧ is_upper_case (upper s) = true.
Proof.
  intros Hascii. rewrite (upper_ascii s Hascii).
  split; [|apply upper_is_upper_case].
  unfold upper_case_of. clear Hascii.
  induction s as [|c s IH]; cbn; constructor; [apply upper_char_upper_case|].
  exact IH.
Qed.

End formatting.

(** ** The layout of a document *)

(** Sections laid out one after the other with one break between
    neighbours. *)
Fixpoint join_sections {A : Type} (brk : A) (sections : list (list A))
  : list A :=
  match sections with
  | [] => []
  | [s] => s
  | s :: rest => s ++ brk :: join_sections brk rest
  end.

Lemma fold_left_append {A B : Type} (g : list B → A → list B)
    (f : A → list B) :
  (∀ acc x, g acc x = acc ++ f x) →
  ∀ l acc, fold_left g l acc = acc ++ concat (map f l).
Proof.
  intros Hg l. induction l as [|x l IH]; intros acc; cbn.
  - by rewrite app_nil_r.
  - by rewrite IH, Hg, <- app_assoc.
Qed.

Lemma join_sections_cons {A : Type} (brk : A) s sections :
  join_sections brk (s :: sections)
  = s ++ concat (map (λ s', brk :: s') sections).
Proof.
  revert s. induction sections as [|s' rest IH]; intros s.
  - cbn. by rewrite app_nil_r.
  - change (join_sections brk (s :: s' :: rest))
      with (s ++ brk :: join_sections brk (s' :: rest)).
    by rewrite IH.
Qed.

(** A loop that puts a break before every iteration but the first lays its
    sections out with [join_sections]. *)
Lemma fold_left_enumerate_join {A B : Type}
    (g : list B → nat * A → list B) (brk : B) (f : A → list B) :
  (∀ acc x, g acc (O, x) = acc ++ f x) →
  (∀ acc n x, g acc (S n, x) = acc ++ brk :: f x) →
  ∀ l acc,
    fold_left g (enumerate 0 l) acc = acc ++ join_sections brk (map f l).
Proof.
  intros H0 HS.
  assert (Htail : ∀ l n acc,
    fold_left g (enumerate (S n) l) acc
    = acc ++ concat (map (λ s', brk :: s') (map f l))).
  { induction l as [|x l IH]; intros n acc; cbn.
    - by rewrite app_nil_r.
    - rewrite IH, HS, <- app_assoc. reflexivity. }
  intros [|x l] acc.
  - cbn. by rewrite app_nil_r.
  - cbn [enumerate fold_left map]. rewrite Htail, H0, <- app_assoc.
    by rewrite join_sections_cons.
Qed.

Section pdf_layout.
Variable self : PDFGenerator.

Definition ingredient_row (ing : Ingredient) : list string :=
  [ upper (ingredient ing); upper (recipe_amount ing);
    dollars (unit_cost ing); dollars (ing_total_cost ing) ].

Definition info_rows (recipe_info : RecipeData) : list (list string) :=
  [ ["Servings"; str_int (servings recipe_info)];
    ["Total Cost"; dollars (total_cost recipe_info)];
    ["Cost per Serving"; dollars (cost_per_serving recipe_info)] ].

(** The five blocks written for an instructions object. *)
Definition pdf_instruction_blocks (ai : Instructions) : list Flowable :=
  Paragraph "Preparation Method" (section_style self)
  :: map (λ '(i, step),
            Paragraph (str_int (Z.of_nat i) +:+ ". " +:+ step) (Normal self))
       (enumerate 1 (preparation_steps ai))
  ++ Spacer 1 20
  :: Paragraph "Cooking Tips" (section_style self)
  :: map (λ tip, Paragraph ("• " +:+ tip) (Normal self)) (cooking_tips ai)
  ++ Spacer 1 20
  :: Paragraph "Timing" (section_style self)
  :: map (λ '(step, time),
            Paragraph ("• " +:+ step +:+ ": " +:+ time) (Normal self))
       (timing ai)
  ++ [ Spacer 1 20;
       Paragraph "Storage" (section_style self);
       Paragraph (storage ai) (Normal self);
       Spacer 1 12;
       Paragraph "Serving Suggestions" (section_style self);
       Paragraph (serving ai) (Normal self) ].

(** The part of a section every recipe gets. *)
Definition pdf_recipe_blocks (recipe : Recipe) : list Flowable :=
  [ Paragraph (name recipe) (title_style self);
    Spacer 1 20;
    Table (info_rows (data recipe)) [144; 288]%Z info_table_style;
    Spacer 1 20;
    Paragraph "Ingredients" (section_style self);
    Table (ingredients_header :: map ingredient_row (ingredients (data recipe)))
      [180; 108; 108; 108]%Z ing_table_style;
    Spacer 1 20 ].

(** The section of one recipe. *)
Definition pdf_section (recipe : Recipe) (ai_instructions : ai_value)
  : list Flowable :=
  pdf_recipe_blocks recipe
  ++ match ai_instructions with
     | ai_dict ai => pdf_instruction_blocks ai
     | ai_None | ai_empty_dict => []
     end.

Lemma concat_map_singleton {A B : Type} (f : A → B) (l : list A) :
  concat (map (λ x, [f x]) l) = map f l.
Proof. induction l; cbn; congruence. Qed.

Lemma concat_map_pair {A B C : Type} (f : A → B → C) (l : list (A * B)) :
  concat (map (λ '(a, b), [f a b]) l) = map (λ '(a, b), f a b) l.
Proof. induction l as [|[a b] l IH]; cbn; congruence. Qed.

Lemma ingredients_data_rows recipe_info :
  ingredients_data recipe_info
  = ingredients_header :: map ingredient_row (ingredients recipe_info).
Proof.
  unfold ingredients_data.
  rewrite (fold_left_append _ (λ ing, [ingredient_row ing]))
    by reflexivity.
  by rewrite concat_map_singleton.
Qed.

Lemma pdf_instructions_appends story ai :
  pdf_instructions self story ai = story ++ pdf_instruction_blocks ai.
Proof.
  unfold pdf_instructions, pdf_instruction_blocks.
  rewrite (fold_left_append _
    (λ '(i, step),
       [Paragraph (str_int (Z.of_nat i) +:+ ". " +:+ step) (Normal self)]))
    by (by intros acc [i step]).
  rewrite (fold_left_append _
    (λ tip, [Paragraph ("• " +:+ tip) (Normal self)])) by reflexivity.
  rewrite (fold_left_append _
    (λ '(step, time),
       [Paragraph ("• " +:+ step +:+ ": " +:+ time) (Normal self)]))
    by (by intros acc [step time]).
  rewrite !concat_map_singleton.
  rewrite (concat_map_pair (λ i step, _)), (concat_map_pair (λ step time, _)).
  repeat (rewrite <- ?app_assoc; cbn [app]). reflexivity.
Qed.
End pdf_layout.

Lemma pdf_recipe_appends self story recipe ai_instructions :
  pdf_recipe self story recipe ai_instructions
  = story ++ pdf_section self recipe ai_instructions.
Proof.
  unfold pdf_recipe, pdf_section, pdf_recipe_blocks.
  rewrite ingredients_data_rows.
  destruct ai_instructions as [| |ai]; rewrite ?pdf_instructions_appends;
    repeat (rewrite <- ?app_assoc; cbn [app]); reflexivity.
Qed.

(** The story is the recipes' sections, in order, one page break between
    neighbours. *)
Lemma pdf_story_layout self recipe_list ai_instructions_list :
  pdf_story self recipe_list ai_instructions_list
  = join_sections PageBreak
      (map (λ '(r, ai), pdf_section self r ai)
         (zip recipe_list ai_instructions_list)).
Proof.
  unfold pdf_story.
  rewrite (fold_left_enumerate_join _ PageBreak
             (λ '(r, ai), pdf_section self r ai)).
  - reflexivity.
  - intros acc [r ai]. cbn. apply pdf_recipe_appends.
  - intros acc n [r ai]. cbn. rewrite pdf_recipe_appends.
    by rewrite <- app_assoc.
Qed.

(** *** The Word document *)

Lemma alter_last {A : Type} (f : A → A) (l : list A) (x : A) :
  alter f (length l) (l ++ [x]) = l ++ [f x].
Proof. induction l as [|y l IH]; cbn; [reflexivity | by rewrite IH]. Qed.

Lemma lookup_last {A : Type} (l : list A) (x : A) :
  (l ++ [x]) !! length l = Some x.
Proof. induction l; cbn; auto. Qed.

Lemma with_body_with_body d b b' : with_body (with_body d b) b' = with_body d b'.
Proof. reflexivity. Qed.

Lemma with_body_id d : with_body d (body d) = d.
Proof. by destruct d. Qed.

Lemma add_paragraph_appends text style d :
  (add_paragraph text style d).2
  = with_body d (body d ++ [DocxParagraph text style false]).
Proof. reflexivity. Qed.

(** Filling a cell of the table added last. *)
Lemma set_cell_text_last d b s c rows i j text :
  set_cell_text (length b) i j text (with_body d (b ++ [DocxTable s c rows]))
  = with_body d (b ++ [DocxTable s c (alter (λ row, <[j := text]> row) i rows)]).
Proof. unfold set_cell_text. cbn [body with_body]. by rewrite alter_last. Qed.

Lemma add_row_last d b s c rows :
  add_row (length b) (with_body d (b ++ [DocxTable s c rows]))
  = (length rows,
     with_body d (b ++ [DocxTable s c (rows ++ [replicate c ""])])).
Proof.
  unfold add_row. cbn [body with_body].
  by rewrite lookup_last, alter_last.
Qed.

Lemma fold_left_docx_append {A : Type} (g : Document → A → Document)
    (f : A → list Block) :
  (∀ d x, g d x = with_body d (body d ++ f x)) →
  ∀ l d, fold_left g l d = with_body d (body d ++ concat (map f l)).
Proof.
  intros Hg l. induction l as [|x l IH]; intros d; cbn.
  - by rewrite app_nil_r, with_body_id.
  - rewrite IH, Hg. cbn [body with_body]. by rewrite <- app_assoc.
Qed.

(** The rows the loop over the ingredients adds to the table added last. *)
Lemma docx_ingredient_rows d b s rows (ings : list Ingredient) :
  fold_left
    (λ d ing,
       let '(row, d) := add_row (length b) d in
       let d := set_cell_text (length b) row 0 (upper (ingredient ing)) d in
       let d := set_cell_text (length b) row 1 (upper (recipe_amount ing)) d in
       let d := set_cell_text (length b) row 2 (dollars (unit_cost ing)) d in
       set_cell_text (length b) row 3 (dollars (ing_total_cost ing)) d)
    ings (with_body d (b ++ [DocxTable s 4 rows]))
  = with_body d (b ++ [DocxTable s 4 (rows ++ map ingredient_row ings)]).
Proof.
  revert rows. induction ings as [|ing ings IH]; intros rows.
  - cbn. by rewrite app_nil_r.
  - cbn [fold_left map]. rewrite add_row_last.
    rewrite !set_cell_text_last, !alter_last. cbn [replicate].
    change (<[3%nat:=?d4]> (<[2%nat:=?d3]> (<[1%nat:=?d2]> (<[0%nat:=?d1]> [""; ""; ""; ""]))))
      with [d1; d2; d3; d4].
    rewrite IH. by rewrite <- app_assoc.
Qed.

Definition docx_instruction_blocks (ai : Instructions) : list Block :=
  DocxParagraph "Preparation Method" (Some "CustomHeading") false
  :: map (λ '(i, step),
            DocxParagraph (str_int (Z.of_nat i) +:+ ". " +:+ step) None false)
       (enumerate 1 (preparation_steps ai))
  ++ DocxParagraph "" None false
  :: DocxParagraph "Cooking Tips" (Some "CustomHeading") false
  :: map (λ tip, DocxParagraph ("• " +:+ tip) None false) (cooking_tips ai)
  ++ DocxParagraph "" None false
  :: DocxParagraph "Timing" (Some "CustomHeading") false
  :: map (λ '(step, time),
            DocxParagraph ("• " +:+ step +:+ ": " +:+ time) None false)
       (timing ai)
  ++ [ DocxParagraph "" None false;
       DocxParagraph "Storage" (Some "CustomHeading") false;
       DocxParagraph (storage ai) None false;
       DocxParagraph "Serving Suggestions" (Some "CustomHeading") false;
       DocxParagraph (serving ai) None false ].

Definition docx_recipe_blocks (recipe : Recipe) : list Block :=
  [ DocxParagraph (name recipe) (Some "CustomTitle") true;
    DocxParagraph "" None false;
    DocxTable (Some "Table Grid") 2 (info_rows (data recipe));
    DocxParagraph "" None false;
    DocxParagraph "INGREDIENTS" (Some "CustomHeading") false;
    DocxTable (Some "Table Grid") 4
      (ingredients_header :: map ingredient_row (ingredients (data recipe)));
    DocxParagraph "" None false ].

(** The section of one recipe in the Word document. *)
Definition docx_section (recipe : Recipe) (ai_instructions : ai_value)
  : list Block :=
  docx_recipe_blocks recipe
  ++ match ai_instructions with
     | ai_dict ai => docx_instruction_blocks ai
     | ai_None | ai_empty_dict => []
     end.

Lemma add_paragraph_with_body text style d b :
  (add_paragraph text style (with_body d b)).2
  = with_body d (b ++ [DocxParagraph text style false]).
Proof. reflexivity. Qed.

Lemma fold_left_docx_with_body {A : Type} (g : Document → A → Document)
    (f : A → list Block) :
  (∀ d x, g d x = with_body d (body d ++ f x)) →
  ∀ l d b,
    fold_left g l (with_body d b) = with_body d (b ++ concat (map f l)).
Proof. intros Hg l d b. by rewrite (fold_left_docx_append g f Hg). Qed.

Lemma docx_instructions_appends d ai :
  docx_instructions d ai = with_body d (body d ++ docx_instruction_blocks ai).
Proof.
  transitivity (docx_instructions (with_body d (body d)) ai);
    [by rewrite with_body_id|].
  unfold docx_instructions, docx_instruction_blocks.
  rewrite add_paragraph_with_body.
  rewrite (fold_left_docx_with_body _
    (λ '(i, step),
       [DocxParagraph (str_int (Z.of_nat i) +:+ ". " +:+ step) None false]))
    by (by intros d' [i step]).
  rewrite !add_paragraph_with_body.
  rewrite (fold_left_docx_with_body _
    (λ tip, [DocxParagraph ("• " +:+ tip) None false])) by reflexivity.
  rewrite !add_paragraph_with_body.
  rewrite (fold_left_docx_with_body _
    (λ '(step, time),
       [DocxParagraph ("• " +:+ step +:+ ": " +:+ time) None false]))
    by (by intros d' [step time]).
  rewrite !add_paragraph_with_body.
  rewrite !concat_map_singleton.
  rewrite (concat_map_pair (λ i step, _)), (concat_map_pair (λ step time, _)).
  f_equal. repeat (rewrite <- ?app_assoc; cbn [app]). reflexivity.
Qed.

Lemma docx_recipe_appends d recipe ai_instructions :
  docx_recipe d recipe ai_instructions
  = with_body d (body d ++ docx_section recipe ai_instructions).
Proof.
  unfold docx_section, docx_recipe_blocks, info_rows.
  destruct ai_instructions as [| |ai]; unfold docx_recipe.
  all: unfold add_paragraph at 1; unfold set_alignment_center.
  all: cbn [body with_body fst snd]; rewrite alter_last.
  all: rewrite !with_body_with_body, add_paragraph_appends.
  all: cbn [body with_body]; rewrite !with_body_with_body.
  all: set (b1 := (body d ++ _) ++ _).
  all: unfold add_table at 1; cbn [body with_body].
  all: unfold set_table_style at 1; cbn [body with_body]; rewrite alter_last.
  all: rewrite !with_body_with_body.
  all: cbn [enumerate fold_left replicate].
  all: rewrite !set_cell_text_last; cbn [alter list_alter].
  all: change (<[1%nat:=?y]> (<[0%nat:=?x]> [""; ""])) with [x; y].
  all: rewrite !add_paragraph_appends; cbn [body with_body].
  all: rewrite !with_body_with_body.
  all: set (b2 := ((b1 ++ _) ++ _) ++ _).
  all: unfold add_table at 1; cbn [body with_body].
  all: unfold set_table_style at 1; cbn [body with_body]; rewrite alter_last.
  all: rewrite !with_body_with_body.
  all: change (enumerate 0 ingredients_header)
         with [(0, "INGREDIENT"); (1, "AMOUNT"); (2, "COST PER UNIT");
               (3, "TOTAL COST")]%nat.
  all: cbn [fold_left replicate].
  all: rewrite !set_cell_text_last; cbn [alter list_alter].
  all: change (<[3%nat:=?d4]> (<[2%nat:=?d3]> (<[1%nat:=?d2]> (<[0%nat:=?d1]> [""; ""; ""; ""]))))
         with [d1; d2; d3; d4].
  all: rewrite docx_ingredient_rows.
  all: rewrite add_paragraph_appends; cbn [body with_body].
  all: rewrite ?with_body_with_body.
  all: rewrite ?docx_instructions_appends; cbn [body with_body].
  all: rewrite ?with_body_with_body.
  all: subst b2 b1; f_equal.
  all: repeat (rewrite <- ?app_assoc; cbn [app]); reflexivity.
Qed.

Lemma docx_loop_layout (items : list (Recipe * ai_value)) d :
  fold_left docx_iteration (enumerate 0 items) d
  = with_body d
      (body d ++ join_sections DocxPageBreak
                   (map (λ '(r, ai), docx_section r ai) items)).
Proof.
  assert (Htail : ∀ (items : list (Recipe * ai_value)) n d,
    fold_left docx_iteration (enumerate (S n) items) d
    = with_body d (body d ++
        concat (map (λ s', DocxPageBreak :: s')
                  (map (λ '(r, ai), docx_section r ai) items)))).
  { clear. induction items as [|[r ai] items IH]; intros n d;
      cbn [enumerate fold_left map concat].
    - by rewrite app_nil_r, with_body_id.
    - rewrite IH. cbn [docx_iteration Nat.ltb Nat.leb].
      rewrite docx_recipe_appends. unfold add_page_break.
      cbn [body with_body]. f_equal.
      repeat (rewrite <- ?app_assoc; cbn [app]). reflexivity. }
  destruct items as [|[r ai] items].
  - cbn. by rewrite app_nil_r, with_body_id.
  - cbn [enumerate fold_left map]. rewrite Htail.
    cbn [docx_iteration Nat.ltb Nat.leb]. rewrite docx_recipe_appends.
    cbn [body with_body]. rewrite join_sections_cons.
    by rewrite <- app_assoc.
Qed.

(** The body after the loop: what was there before, then the recipes'
    sections, in order, one page break between neighbours. *)
Lemma create_recipe_docx_layout self recipe_list ai_instructions_list :
  (create_recipe_docx self recipe_list ai_instructions_list).2
  = body (doc self)
    ++ join_sections DocxPageBreak
         (map (λ '(r, ai), docx_section r ai)
            (zip recipe_list ai_instructions_list)).
Proof. unfold create_recipe_docx. cbn [snd]. by rewrite docx_loop_layout. Qed.

(** ** Reading a rendered document *)

(** The text of a title paragraph. *)
Definition pdf_title (self : PDFGenerator) (f : Flowable) : option string :=
  match f with
  | Paragraph t st => if decide (st = title_style self) then Some t else None
  | _ => None
  end.

Definition docx_title (b : Block) : option string :=
  match b with
  | DocxParagraph t st _ =>
      if decide (st = Some "CustomTitle") then Some t else None
  | _ => None
  end.

(** The text of a section heading. *)
Definition pdf_heading (self : PDFGenerator) (f : Flowable) : option string :=
  match f with
  | Paragraph t st => if decide (st = section_style self) then Some t else None
  | _ => None
  end.

Definition docx_heading (b : Block) : option string :=
  match b with
  | DocxParagraph t st _ =>
      if decide (st = Some "CustomHeading") then Some t else None
  | _ => None
  end.

(** The cells of a table. *)
Definition pdf_table (f : Flowable) : option (list (list string)) :=
  match f with Table cells _ _ => Some cells | _ => None end.

Definition docx_table (b : Block) : option (list (list string)) :=
  match b with DocxTable _ _ rows => Some rows | _ => None end.

(** [s] is the section of the recipe called [nm]: it opens with the title
    paragraph carrying [nm], has no other title paragraph, and has no
    break. *)
Definition section_of {A : Type} (is_break : A → bool)
    (title : A → option string) (nm : string) (s : list A) : Prop :=
  ∃ t rest,
    s = t :: rest ∧ title t = Some nm
    ∧ Forall (λ x, title x = None) rest
    ∧ Forall (λ x, is_break x = false) s.

Definition instruction_headings : list string :=
  ["Preparation Method"; "Cooking Tips"; "Timing"; "Storage";
   "Serving Suggestions"].

Lemma map_zip_with {A B C : Type} (f : A → B → C) (l : list A) (k : list B) :
  map (λ '(a, b), f a b) (zip l k) = zip_with f l k.
Proof.
  revert k. induction l as [|a l IH]; intros [|b k]; cbn; try reflexivity.
  by rewrite IH.
Qed.

Lemma omap_none {A B : Type} (f : A → option B) (l : list A) :
  Forall (λ x, f x = None) l → omap f l = [].
Proof. induction 1 as [|x l Hx _ IH]; cbn; [done | by rewrite Hx]. Qed.

Lemma omap_map_none {A B C : Type} (f : B → option C) (g : A → B)
    (l : list A) :
  (∀ x, f (g x) = None) → omap f (map g l) = [].
Proof. intros H. induction l; cbn; [done | by rewrite H]. Qed.

Lemma Forall_map_all {A B : Type} (P : B → Prop) (g : A → B) (l : list A) :
  (∀ x, P (g x)) → Forall P (map g l).
Proof. intros H. induction l; cbn; constructor; auto. Qed.

(** Splits a [Forall] over a block list written with [::], [++] and [map]
    into its elements and closes each by computation. *)
Ltac forall_blocks :=
  repeat first
    [ apply Forall_nil_2
    | apply Forall_cons_2; [reflexivity|]
    | apply Forall_app_2
    | apply Forall_map_all; first [intros [? ?] | intros ?]; reflexivity ].

Lemma pdf_section_is_section recipe ai :
  section_of is_PageBreak (pdf_title PDFGenerator_init) (name recipe)
    (pdf_section PDFGenerator_init recipe ai).
Proof.
  eexists _, _. split; [reflexivity|]. split; [reflexivity|].
  split; destruct ai as [| |ai]; cbn [app]; forall_blocks.
Qed.

Lemma docx_section_is_section recipe ai :
  section_of is_DocxPageBreak docx_title (name recipe) (docx_section recipe ai).
Proof.
  eexists _, _. split; [reflexivity|]. split; [reflexivity|].
  split; destruct ai as [| |ai]; cbn [app]; forall_blocks.
Qed.

Lemma Forall2_zip_with_sections {A : Type} (P : Recipe → list A → Prop)
    (f : Recipe → ai_value → list A) (rl : list Recipe) (al : list ai_value) :
  length rl = length al →
  (∀ r ai, P r (f r ai)) →
  Forall2 P rl (zip_with f rl al).
Proof.
  intros Hlen HP. revert al Hlen.
  induction rl as [|r rl IH]; intros [|ai al] Hlen; try discriminate;
    cbn; constructor; auto.
Qed.

Lemma section_of_titles {A : Type} (is_break : A → bool)
    (title : A → option string) nm (s : list A) :
  section_of is_break title nm s → omap title s = [nm].
Proof.
  intros (t & rest & -> & Ht & Hrest & _). cbn. rewrite Ht.
  by rewrite (omap_none _ _ Hrest).
Qed.

Lemma omap_app' {A B : Type} (f : A → option B) (l k : list A) :
  omap f (l ++ k) = omap f l ++ omap f k.
Proof.
  induction l as [|x l IH]; cbn; [done|]. destruct (f x); cbn; by rewrite IH.
Qed.

(** The titles of a laid-out document are its sections' titles, in order. *)
Lemma titles_join_sections {A B : Type} (brk : A) (title : A → option string)
    (nm : B → string) (sec : B → list A) (l : list B) :
  title brk = None →
  (∀ x, omap title (sec x) = [nm x]) →
  omap title (join_sections brk (map sec l)) = map nm l.
Proof.
  intros Hbrk Hsec. destruct l as [|x l]; [reflexivity|].
  cbn [map]. rewrite join_sections_cons, omap_app', Hsec. cbn. f_equal.
  induction l as [|y l IH]; [reflexivity|].
  cbn. rewrite Hbrk, omap_app', Hsec. cbn. by rewrite IH.
Qed.

Lemma zip_take_min {A B : Type} (l : list A) (k : list B) :
  zip (take (length l `min` length k) l) (take (length l `min` length k) k)
  = zip l k.
Proof.
  revert k. induction l as [|a l IH]; intros [|b k]; cbn; try reflexivity.
  by rewrite IH.
Qed.

Lemma map_fst_zip_take {A B : Type} (l : list A) (k : list B) :
  map fst (zip l k) = take (length l `min` length k) l.
Proof.
  revert k. induction l as [|a l IH]; intros [|b k]; cbn; try reflexivity.
  by rewrite IH.
Qed.

Lemma length_zip_min {A B : Type} (l : list A) (k : list B) :
  length (zip l k) = length l `min` length k.
Proof.
  revert k. induction l as [|a l IH]; intros [|b k]; cbn; try reflexivity.
  by rewrite IH.
Qed.

Lemma filter_all_false {A : Type} (p : A → bool) (l : list A) :
  Forall (λ x, p x = false) l → List.filter p l = [].
Proof. induction 1 as [|x l Hx _ IH]; cbn; [done | by rewrite Hx]. Qed.

(** A laid-out document has one break fewer than it has sections. *)
Lemma breaks_join_sections {A : Type} (is_break : A → bool) (brk : A)
    (sections : list (list A)) :
  is_break brk = true →
  Forall (Forall (λ x, is_break x = false)) sections →
  length (List.filter is_break (join_sections brk sections))
  = pred (length sections).
Proof.
  intros Hbrk Hsec. destruct Hsec as [|s rest Hs Hrest]; [reflexivity|].
  rewrite join_sections_cons, List.filter_app, (filter_all_false _ _ Hs).
  cbn. induction Hrest as [|s' rest' Hs' _ IH]; [reflexivity|].
  cbn. rewrite Hbrk, List.filter_app, (filter_all_false _ _ Hs').
  cbn. by rewrite IH.
Qed.

Lemma section_of_no_break {A : Type} (is_break : A → bool)
    (title : A → option string) (l : list Recipe) (sections : list (list A)) :
  Forall2 (λ r s, section_of is_break title (name r) s) l sections →
  Forall (Forall (λ x, is_break x = false)) sections.
Proof.
  induction 1 as [|r s l sections (t & rest & _ & _ & _ & Hs) _ IH];
    constructor; auto.
Qed.

(** ** The renderers *)

Definition fresh_instructions : Instructions :=
  {| preparation_steps := ["Chop"; "Simmer"];
     cooking_tips := ["Use ripe tomatoes"];
     timing := [("Simmer", "20 min")];
     techniques := ["Simmering"];
     storage := "Keeps three days";
     serving := "Serve hot" |}.

(** C2. Given a recipe list and an instruction list of the same length, each
    renderer (a newly constructed generator, as [GenerateDocuments] uses it)
    produces the recipes' sections in the order of the list, one section per
    recipe, each opening with that recipe's title and free of page breaks,
    with exactly one page break between neighbouring sections and none
    before the first or after the last. *)
Theorem renderers_one_section_per_recipe
    (recipe_list : list Recipe) (ai_instructions_list : list ai_value) :
  length recipe_list = length ai_instructions_list →
  let pdf_sections :=
    zip_with (pdf_section PDFGenerator_init) recipe_list ai_instructions_list in
  let docx_sections :=
    zip_with docx_section recipe_list ai_instructions_list in
  let pdf := (create_recipe_pdf PDFGenerator_init recipe_list
                ai_instructions_list).2 in
  let docx := (create_recipe_docx WordGenerator_init recipe_list
                 ai_instructions_list).2 in
  pdf = join_sections PageBreak pdf_sections
  ∧ Forall2
      (λ r s, section_of is_PageBreak (pdf_title PDFGenerator_init) (name r) s)
      recipe_list pdf_sections
  ∧ length (List.filter is_PageBreak pdf) = pred (length recipe_list)
  ∧ docx = join_sections DocxPageBreak docx_sections
  ∧ Forall2 (λ r s, section_of is_DocxPageBreak docx_title (name r) s)
      recipe_list docx_sections
  ∧ length (List.filter is_DocxPageBreak docx) = pred (length recipe_list).
Proof.
  intros Hlen pdf_sections docx_sections pdf docx.
  assert (Hpdf : pdf = join_sections PageBreak pdf_sections).
  { subst pdf. cbn [create_recipe_pdf snd].
    by rewrite pdf_story_layout, map_zip_with. }
  assert (Hdocx : docx = join_sections DocxPageBreak docx_sections).
  { subst docx. by rewrite create_recipe_docx_layout, map_zip_with. }
  assert (Hpdf_sections :
    Forall2
      (λ r s, section_of is_PageBreak (pdf_title PDFGenerator_init) (name r) s)
      recipe_list pdf_sections).
  { apply Forall2_zip_with_sections; [done|]. apply pdf_section_is_section. }
  assert (Hdocx_sections :
    Forall2 (λ r s, section_of is_DocxPageBreak docx_title (name r) s)
      recipe_list docx_sections).
  { apply Forall2_zip_with_sections; [done|]. apply docx_section_is_section. }
  repeat split; try assumption.
  - rewrite Hpdf, breaks_join_sections;
      [by rewrite <- (Forall2_length _ _ _ Hpdf_sections) | done
      | by eapply section_of_no_break].
  - rewrite Hdocx, breaks_join_sections;
      [by rewrite <- (Forall2_length _ _ _ Hdocx_sections) | done
      | by eapply section_of_no_break].
Qed.

(** C9. Whatever the lengths of the two lists, both renderers return
    normally and render the sections of the first
    [min (len recipe_list) (len ai_instructions_list)] pairs only: the output
    is the one for the two lists cut to that length, it has that many
    sections, and its titles are the names of the first that many recipes. *)
Theorem renderers_truncate_to_shorter_list
    (recipe_list : list Recipe) (ai_instructions_list : list ai_value) :
  let n := length recipe_list `min` length ai_instructions_list in
  let pdf := (create_recipe_pdf PDFGenerator_init recipe_list
                ai_instructions_list).2 in
  let docx := (create_recipe_docx WordGenerator_init recipe_list
                 ai_instructions_list).2 in
  pdf = (create_recipe_pdf PDFGenerator_init (take n recipe_list)
           (take n ai_instructions_list)).2
  ∧ pdf = join_sections PageBreak
            (zip_with (pdf_section PDFGenerator_init) recipe_list
               ai_instructions_list)
  ∧ length (zip_with (pdf_section PDFGenerator_init) recipe_list
              ai_instructions_list) = n
  ∧ omap (pdf_title PDFGenerator_init) pdf = map name (take n recipe_list)
  ∧ docx = (create_recipe_docx WordGenerator_init (take n recipe_list)
              (take n ai_instructions_list)).2
  ∧ docx = join_sections DocxPageBreak
             (zip_with docx_section recipe_list ai_instructions_list)
  ∧ length (zip_with docx_section recipe_list ai_instructions_list) = n
  ∧ omap docx_title docx = map name (take n recipe_list).
Proof.
  intros n pdf docx. subst pdf docx. cbn [create_recipe_pdf snd].
  rewrite !pdf_story_layout, !create_recipe_docx_layout.
  subst n. rewrite zip_take_min. cbn [WordGenerator_init doc body app].
  rewrite <- (map_zip_with (pdf_section PDFGenerator_init)).
  rewrite <- (map_zip_with docx_section).
  rewrite !length_map, length_zip_min, <- map_fst_zip_take.
  repeat split.
  - rewrite (titles_join_sections PageBreak _ (λ p, name p.1)).
    + by rewrite map_map.
    + reflexivity.
    + intros [r ai]. eapply section_of_titles, pdf_section_is_section.
  - rewrite (titles_join_sections DocxPageBreak _ (λ p, name p.1)).
    + by rewrite map_map.
    + reflexivity.
    + intros [r ai]. eapply section_of_titles, docx_section_is_section.
Qed.

(** C10. A [WordGenerator] keeps its document between calls: the file a call
    writes is the body the generator already held followed by the sections of
    this call, so the second of two calls on one generator writes the first
    call's file followed by the second call's own sections. A
    [PDFGenerator] is not changed by a call, and the file it writes is the
    same as on a newly constructed generator, whatever was rendered before. *)
Theorem WordGenerator_accumulates_PDFGenerator_does_not
    (recipes1 recipes2 : list Recipe) (ai1 ai2 : list ai_value) :
  let '(word1, docx1) := create_recipe_docx WordGenerator_init recipes1 ai1 in
  let '(word2, docx2) := create_recipe_docx word1 recipes2 ai2 in
  let '(pdf1, story1) := create_recipe_pdf PDFGenerator_init recipes1 ai1 in
  let '(pdf2, story2) := create_recipe_pdf pdf1 recipes2 ai2 in
  body (doc word1) = docx1
  ∧ docx1 = join_sections DocxPageBreak (zip_with docx_section recipes1 ai1)
  ∧ docx2 = docx1
            ++ (create_recipe_docx WordGenerator_init recipes2 ai2).2
  ∧ pdf1 = PDFGenerator_init ∧ pdf2 = PDFGenerator_init
  ∧ story2 = (create_recipe_pdf PDFGenerator_init recipes2 ai2).2.
Proof.
  destruct (create_recipe_docx WordGenerator_init recipes1 ai1)
    as [word1 docx1] eqn:H1.
  destruct (create_recipe_docx word1 recipes2 ai2) as [word2 docx2] eqn:H2.
  cbn [create_recipe_pdf].
  pose proof (create_recipe_docx_layout WordGenerator_init recipes1 ai1) as L1.
  pose proof (create_recipe_docx_layout word1 recipes2 ai2) as L2.
  pose proof (create_recipe_docx_layout WordGenerator_init recipes2 ai2) as L3.
  rewrite H1 in L1. rewrite H2 in L2. cbn [snd] in L1, L2.
  cbn [WordGenerator_init doc body app] in L1, L3.
  assert (Hbody : body (doc word1) = docx1).
  { unfold create_recipe_docx in H1. by injection H1 as <- <-. }
  repeat split.
  - exact Hbody.
  - by rewrite L1, map_zip_with.
  - by rewrite L2, L3, Hbody.
Qed.

(** A second call with one recipe after a first call with one recipe: the
    second file holds both sections, and no page break separates them. *)
Example WordGenerator_second_call :
  let '(word1, _) := create_recipe_docx WordGenerator_init [toast] [ai_None] in
  (create_recipe_docx word1 [tomato_soup] [ai_None]).2
  = docx_section toast ai_None ++ docx_section tomato_soup ai_None.
Proof. vm_compute. reflexivity. Qed.

Lemma omap_cons' {A B : Type} (f : A → option B) (x : A) (l : list A) :
  omap f (x :: l) = from_option (λ y, [y]) [] (f x) ++ omap f l.
Proof. cbn. by destruct (f x). Qed.

(** Computes an [omap] over a block list written with [::], [++] and [map]
    whose mapped parts contribute nothing. *)
Ltac omap_blocks :=
  repeat first
    [ rewrite omap_app'
    | rewrite omap_map_none by (first [intros [? ?] | intros ?]; reflexivity)
    | rewrite omap_cons' ];
  reflexivity.

Lemma pdf_instruction_headings ai :
  omap (pdf_heading PDFGenerator_init)
    (pdf_instruction_blocks PDFGenerator_init ai)
  = instruction_headings.
Proof. unfold pdf_instruction_blocks. omap_blocks. Qed.

Lemma docx_instruction_headings ai :
  omap docx_heading (docx_instruction_blocks ai) = instruction_headings.
Proof. unfold docx_instruction_blocks. omap_blocks. Qed.

(** *** The renderers on any dictionary *)

(** The first of the five keys the renderers read, in the order they read
    them, that the dictionary lacks. *)
Definition first_missing_key (o : InstructionsDict) : option string :=
  match dict_preparation_steps o, dict_cooking_tips o, dict_timing o,
        dict_storage o, dict_serving o with
  | None, _, _, _, _ => Some "preparation_steps"
  | Some _, None, _, _, _ => Some "cooking_tips"
  | Some _, Some _, None, _, _ => Some "timing"
  | Some _, Some _, Some _, None, _ => Some "storage"
  | Some _, Some _, Some _, Some _, None => Some "serving"
  | Some _, Some _, Some _, Some _, Some _ => None
  end.

(** The instructions object a dictionary with these five keys holds;
    [techniques] is not read by any renderer. *)
Definition instructions_of (o : InstructionsDict) : option Instructions :=
  steps ← dict_preparation_steps o;
  tips ← dict_cooking_tips o;
  items ← dict_timing o;
  stored ← dict_storage o;
  served ← dict_serving o;
  Some {| preparation_steps := steps; cooking_tips := tips; timing := items;
          techniques := default [] (dict_techniques o);
          storage := stored; serving := served |}.

(** The key a paired value makes the renderers fail on: a non-empty
    dictionary's first missing key. *)
Definition lacks_key (v : ai_object) : option string :=
  match v with
  | py_None => None
  | py_dict o => if truthy_object v then first_missing_key o else None
  end.

(** The [ai_value] a paired value stands for, when it lacks no key. *)
Definition typed (v : ai_object) : option ai_value :=
  match v with
  | py_None => Some ai_None
  | py_dict o =>
      if truthy_object v then ai_dict <$> instructions_of o
      else Some ai_empty_dict
  end.

Definition to_dict (ai : Instructions) : InstructionsDict :=
  {| dict_preparation_steps := Some (preparation_steps ai);
     dict_cooking_tips := Some (cooking_tips ai);
     dict_timing := Some (timing ai);
     dict_techniques := Some (techniques ai);
     dict_storage := Some (storage ai);
     dict_serving := Some (serving ai);
     dict_other_keys := [] |}.

Definition empty_dict : InstructionsDict :=
  {| dict_preparation_steps := None; dict_cooking_tips := None;
     dict_timing := None; dict_techniques := None; dict_storage := None;
     dict_serving := None; dict_other_keys := [] |}.

Definition to_object (v : ai_value) : ai_object :=
  match v with
  | ai_None => py_None
  | ai_empty_dict => py_dict empty_dict
  | ai_dict ai => py_dict (to_dict ai)
  end.

Definition key_error (key : string) : exn := KeyError ("'" +:+ key +:+ "'").

Lemma typed_to_object v : typed (to_object v) = Some v.
Proof. by destruct v as [| |[]]. Qed.

Lemma lacks_key_typed v : lacks_key v = None ↔ is_Some (typed v).
Proof.
  destruct v as [|o]; cbn [lacks_key typed]; [by split; eauto|].
  destruct (truthy_object (py_dict o)); [|by split; eauto].
  unfold first_missing_key, instructions_of.
  destruct (dict_preparation_steps o), (dict_cooking_tips o), (dict_timing o),
    (dict_storage o), (dict_serving o); cbn; split;
    first [done | by eauto | by intros [? [=]]].
Qed.

Lemma pdf_instructions_raw_complete self story o ai :
  instructions_of o = Some ai →
  pdf_instructions_raw self story o = Ok (pdf_instructions self story ai).
Proof.
  unfold instructions_of, pdf_instructions_raw, pdf_instructions.
  destruct (dict_preparation_steps o), (dict_cooking_tips o), (dict_timing o),
    (dict_storage o), (dict_serving o); cbn; intros [=]; subst ai.
  reflexivity.
Qed.

Lemma pdf_instructions_raw_missing self story o key :
  first_missing_key o = Some key →
  pdf_instructions_raw self story o = Raise (key_error key).
Proof.
  unfold first_missing_key, pdf_instructions_raw.
  destruct (dict_preparation_steps o), (dict_cooking_tips o), (dict_timing o),
    (dict_storage o), (dict_serving o); intros [=]; subst key; reflexivity.
Qed.

Lemma docx_instructions_raw_complete d o ai :
  instructions_of o = Some ai →
  docx_instructions_raw d o = (Ok tt, docx_instructions d ai).
Proof.
  unfold instructions_of, docx_instructions_raw, docx_instructions.
  destruct (dict_preparation_steps o), (dict_cooking_tips o), (dict_timing o),
    (dict_storage o), (dict_serving o); cbn; intros [=]; subst ai.
  reflexivity.
Qed.

Lemma docx_instructions_raw_missing d o key :
  first_missing_key o = Some key →
  (docx_instructions_raw d o).1 = Raise (key_error key).
Proof.
  unfold first_missing_key, docx_instructions_raw.
  destruct (dict_preparation_steps o), (dict_cooking_tips o), (dict_timing o),
    (dict_storage o), (dict_serving o); intros [=]; subst key; reflexivity.
Qed.

(** Up to the test [if ai_instructions:] an iteration does not look at the
    paired value. *)
Lemma pdf_recipe_raw_unfold self story recipe v :
  pdf_recipe_raw self story recipe v
  = let story := pdf_recipe self story recipe ai_None in
    if truthy_object v
    then match v with
         | py_dict o => pdf_instructions_raw self story o
         | py_None => Ok story
         end
    else Ok story.
Proof. reflexivity. Qed.

Lemma docx_recipe_raw_unfold d recipe v :
  docx_recipe_raw d recipe v
  = let d := docx_recipe d recipe ai_None in
    if truthy_object v
    then match v with
         | py_dict o => docx_instructions_raw d o
         | py_None => (Ok tt, d)
         end
    else (Ok tt, d).
Proof. reflexivity. Qed.

Lemma pdf_recipe_unfold self story recipe v :
  pdf_recipe self story recipe v
  = let story := pdf_recipe self story recipe ai_None in
    match v with
    | ai_dict ai => pdf_instructions self story ai
    | ai_None | ai_empty_dict => story
    end.
Proof. by destruct v. Qed.

Lemma docx_recipe_unfold d recipe v :
  docx_recipe d recipe v
  = let d := docx_recipe d recipe ai_None in
    match v with
    | ai_dict ai => docx_instructions d ai
    | ai_None | ai_empty_dict => d
    end.
Proof. by destruct v. Qed.

(** On a value that lacks no key the renderers do what [pdf_recipe] and
    [docx_recipe] do on the [ai_value] it stands for. *)
Lemma pdf_recipe_raw_typed self story recipe v a :
  typed v = Some a →
  pdf_recipe_raw self story recipe v = Ok (pdf_recipe self story recipe a).
Proof.
  rewrite pdf_recipe_raw_unfold, (pdf_recipe_unfold _ _ _ a). cbv zeta.
  destruct v as [|o]; cbn [typed].
  - by intros [= <-].
  - destruct (truthy_object (py_dict o)); [|by intros [= <-]].
    destruct (instructions_of o) as [ai|] eqn:Hai; intros [= <-].
    by apply pdf_instructions_raw_complete.
Qed.

Lemma docx_recipe_raw_typed d recipe v a :
  typed v = Some a →
  docx_recipe_raw d recipe v = (Ok tt, docx_recipe d recipe a).
Proof.
  rewrite docx_recipe_raw_unfold, (docx_recipe_unfold _ _ a). cbv zeta.
  destruct v as [|o]; cbn [typed].
  - by intros [= <-].
  - destruct (truthy_object (py_dict o)); [|by intros [= <-]].
    destruct (instructions_of o) as [ai|] eqn:Hai; intros [= <-].
    by apply docx_instructions_raw_complete.
Qed.

Lemma pdf_recipe_raw_lacks self story recipe v key :
  lacks_key v = Some key →
  pdf_recipe_raw self story recipe v = Raise (key_error key).
Proof.
  rewrite pdf_recipe_raw_unfold. cbv zeta.
  destruct v as [|o]; cbn [lacks_key]; [done|].
  destruct (truthy_object (py_dict o)); [|done].
  apply pdf_instructions_raw_missing.
Qed.

Lemma docx_recipe_raw_lacks d recipe v key :
  lacks_key v = Some key →
  (docx_recipe_raw d recipe v).1 = Raise (key_error key).
Proof.
  rewrite docx_recipe_raw_unfold. cbv zeta.
  destruct v as [|o]; cbn [lacks_key]; [done|].
  destruct (truthy_object (py_dict o)); [|done].
  apply docx_instructions_raw_missing.
Qed.

(** The loops, on lists whose paired values lack no key. *)
Lemma pdf_loop_raw_typed self rl al al' n story :
  Forall2 (λ v a, typed v = Some a) al al' →
  pdf_loop_raw self (enumerate n (zip rl al)) story
  = Ok (fold_left (pdf_iteration self) (enumerate n (zip rl al')) story).
Proof.
  intros Hal. revert rl n story.
  induction Hal as [|v a al al' Hv _ IH]; intros [|r rl] n story;
    try reflexivity.
  cbn [zip zip_with enumerate pdf_loop_raw fold_left pdf_iteration].
  rewrite (pdf_recipe_raw_typed _ _ _ _ _ Hv). apply IH.
Qed.

Lemma docx_loop_raw_typed rl al al' n d :
  Forall2 (λ v a, typed v = Some a) al al' →
  docx_loop_raw (enumerate n (zip rl al)) d
  = (Ok tt, fold_left docx_iteration (enumerate n (zip rl al')) d).
Proof.
  intros Hal. revert rl n d.
  induction Hal as [|v a al al' Hv _ IH]; intros [|r rl] n d;
    try reflexivity.
  cbn [zip zip_with enumerate docx_loop_raw fold_left docx_iteration].
  rewrite (docx_recipe_raw_typed _ _ _ _ Hv). apply IH.
Qed.

(** The loops, up to the first paired value that lacks a key. *)
Lemma pdf_loop_raw_lacks self rl al k rk vk key n story :
  rl !! k = Some rk → al !! k = Some vk → lacks_key vk = Some key →
  Forall (λ v, lacks_key v = None) (take k al) →
  pdf_loop_raw self (enumerate n (zip rl al)) story = Raise (key_error key).
Proof.
  revert rl al n story.
  induction k as [|k IH]; intros [|r rl] [|v al] n story Hr Hv Hkey Hbefore;
    try done; cbn in Hr, Hv;
    cbn [zip zip_with enumerate pdf_loop_raw].
  - injection Hv as ->. by rewrite (pdf_recipe_raw_lacks _ _ _ _ _ Hkey).
  - cbn [take] in Hbefore. apply Forall_cons in Hbefore as [Hhead Hbefore].
    apply lacks_key_typed in Hhead as [a Ha].
    rewrite (pdf_recipe_raw_typed _ _ _ _ _ Ha). cbn [mbind result_bind].
    by apply IH.
Qed.

Lemma docx_loop_raw_lacks rl al k rk vk key n d :
  rl !! k = Some rk → al !! k = Some vk → lacks_key vk = Some key →
  Forall (λ v, lacks_key v = None) (take k al) →
  (docx_loop_raw (enumerate n (zip rl al)) d).1 = Raise (key_error key).
Proof.
  revert rl al n d.
  induction k as [|k IH]; intros [|r rl] [|v al] n d Hr Hv Hkey Hbefore;
    try done; cbn in Hr, Hv;
    cbn [zip zip_with enumerate docx_loop_raw].
  - injection Hv as ->.
    pose proof (docx_recipe_raw_lacks
                  (if (0 <? n)%nat then add_page_break d else d) r _ _ Hkey)
      as Hraise.
    destruct (docx_recipe_raw _ r vk) as [[[]|e] d']; cbn [fst] in Hraise;
      [done|]. by injection Hraise as ->.
  - cbn [take] in Hbefore. apply Forall_cons in Hbefore as [Hhead Hbefore].
    apply lacks_key_typed in Hhead as [a Ha].
    rewrite (docx_recipe_raw_typed _ _ _ _ Ha). by apply IH.
Qed.

(** A whole call on lists whose paired values lack no key writes the file
    [create_recipe_pdf] and [create_recipe_docx] describe. *)
Lemma create_recipe_raw_typed pdf_generator word_generator rl al al' :
  Forall2 (λ v a, typed v = Some a) al al' →
  create_recipe_pdf_raw pdf_generator rl al
  = (pdf_generator, Ok (create_recipe_pdf pdf_generator rl al').2)
  ∧ create_recipe_docx_raw word_generator rl al
    = ((create_recipe_docx word_generator rl al').1,
       Ok (create_recipe_docx word_generator rl al').2).
Proof.
  intros Hal. unfold create_recipe_pdf_raw, create_recipe_docx_raw.
  rewrite (pdf_loop_raw_typed _ _ _ _ _ _ Hal),
    (docx_loop_raw_typed _ _ _ _ _ Hal).
  split; reflexivity.
Qed.


Lemma pdf_section_tables recipe ai :
  omap pdf_table (pdf_section PDFGenerator_init recipe ai)
  = [ info_rows (data recipe);
      ingredients_header :: map ingredient_row (ingredients (data recipe)) ].
Proof.
  unfold pdf_section, pdf_instruction_blocks.
  destruct ai as [| |ai]; omap_blocks.
Qed.

Lemma docx_section_tables recipe ai :
  omap docx_table (docx_section recipe ai)
  = [ info_rows (data recipe);
      ingredients_header :: map ingredient_row (ingredients (data recipe)) ].
Proof.
  unfold docx_section, docx_instruction_blocks.
  destruct ai as [| |ai]; omap_blocks.
Qed.


(** The example of the specification: total cost 12.40 and cost per serving
    3.10 for four servings. *)
Example tomato_soup_information_table :
  head (omap pdf_table (pdf_section PDFGenerator_init tomato_soup ai_None))
  = Some [ ["Servings"; "4"]; ["Total Cost"; "$12.40"];
           ["Cost per Serving"; "$3.10"] ].
Proof. vm_compute. reflexivity. Qed.

(** ** [GenerateDocuments] *)

Section activity_properties.
Context {W : Type}.
Variable chat : string → W → result string * W.
Variable loads : string → result ai_value.

(** The arguments [generate_instructions] gets for a recipe. *)
Definition synthesis_call (r : Recipe) : string * list Ingredient :=
  (name r, ingredients (data r)).

(** [synthesized recipes w l w']: starting in [w], one call per recipe, in
    list order and each from the state the previous one left, returned the
    values [l], position by position, and left [w']. *)
Inductive synthesized : list Recipe → World W → list ai_value → World W → Prop :=
  | synthesized_nil w : synthesized [] w [] w
  | synthesized_cons r rest w ai w1 l w2 :
      generate_instructions chat loads (name r) (ingredients (data r)) w
        = (Ok ai, w1) →
      synthesized rest w1 l w2 →
      synthesized (r :: rest) w (ai :: l) w2.

Lemma synthesized_length recipes w l w' :
  synthesized recipes w l w' → length l = length recipes.
Proof. induction 1; cbn; congruence. Qed.

Lemma generate_instructions_invocations n ings w :
  invocations (generate_instructions chat loads n ings w).2
  = invocations w ++ [(n, ings)].
Proof.
  unfold generate_instructions, try_log_reraise. cbn [llm invocations fs].
  destruct (chat _ _) as [[content|e] l]; cbn; [|reflexivity].
  by destruct (loads content).
Qed.

Lemma generate_instructions_fs n ings w :
  fs (generate_instructions chat loads n ings w).2 = fs w.
Proof.
  unfold generate_instructions, try_log_reraise. cbn [llm invocations fs].
  destruct (chat _ _) as [[content|e] l]; cbn; [|reflexivity].
  by destruct (loads content).
Qed.

(** What the loop does from any starting list [acc]. *)
Lemma synthesis_loop_spec recipes acc w :
  match synthesis_loop chat loads recipes acc w with
  | (Ok l, w') =>
      ∃ l', l = acc ++ l' ∧ synthesized recipes w l' w'
            ∧ invocations w'
              = invocations w ++ map synthesis_call recipes
  | (Raise e, w') =>
      ∃ k, (k < length recipes)%nat
           ∧ invocations w'
             = invocations w ++ map synthesis_call (take (S k) recipes)
  end
  ∧ fs (synthesis_loop chat loads recipes acc w).2 = fs w.
Proof.
  revert acc w. induction recipes as [|r rest IH]; intros acc w.
  - cbn. split; [|reflexivity]. exists []. rewrite !app_nil_r.
    repeat split. constructor.
  - cbn [synthesis_loop]. unfold bind.
    pose proof (generate_instructions_invocations (name r)
                  (ingredients (data r)) w) as Hinv.
    pose proof (generate_instructions_fs (name r)
                  (ingredients (data r)) w) as Hfs.
    destruct (generate_instructions chat loads (name r)
                (ingredients (data r)) w) as [[ai|e] w1] eqn:Hgen;
      cbn [snd] in Hinv, Hfs.
    + specialize (IH (acc ++ [ai]) w1). destruct IH as [IH IHfs].
      split; [|by rewrite IHfs].
      destruct (synthesis_loop chat loads rest (acc ++ [ai]) w1)
        as [[l|e] w2].
      * destruct IH as (l' & -> & Hsyn & Hinv2). exists (ai :: l').
        split; [by rewrite <- app_assoc|]. split.
        -- econstructor; eauto.
        -- rewrite Hinv2, Hinv, <- app_assoc. reflexivity.
      * destruct IH as (k & Hk & Hinv2). exists (S k). split.
        -- cbn. lia.
        -- rewrite Hinv2, Hinv, <- app_assoc. reflexivity.
    + split; [|exact Hfs]. exists O. split; [cbn; lia|]. exact Hinv.
Qed.

Lemma synthesized_invocations recipes w l w' :
  synthesized recipes w l w' →
  invocations w' = invocations w ++ map synthesis_call recipes.
Proof.
  induction 1 as [w|r rest w ai w1 l w2 Hgen _ IH]; cbn [map].
  - by rewrite app_nil_r.
  - pose proof (generate_instructions_invocations (name r)
                  (ingredients (data r)) w) as Hinv.
    rewrite Hgen in Hinv. cbn [snd] in Hinv.
    rewrite IH, Hinv, <- app_assoc. reflexivity.
Qed.

(** When every call returns, the loop returns what they returned, appended
    to [acc] in call order. *)
Lemma synthesis_loop_returns recipes acc w l w' :
  synthesized recipes w l w' →
  synthesis_loop chat loads recipes acc w = (Ok (acc ++ l), w').
Proof.
  intros Hsyn. revert acc.
  induction Hsyn as [w|r rest w ai w1 l w2 Hgen _ IH]; intros acc.
  - cbn. by rewrite app_nil_r.
  - cbn [synthesis_loop]. unfold bind. rewrite Hgen, IH, <- app_assoc.
    reflexivity.
Qed.

Lemma synthesis_loop_returned recipes acc w l w' :
  synthesis_loop chat loads recipes acc w = (Ok l, w') →
  ∃ l', l = acc ++ l' ∧ synthesized recipes w l' w'.
Proof.
  intros Hloop.
  pose proof (synthesis_loop_spec recipes acc w) as [Hspec _].
  rewrite Hloop in Hspec. destruct Hspec as (l' & -> & Hsyn & _). eauto.
Qed.

(** When the calls for the first [k] recipes return and the call for the
    next one raises, the loop raises that exception in the state that call
    left. *)
Lemma synthesis_loop_raises recipes acc w k rk lk wk e w' :
  recipes !! k = Some rk →
  synthesized (take k recipes) w lk wk →
  generate_instructions chat loads (name rk) (ingredients (data rk)) wk
    = (Raise e, w') →
  synthesis_loop chat loads recipes acc w = (Raise e, w').
Proof.
  revert acc w k lk.
  induction recipes as [|r rest IH]; intros acc w k lk Hk Hsyn Hgen;
    [done|].
  destruct k as [|k]; cbn in Hk, Hsyn.
  - injection Hk as ->. inversion Hsyn; subst.
    cbn [synthesis_loop]. unfold bind. by rewrite Hgen.
  - inversion Hsyn as [|? ? ? ai w1 l ? Hr Hrest]; subst.
    cbn [synthesis_loop]. unfold bind. rewrite Hr. eauto.
Qed.

Lemma synthesis_loop_raised recipes acc w e w' :
  synthesis_loop chat loads recipes acc w = (Raise e, w') →
  ∃ k rk lk wk,
    recipes !! k = Some rk
    ∧ synthesized (take k recipes) w lk wk
    ∧ generate_instructions chat loads (name rk) (ingredients (data rk)) wk
      = (Raise e, w').
Proof.
  revert acc w. induction recipes as [|r rest IH]; intros acc w Hloop;
    [done|].
  cbn [synthesis_loop] in Hloop. unfold bind in Hloop.
  destruct (generate_instructions chat loads (name r)
              (ingredients (data r)) w) as [[ai|e0] w1] eqn:Hgen.
  - destruct (IH _ _ Hloop) as (k & rk & lk & wk & Hk & Hsyn & Hraise).
    exists (S k), rk, (ai :: lk), wk. split; [exact Hk|]. split; [|exact Hraise].
    cbn [take]. econstructor; eauto.
  - injection Hloop as -> ->.
    exists O, r, [], w. split; [reflexivity|]. split; [constructor|exact Hgen].
Qed.

(** The calls made by the time call number [k] has raised. *)
Lemma synthesis_raise_invocations recipes w k rk lk wk e w' :
  recipes !! k = Some rk →
  synthesized (take k recipes) w lk wk →
  generate_instructions chat loads (name rk) (ingredients (data rk)) wk
    = (Raise e, w') →
  invocations w'
  = invocations w ++ map synthesis_call (take (S k) recipes).
Proof.
  intros Hk Hsyn Hgen.
  pose proof (generate_instructions_invocations (name rk)
                (ingredients (data rk)) wk) as Hinv.
  rewrite Hgen in Hinv. cbn [snd] in Hinv.
  rewrite Hinv, (synthesized_invocations _ _ _ _ Hsyn),
    (take_S_r _ _ _ Hk), map_app, <- app_assoc.
  reflexivity.
Qed.
End activity_properties.

Lemma with_fs_with_fs {W} (w : World W) f1 f2 :
  with_fs (with_fs w f1) f2 = with_fs w f2.
Proof. reflexivity. Qed.

Lemma with_fs_id {W} (w : World W) : with_fs w (fs w) = w.
Proof. by destruct w. Qed.

(** Removing a directory that was created under a fresh name, whatever was
    written into it, gives back the file system as it was. *)
Lemma delete_fresh_dir (f : gmap string (gmap string file_content))
    (g : gmap string file_content → gmap string file_content) :
  let d := fresh (dom f) in
  delete d (<[d := ∅]> f) = f ∧ delete d (alter g d (<[d := ∅]> f)) = f.
Proof.
  intros d.
  assert (f !! d = None) by apply not_elem_of_dom, is_fresh.
  rewrite delete_alter_eq, delete_insert_eq, delete_id; done.
Qed.

(** From [tempfile.mkdtemp()] on, every way through leaves the world as it
    found it. *)
Lemma render_in_temp_dir_restores {W} faults user_id format_type recipes
    ai_list pdf_generator word_generator (w : World W) :
  (render_in_temp_dir faults user_id format_type recipes ai_list
     pdf_generator word_generator w).2 = w.
Proof.
  destruct (delete_fresh_dir (fs w) (insert ("recipes_" +:+ user_id +:+ ".pdf")
              (PdfFile (create_recipe_pdf pdf_generator recipes ai_list).2)))
    as [Hdir Hpdf].
  destruct (delete_fresh_dir (fs w) (insert ("recipes_" +:+ user_id +:+ ".docx")
              (DocxFile (create_recipe_docx word_generator recipes ai_list).2)))
    as [_ Hdocx].
  destruct (delete_fresh_dir (fs w)
              (insert ("recipes_" +:+ user_id +:+ ".pdf") PartialFile))
    as [_ Hpdf'].
  destruct (delete_fresh_dir (fs w)
              (insert ("recipes_" +:+ user_id +:+ ".docx") PartialFile))
    as [_ Hdocx'].
  unfold render_in_temp_dir, bind, mkdtemp, try_finally, write_document,
    read_file, rmtree, ret.
  destruct (String.eqb format_type "pdf");
    destruct (has_slash _); cbn [fs with_fs snd];
    rewrite ?with_fs_with_fs, ?Hdir, ?with_fs_id; try reflexivity;
    destruct (on_build faults) as [|e []]; cbn [fs with_fs snd];
    rewrite ?with_fs_with_fs, ?Hdir, ?Hpdf', ?Hdocx', ?with_fs_id;
    try reflexivity;
    destruct (on_read faults); cbn [fs with_fs snd];
    rewrite ?with_fs_with_fs, ?Hpdf, ?Hdocx, ?with_fs_id; try reflexivity;
    match goal with |- context [?m !! ?k ≫= ?f] => destruct (m !! k ≫= f) end;
    cbn [fs with_fs snd];
    rewrite ?with_fs_with_fs, ?Hpdf, ?Hdocx, ?with_fs_id; reflexivity.
Qed.

Definition no_faults : Faults := {| on_build := build_ok; on_read := None |}.

Lemma has_slash_app a b : has_slash (a +:+ b) = has_slash a || has_slash b.
Proof.
  induction a as [|c a IH]; [reflexivity|].
  simpl. by rewrite IH, orb_assoc.
Qed.

(** C8. Once [GenerateDocuments] has created its temporary directory, every
    way out, whether the document was written and read back, writing it
    raised (with or without a partial file left), or reading it raised,
    ends with the directory removed, and the world (file system, generation
    service, record of calls) exactly as it was when the directory was
    created; the activity as a whole leaves the file system as it found
    it. *)
Theorem temporary_directory_always_removed {W : Type}
    (chat : string → W → result string * W)
    (loads : string → result ai_value)
    (faults : Faults) (recipes : list Recipe) (user_id : string)
    (format : option string) (ai_instructions_list : list ai_value)
    (w : World W) :
  let temp_dir := fresh (dom (fs w)) in
  let '(_, created) := mkdtemp w in
  let '(_, after) :=
    render_in_temp_dir faults user_id (default "pdf" format) recipes
      ai_instructions_list PDFGenerator_init WordGenerator_init w in
  fs w !! temp_dir = None
  ∧ fs created !! temp_dir = Some ∅
  ∧ fs after !! temp_dir = None
  ∧ after = w
  ∧ fs (GenerateDocuments chat loads faults recipes user_id format w).2
    = fs w.
Proof.
  intros temp_dir. cbn [mkdtemp].
  pose proof (render_in_temp_dir_restores faults user_id (default "pdf" format)
                recipes ai_instructions_list PDFGenerator_init
                WordGenerator_init w) as Hrestore.
  destruct (render_in_temp_dir _ _ _ _ _ _ _ w) as [r after].
  cbn [snd] in Hrestore. subst after.
  assert (Hfresh : fs w !! temp_dir = None) by apply not_elem_of_dom, is_fresh.
  repeat split; try done.
  - cbn [fs with_fs]. apply lookup_insert_eq.
  - unfold GenerateDocuments, try_log_reraise.
    destruct recipes as [|r0 rest]; [reflexivity|].
    cbn [truthy_list negb]. unfold bind.
    pose proof (synthesis_loop_spec chat loads (r0 :: rest) [] w) as [_ Hfs].
    destruct (synthesis_loop chat loads (r0 :: rest) [] w) as [[l|e] w1];
      cbn [snd] in Hfs; [|exact Hfs].
    by rewrite render_in_temp_dir_restores.
Qed.

(** A generation service that counts its calls and fails on call number
    [bad]; its answers always parse to [fresh_instructions]. *)
Definition counting_chat (bad : nat) (p : string) (n : nat)
  : result string * nat :=
  if (n =? bad)%nat then (Raise (Exception "service unavailable"), S n)
  else (Ok p, S n).

Definition always_loads (content : string) : result ai_value :=
  Ok (ai_dict fresh_instructions).

Definition empty_world : World nat :=
  {| llm := O; invocations := []; fs := ∅ |}.

(** The three ways through the rendering step, each leaving no directory. *)
Example GenerateDocuments_success :
  GenerateDocuments (counting_chat 7) always_loads no_faults [toast] "u1"
    (Some "pdf") empty_world
  = (Ok [("pdf", b64encode (PdfFile
            (pdf_section PDFGenerator_init toast (ai_dict fresh_instructions))))],
     {| llm := 1%nat; invocations := [synthesis_call toast]; fs := ∅ |}).
Proof. vm_compute. reflexivity. Qed.

Example GenerateDocuments_render_failure :
  GenerateDocuments (counting_chat 7) always_loads
    {| on_build := build_raises (OSError "disk full") true; on_read := None |}
    [toast] "u1" (Some "docx") empty_world
  = (Raise (OSError "disk full"),
     {| llm := 1%nat; invocations := [synthesis_call toast]; fs := ∅ |}).
Proof. vm_compute. reflexivity. Qed.

Example GenerateDocuments_read_failure :
  GenerateDocuments (counting_chat 7) always_loads
    {| on_build := build_ok; on_read := Some (OSError "read error") |}
    [toast] "u1" None empty_world
  = (Raise (OSError "read error"),
     {| llm := 1%nat; invocations := [synthesis_call toast]; fs := ∅ |}).
Proof. vm_compute. reflexivity. Qed.

(** C3. For a non-empty recipe list, the loop of [GenerateDocuments] returns
    exactly when every call of [generate_instructions] returns, the calls
    being made once per recipe, in list order, each with that recipe's name
    and ingredient list and from the state the previous call left; the list
    the loop returns holds, position by position, what the calls returned,
    so it is as long as the recipe list; the calls recorded are those of
    the recipe list in order, and the renderer is given the recipe list and
    this list. The loop raises [e] exactly when the calls for some first
    [k] recipes return and the call for recipe [k] raises [e]; no call is
    made after it, and [GenerateDocuments] raises the same [e] in the state
    that call left. *)
Theorem synthesis_once_per_recipe_in_order {W : Type}
    (chat : string → W → result string * W)
    (loads : string → result ai_value)
    (faults : Faults) (r : Recipe) (rest : list Recipe) (user_id : string)
    (format : option string) (w : World W) :
  let recipes := r :: rest in
  (∀ ai_instructions_list w1,
     synthesized chat loads recipes w ai_instructions_list w1
     ↔ synthesis_loop chat loads recipes [] w = (Ok ai_instructions_list, w1))
  ∧ (∀ ai_instructions_list w1,
       synthesized chat loads recipes w ai_instructions_list w1 →
       length ai_instructions_list = length recipes
       ∧ invocations w1 = invocations w ++ map synthesis_call recipes
       ∧ GenerateDocuments chat loads faults recipes user_id format w
         = render_in_temp_dir faults user_id (default "pdf" format) recipes
             ai_instructions_list PDFGenerator_init WordGenerator_init w1
       ∧ invocations
           (GenerateDocuments chat loads faults recipes user_id format w).2
         = invocations w ++ map synthesis_call recipes)
  ∧ (∀ e w',
       (∃ k rk lk wk,
          recipes !! k = Some rk
          ∧ synthesized chat loads (take k recipes) w lk wk
          ∧ generate_instructions chat loads (name rk) (ingredients (data rk))
              wk = (Raise e, w'))
       ↔ synthesis_loop chat loads recipes [] w = (Raise e, w'))
  ∧ (∀ k rk lk wk e w',
       recipes !! k = Some rk →
       synthesized chat loads (take k recipes) w lk wk →
       generate_instructions chat loads (name rk) (ingredients (data rk)) wk
         = (Raise e, w') →
       invocations w'
       = invocations w ++ map synthesis_call (take (S k) recipes)
       ∧ GenerateDocuments chat loads faults recipes user_id format w
         = (Raise e, w')).
Proof.
  intros recipes.
  assert (Hrun :
    GenerateDocuments chat loads faults recipes user_id format w
    = match synthesis_loop chat loads recipes [] w with
      | (Ok l, w1) =>
          render_in_temp_dir faults user_id (default "pdf" format) recipes l
            PDFGenerator_init WordGenerator_init w1
      | (Raise e, w1) => (Raise e, w1)
      end) by reflexivity.
  split; [|split; [|split]].
  - intros l w1. split.
    + apply (synthesis_loop_returns chat loads recipes []).
    + intros Hloop.
      destruct (synthesis_loop_returned chat loads _ _ _ _ _ Hloop)
        as (l' & -> & Hsyn).
      exact Hsyn.
  - intros l w1 Hsyn.
    pose proof (synthesis_loop_returns chat loads recipes [] _ _ _ Hsyn)
      as Hloop.
    cbn [app] in Hloop. rewrite Hloop in Hrun.
    pose proof (synthesized_invocations chat loads _ _ _ _ Hsyn) as Hinv.
    split; [exact (synthesized_length _ _ _ _ _ _ Hsyn)|].
    split; [exact Hinv|]. split; [exact Hrun|].
    by rewrite Hrun, render_in_temp_dir_restores.
  - intros e w'. split.
    + intros (k & rk & lk & wk & Hk & Hsyn & Hgen).
      exact (synthesis_loop_raises chat loads _ _ _ _ _ _ _ _ _ Hk Hsyn Hgen).
    + apply synthesis_loop_raised.
  - intros k rk lk wk e w' Hk Hsyn Hgen.
    split.
    + exact (synthesis_raise_invocations chat loads _ _ _ _ _ _ _ _
               Hk Hsyn Hgen).
    + rewrite Hrun,
        (synthesis_loop_raises chat loads _ [] _ _ _ _ _ _ _ Hk Hsyn Hgen).
      reflexivity.
Qed.

Example synthesis_three_recipes :
  (synthesis_loop (counting_chat 7) always_loads [toast; tomato_soup; toast]
     [] empty_world).1
  = Ok [ai_dict fresh_instructions; ai_dict fresh_instructions;
        ai_dict fresh_instructions]
  ∧ invocations
      (synthesis_loop (counting_chat 7) always_loads
         [toast; tomato_soup; toast] [] empty_world).2
    = [synthesis_call toast; synthesis_call tomato_soup; synthesis_call toast].
Proof. vm_compute. auto. Qed.

Example synthesis_stops_at_failing_call :
  (synthesis_loop (counting_chat 1) always_loads [toast; tomato_soup; toast]
     [] empty_world).1
  = Raise (Exception "service unavailable")
  ∧ invocations
      (synthesis_loop (counting_chat 1) always_loads
         [toast; tomato_soup; toast] [] empty_world).2
    = [synthesis_call toast; synthesis_call tomato_soup].
Proof. vm_compute. auto. Qed.

(** ** The coordinator *)

Definition no_recipes_found : OrchestratorResult :=
  {| success := false; message := Some "No recipes found"; error := None;
     documents := None |}.

(** The activity host made of the two activities of [function_app.py]. *)
Definition activities {W : Type} (container : list UserDoc)
    (chat : string → W → result string * W)
    (loads : string → result ai_value) (faults : Faults)
    (X : Type) (e : activityE X) : World W → result X * World W :=
  match e in activityE X return World W → result X * World W with
  | call_GetRecipes user_id recipe_ids =>
      λ w, (GetRecipes container user_id recipe_ids, w)
  | call_GenerateDocuments user_id recipes_data format =>
      GenerateDocuments chat loads faults recipes_data user_id (Some format)
  end.

(** C6. Whenever the [GetRecipes] activity answers with an empty list, the
    coordinator returns exactly [{success: False, message: "No recipes
    found"}]; [GetRecipes] is the only activity it calls, so neither
    instruction synthesis nor rendering, both inside [GenerateDocuments],
    takes place, and the host is left in the state [GetRecipes] left it. *)
Theorem orchestrator_short_circuits_on_no_recipes {S : Type}
    (act : ∀ X, activityE X → S → result X * S)
    (input_data : OrchestratorInput) (s : S) :
  let lookup :=
    act _ (call_GetRecipes (in_user_id input_data) (in_recipe_ids input_data)) s in
  lookup.1 = Ok [] →
  drive act (RecipeOrchestrator input_data) s
  = (no_recipes_found, lookup.2, ["GetRecipes"]).
Proof.
  intros lookup Hempty. subst lookup. cbn [RecipeOrchestrator drive].
  destruct (act _ _ s) as [x s']. cbn [fst] in Hempty. subst x. reflexivity.
Qed.

(** With recipes found, the coordinator goes on to [GenerateDocuments]. *)
Example orchestrator_with_recipes :
  let '(r, w, calls) :=
    drive (activities example_container (counting_chat 7) always_loads
             no_faults)
      (RecipeOrchestrator {| in_user_id := "u1"; in_recipe_ids := ["Toast"];
                             in_format := "docx" |})
      empty_world in
  success r = true
  ∧ (assoc "docx" <$> documents r)
    = Some (Some (b64encode (DocxFile
                    (docx_section toast (ai_dict fresh_instructions)))))
  ∧ calls = ["GetRecipes"; "GenerateDocuments"]
  ∧ invocations w = [synthesis_call toast].
Proof. vm_compute. auto. Qed.

(** ** The HTTP front door *)

(** A durable client that accepts every start and reports the orchestration
    as not yet known. *)
Definition accepting_start (wf instance_id : string) (input : StartInput)
    (c : unit) : result unit * unit := (Ok tt, c).
Definition unknown_status (instance_id : string) (c : unit)
  : result (option Status) * unit := (Ok None, c).

Definition format_error : HttpResponse :=
  bad_request "Format must be either 'pdf' or 'docx'".

Definition request_with_format (fmt : json) : HttpRequest :=
  {| route_user_id := Some "u1";
     get_json := Some (JDict [("recipe_names", JList [JStr "Toast"]);
                              ("format", fmt)]) |}.

(** A format that differs from ['pdf'] only by case is neither ['pdf'] nor
    ['docx'], yet it is lower-cased and accepted: the workflow is started. *)
Lemma upper_case_format_is_accepted :
  JStr "PDF" ≠ JStr "pdf" ∧ JStr "PDF" ≠ JStr "docx"
  ∧ http_start unit accepting_start unknown_status "20240101-000000"
      (request_with_format (JStr "PDF")) tt
    = (CheckStatusResponse "recipes-u1-20240101-000000", tt,
       [("recipes-u1-20240101-000000",
         {| start_user_id := "u1";
            start_recipe_ids := JList [JStr "Toast"];
            start_format := "pdf";
            start_download := JBool false |})])
  ∧ (http_start unit accepting_start unknown_status "20240101-000000"
       (request_with_format (JStr "PDF")) tt).1.1 ≠ format_error.
Proof. repeat split; try discriminate; reflexivity. Qed.

(** The format error also gives way to the checks made before it. *)
Example empty_recipe_names_checked_before_format :
  http_start unit accepting_start unknown_status "20240101-000000"
    {| route_user_id := Some "u1";
       get_json := Some (JDict [("recipe_names", JList []);
                                ("format", JStr "xml")]) |} tt
  = (bad_request "Please provide recipe_ids in the request body", tt, []).
Proof. reflexivity. Qed.

Example xml_format_rejected :
  http_start unit accepting_start unknown_status "20240101-000000"
    (request_with_format (JStr "xml")) tt
  = (format_error, tt, []).
Proof. reflexivity. Qed.

(** C7 (as amended). For a request with a user id in the route, a body that
    is a JSON object, and a [recipe_names] value that is true in Python's
    sense: if [format] is a string whose lower-case form is neither ['pdf']
    nor ['docx'], the answer is 400 with the body [{"error": "Format must be
    either 'pdf' or 'docx'"}], and no workflow is started; if it is a string
    whose lower-case form is one of the two, the workflow is started once with
    that lower-case format; if [format] is absent, the workflow is started
    once with the format ['pdf']; if [format] is not a string, the answer is
    500 and no workflow is started. *)
Theorem http_start_validates_format {C : Type}
    (start_new : string → string → StartInput → C → result unit * C)
    (get_status : string → C → result (option Status) * C)
    (now user_id : string) (items : list (string * json)) (c : C) :
  user_id ≠ "" →
  truthy (default (JList []) (assoc "recipe_names" items)) = true →
  let req := {| route_user_id := Some user_id;
                get_json := Some (JDict items) |} in
  let '(response, c', started) := http_start C start_new get_status now req c in
  let start_with format_type :=
    [("recipes-" +:+ user_id +:+ "-" +:+ now,
      {| start_user_id := user_id;
         start_recipe_ids := default (JList []) (assoc "recipe_names" items);
         start_format := format_type;
         start_download := default (JBool false) (assoc "download" items) |})] in
  match assoc "format" items with
  | None => started = start_with "pdf"
  | Some (JStr fmt) =>
      if bool_decide (lower fmt ∈ ["pdf"; "docx"])
      then started = start_with (lower fmt)
      else response = format_error ∧ started = [] ∧ c' = c
  | Some v =>
      response = server_error (no_attribute v "lower") ∧ started = [] ∧ c' = c
  end.
Proof.
  intros Huser Hnames req.
  assert (Hne : String.eqb user_id "" = false) by by apply String.eqb_neq.
  unfold http_start, validate. subst req.
  cbn [route_user_id get_json get]. rewrite Hne.
  destruct (assoc "format" items) as [v|] eqn:Hfmt; cbn [default id].
  - destruct v as [| | | |fmt| |]; cbn [json_lower]; try by repeat split.
    rewrite Hnames. cbn [negb].
    destruct (bool_decide (lower fmt ∈ ["pdf"; "docx"])); cbn [negb];
      [|by repeat split].
    destruct (start_new _ _ _ c) as [[[]|e] c1]; [|reflexivity].
    destruct (get_status _ c1) as [[status|e] c2]; [|reflexivity].
    by destruct (respond _ _ _ _).
  - cbn [json_lower]. rewrite Hnames. cbn [negb].
    change (lower "pdf") with "pdf".
    change (bool_decide ("pdf" ∈ ["pdf"; "docx"])) with true. cbn [negb].
    destruct (start_new _ _ _ c) as [[[]|e] c1]; [|reflexivity].
    destruct (get_status _ c1) as [[status|e] c2]; [|reflexivity].
    by destruct (respond _ _ _ _).
Qed.

Lemma http_start_validates_format_witness :
  http_start unit accepting_start unknown_status "20240101-000000"
    (request_with_format (JStr "xml")) tt
  = (format_error, tt, []).
Proof.
  pose proof (http_start_validates_format accepting_start unknown_status
                "20240101-000000" "u1"
                [("recipe_names", JList [JStr "Toast"]); ("format", JStr "xml")]
                tt ltac:(discriminate) eq_refl) as H.
  cbv zeta in H.
  change (request_with_format (JStr "xml")) with
    {| route_user_id := Some "u1";
       get_json := Some (JDict [("recipe_names", JList [JStr "Toast"]);
                                ("format", JStr "xml")]) |}.
  destruct (http_start unit accepting_start unknown_status _ _ tt)
    as [[response c'] started].
  cbn in H. destruct H as (-> & -> & ->). reflexivity.
Defined.

(** * Further properties of the code *)

(** ** [GetRecipes] *)

(** X1. For non-empty request lists only the set of requested names counts:
    two request lists with the same members, in whatever order and with
    whatever repetitions, give the same result (in stored order). *)
Theorem GetRecipes_request_order_irrelevant
    (container : list UserDoc) (user_id : string)
    (recipe_ids recipe_ids' : list string) :
  recipe_ids ≠ [] → recipe_ids' ≠ [] →
  (∀ n, n ∈ recipe_ids ↔ n ∈ recipe_ids') →
  GetRecipes container user_id recipe_ids
  = GetRecipes container user_id recipe_ids'.
Proof.
  intros Hne Hne' Hsame. rewrite !GetRecipes_unfold.
  destruct (stored_recipes container user_id) as [stored|]; [|done].
  destruct recipe_ids as [|n ns]; [done|].
  destruct recipe_ids' as [|n' ns']; [done|].
  cbn [truthy_list]. f_equal. apply list_filter_iff. intros r. apply Hsame.
Qed.

Lemma GetRecipes_request_order_irrelevant_witness :
  GetRecipes example_container "u1" ["Toast"; "Tomato Soup"; "Toast"]
  = GetRecipes example_container "u1" ["Tomato Soup"; "Toast"].
Proof.
  apply (GetRecipes_request_order_irrelevant example_container "u1"
           ["Toast"; "Tomato Soup"; "Toast"] ["Tomato Soup"; "Toast"]);
    [discriminate | discriminate |].
  intros n. rewrite !elem_of_cons, !elem_of_nil. tauto.
Defined.

(** ** [http_start] *)

(** What a request that passes validation looks like. *)
Lemma validate_accepts req user_id input :
  validate req = Ok (inr (user_id, input)) →
  route_user_id req = Some user_id
  ∧ user_id ≠ ""
  ∧ ∃ items,
      get_json req = Some (JDict items)
      ∧ start_user_id input = user_id
      ∧ start_recipe_ids input = default (JList []) (assoc "recipe_names" items)
      ∧ start_download input = default (JBool false) (assoc "download" items)
      ∧ json_lower (default (JStr "pdf") (assoc "format" items))
        = Ok (start_format input)
      ∧ truthy (start_recipe_ids input) = true
      ∧ start_format input ∈ ["pdf"; "docx"].
Proof.
  unfold validate. destruct (route_user_id req) as [uid|]; [|discriminate].
  destruct (String.eqb uid "") eqn:Hne; [discriminate|].
  apply String.eqb_neq in Hne.
  destruct (get_json req) as [[| | | | | |items]|]; try discriminate.
  cbn [get].
  destruct (json_lower _) as [format_type|e] eqn:Hlower; [|discriminate].
  destruct (truthy _) eqn:Htruthy; cbn [negb]; [|discriminate].
  case_bool_decide as Hfmt; cbn [negb]; [|discriminate].
  intros [= <- <-]. cbn. split; [done|]. split; [done|].
  exists items. by repeat split.
Qed.

(** X3. Without a user id in the route (missing or empty) the answer is 400
    with the message about the user id, whatever the body is; no workflow is
    started and the client is not touched. *)
Theorem http_start_requires_user_id {C : Type}
    (start_new : string → string → StartInput → C → result unit * C)
    (get_status : string → C → result (option Status) * C)
    (now : string) (req : HttpRequest) (c : C) :
  route_user_id req = None ∨ route_user_id req = Some "" →
  http_start C start_new get_status now req c
  = (Response (error_body "Please provide a user_id in the URL") 400
       json_headers, c, []).
Proof. unfold http_start, validate. by intros [-> | ->]. Qed.

Lemma http_start_requires_user_id_witness :
  http_start unit accepting_start unknown_status "20240101-000000"
    {| route_user_id := Some ""; get_json := None |} tt
  = (Response (error_body "Please provide a user_id in the URL") 400
       json_headers, tt, []).
Proof.
  apply (http_start_requires_user_id accepting_start unknown_status
           "20240101-000000" {| route_user_id := Some ""; get_json := None |}
           tt).
  by right.
Defined.

(** X4. With a user id, a body that does not parse as JSON is answered with
    400 "Invalid request body", while a body that parses to anything but an
    object (a list, a string, a number, [null]) is answered with 500 and the
    message of the [AttributeError] raised by [req_body.get]; in both cases
    no workflow is started. *)
Theorem http_start_body_must_be_an_object {C : Type}
    (start_new : string → string → StartInput → C → result unit * C)
    (get_status : string → C → result (option Status) * C)
    (now user_id : string) (body : option json) (c : C) :
  user_id ≠ "" →
  (∀ items, body ≠ Some (JDict items)) →
  http_start C start_new get_status now
    {| route_user_id := Some user_id; get_json := body |} c
  = (match body with
     | None => Response (error_body "Invalid request body") 400 json_headers
     | Some v =>
         Response
           (error_body ("'" +:+ type_name v
                        +:+ "' object has no attribute 'get'"))
           500 json_headers
     end, c, []).
Proof.
  intros Huser Hbody. apply String.eqb_neq in Huser.
  unfold http_start, validate. cbn [route_user_id get_json]. rewrite Huser.
  destruct body as [[| | | | | |items]|]; try reflexivity.
  by destruct (Hbody items).
Qed.

Lemma http_start_body_must_be_an_object_witness :
  http_start unit accepting_start unknown_status "20240101-000000"
    {| route_user_id := Some "u1"; get_json := Some (JList [JStr "Toast"]) |} tt
  = (Response (error_body "'list' object has no attribute 'get'") 500
       json_headers, tt, []).
Proof.
  apply (http_start_body_must_be_an_object accepting_start unknown_status
           "20240101-000000" "u1" (Some (JList [JStr "Toast"])) tt);
    [discriminate | intros items; discriminate].
Defined.

(** X5. The check of [recipe_names] comes before the check of the format: for
    an object body whose [recipe_names] is absent or false in Python's sense
    (empty list, empty string, zero, [null], [false]) and whose [format] is
    absent or any string, valid or not, the answer is 400 with the message
    about the recipe ids, and no workflow is started. *)
Theorem http_start_requires_recipe_names {C : Type}
    (start_new : string → string → StartInput → C → result unit * C)
    (get_status : string → C → result (option Status) * C)
    (now user_id : string) (items : list (string * json)) (c : C) :
  user_id ≠ "" →
  truthy (default (JList []) (assoc "recipe_names" items)) = false →
  (assoc "format" items = None ∨ ∃ fmt, assoc "format" items = Some (JStr fmt)) →
  http_start C start_new get_status now
    {| route_user_id := Some user_id; get_json := Some (JDict items) |} c
  = (Response (error_body "Please provide recipe_ids in the request body") 400
       json_headers, c, []).
Proof.
  intros Huser Hnames Hfmt. apply String.eqb_neq in Huser.
  unfold http_start, validate. cbn [route_user_id get_json get].
  rewrite Huser, Hnames.
  by destruct Hfmt as [-> | [fmt ->]].
Qed.

Lemma http_start_requires_recipe_names_witness :
  http_start unit accepting_start unknown_status "20240101-000000"
    {| route_user_id := Some "u1";
       get_json := Some (JDict [("format", JStr "xml")]) |} tt
  = (Response (error_body "Please provide recipe_ids in the request body") 400
       json_headers, tt, []).
Proof.
  apply (http_start_requires_recipe_names accepting_start unknown_status
           "20240101-000000" "u1" [("format", JStr "xml")] tt);
    [discriminate | reflexivity | right; by exists "xml"].
Defined.

(** The answers [respond] can give: the status handle, or a 200. *)
Lemma respond_status status user_id input instance_id r :
  respond status user_id input instance_id = Ok r →
  r = CheckStatusResponse instance_id ∨ ∃ body headers, r = Response body 200 headers.
Proof.
  unfold respond. intros H.
  repeat match type of H with
         | context [match ?x with _ => _ end] => destruct x
         end;
    try discriminate; injection H as <-; eauto.
Qed.

(** X6. Whatever the request and the client, at most one workflow is
    started, and a started workflow has passed every check: its instance id
    is [recipes-<user_id>-<now>] for the non-empty user id of the route, its
    format is ['pdf'] or ['docx'], and its recipe ids are the body's
    [recipe_names] and are true in Python's sense. *)
Theorem http_start_started_workflow_is_valid {C : Type}
    (start_new : string → string → StartInput → C → result unit * C)
    (get_status : string → C → result (option Status) * C)
    (now : string) (req : HttpRequest) (c : C) :
  let started := (http_start C start_new get_status now req c).2 in
  (length started ≤ 1)%nat
  ∧ ∀ instance_id input,
      (instance_id, input) ∈ started →
      ∃ user_id items,
        route_user_id req = Some user_id
        ∧ user_id ≠ ""
        ∧ get_json req = Some (JDict items)
        ∧ instance_id = "recipes-" +:+ user_id +:+ "-" +:+ now
        ∧ start_user_id input = user_id
        ∧ start_recipe_ids input
          = default (JList []) (assoc "recipe_names" items)
        ∧ truthy (start_recipe_ids input) = true
        ∧ start_format input ∈ ["pdf"; "docx"].
Proof.
  unfold http_start.
  destruct (validate req) as [[rejection|[user_id input]]|e] eqn:Hvalid;
    cbn [snd]; try (split; [cbn; lia | intros ? ? []%elem_of_nil]).
  apply validate_accepts in Hvalid
    as (Hroute & Huser & items & Hbody & Hid & Hnames & _ & _ & Htruthy & Hfmt).
  assert (Hstarted :
    (let '(r, c1) := start_new "RecipeOrchestrator"
                       ("recipes-" +:+ user_id +:+ "-" +:+ now) input c in
     match r with
     | Ok _ =>
         let '(r0, c2) :=
           get_status ("recipes-" +:+ user_id +:+ "-" +:+ now) c1 in
         match r0 with
         | Ok status =>
             match respond status user_id input
                     ("recipes-" +:+ user_id +:+ "-" +:+ now) with
             | Ok r1 =>
                 (r1, c2, [("recipes-" +:+ user_id +:+ "-" +:+ now, input)])
             | Raise e =>
                 (server_error e, c2,
                  [("recipes-" +:+ user_id +:+ "-" +:+ now, input)])
             end
         | Raise e =>
             (server_error e, c2,
              [("recipes-" +:+ user_id +:+ "-" +:+ now, input)])
         end
     | Raise e =>
         (server_error e, c1,
          [("recipes-" +:+ user_id +:+ "-" +:+ now, input)])
     end).2 = [("recipes-" +:+ user_id +:+ "-" +:+ now, input)]).
  { destruct (start_new _ _ _ c) as [[[]|e] c1]; [|reflexivity].
    destruct (get_status _ c1) as [[status|e] c2]; [|reflexivity].
    by destruct (respond _ _ _ _). }
  rewrite Hstarted. split; [cbn; lia|].
  intros instance_id input' [[= -> ->]|[]%elem_of_nil]%elem_of_cons.
  exists user_id, items. by repeat split.
Qed.

Lemma http_start_started_workflow_is_valid_witness :
  start_format
    (snd (hd ("", {| start_user_id := ""; start_recipe_ids := JNull;
                     start_format := ""; start_download := JNull |})
            (http_start unit accepting_start unknown_status "20240101-000000"
               (request_with_format (JStr "DocX")) tt).2))
  ∈ ["pdf"; "docx"].
Proof.
  destruct (proj2 (http_start_started_workflow_is_valid accepting_start
                     unknown_status "20240101-000000"
                     (request_with_format (JStr "DocX")) tt)
              "recipes-u1-20240101-000000"
              {| start_user_id := "u1";
                 start_recipe_ids := JList [JStr "Toast"];
                 start_format := "docx";
                 start_download := JBool false |})
    as (user_id & items & _ & _ & _ & _ & _ & _ & _ & Hfmt).
  - vm_compute. left.
  - exact Hfmt.
Defined.

(** X7. A request answered with status 400 has started no workflow and has
    left the client untouched. *)
Theorem http_start_bad_request_starts_nothing {C : Type}
    (start_new : string → string → StartInput → C → result unit * C)
    (get_status : string → C → result (option Status) * C)
    (now : string) (req : HttpRequest) (c : C)
    (body : response_body) (headers : list (string * string)) :
  (http_start C start_new get_status now req c).1.1
    = Response body 400 headers →
  http_start C start_new get_status now req c = (Response body 400 headers, c, []).
Proof.
  unfold http_start.
  destruct (validate req) as [[rejection|[user_id input]]|e];
    cbn [fst]; [by intros -> | | discriminate].
  destruct (start_new _ _ _ c) as [[[]|e] c1]; [|discriminate].
  destruct (get_status _ c1) as [[status|e] c2]; [|discriminate].
  destruct (respond _ _ _ _) as [r|e] eqn:Hrespond; [|discriminate].
  cbn [fst]. intros ->.
  by apply respond_status in Hrespond as [|(? & ? & [=])].
Qed.

Lemma http_start_bad_request_starts_nothing_witness :
  http_start unit accepting_start unknown_status "20240101-000000"
    (request_with_format (JStr "xml")) tt
  = (Response (error_body "Format must be either 'pdf' or 'docx'") 400
       json_headers, tt, []).
Proof.
  apply (http_start_bad_request_starts_nothing accepting_start unknown_status
           "20240101-000000" (request_with_format (JStr "xml")) tt).
  reflexivity.
Defined.

(** The input a valid request starts the workflow with. *)
Definition start_input (user_id : string) (items : list (string * json))
    (format_type : string) : StartInput :=
  {| start_user_id := user_id;
     start_recipe_ids := default (JList []) (assoc "recipe_names" items);
     start_format := format_type;
     start_download := default (JBool false) (assoc "download" items) |}.

(** The orchestration is reported as completed with a result saying
    [success]. *)
Definition completed_successfully (status : option Status) : bool :=
  match status with
  | Some s => is_Completed (runtime_status s)
              && from_option success false (output s)
  | None => false
  end.

Lemma validate_valid user_id items format_type :
  user_id ≠ "" →
  truthy (default (JList []) (assoc "recipe_names" items)) = true →
  json_lower (default (JStr "pdf") (assoc "format" items)) = Ok format_type →
  format_type ∈ ["pdf"; "docx"] →
  validate {| route_user_id := Some user_id; get_json := Some (JDict items) |}
  = Ok (inr (user_id, start_input user_id items format_type)).
Proof.
  intros Huser Hnames Hlower Hfmt. apply String.eqb_neq in Huser.
  unfold validate. cbn [route_user_id get_json get].
  rewrite Huser, Hlower, Hnames. cbn [negb].
  by rewrite bool_decide_eq_true_2.
Qed.

(** A durable client that accepts every start and reports the orchestration
    as completed with a given result. *)
Definition completed_with (r : OrchestratorResult) (instance_id : string)
    (c : unit) : result (option Status) * unit :=
  (Ok (Some {| runtime_status := Completed; output := Some r |}), c).

(** X8. For a valid request whose workflow was started, the answer is the
    status handle whenever the status is unknown, the run has not completed,
    it has no output, or its output says [success: False]: a run that
    completed with "No recipes found" or with an error is answered with the
    handle, not with its result. *)
Theorem http_start_unfinished_or_failed_run_gets_status_handle {C : Type}
    (start_new : string → string → StartInput → C → result unit * C)
    (get_status : string → C → result (option Status) * C)
    (now user_id : string) (items : list (string * json))
    (format_type : string) (c c1 c2 : C) (status : option Status) :
  user_id ≠ "" →
  truthy (default (JList []) (assoc "recipe_names" items)) = true →
  json_lower (default (JStr "pdf") (assoc "format" items)) = Ok format_type →
  format_type ∈ ["pdf"; "docx"] →
  let instance_id := "recipes-" +:+ user_id +:+ "-" +:+ now in
  let input := start_input user_id items format_type in
  start_new "RecipeOrchestrator" instance_id input c = (Ok tt, c1) →
  get_status instance_id c1 = (Ok status, c2) →
  completed_successfully status = false →
  http_start C start_new get_status now
    {| route_user_id := Some user_id; get_json := Some (JDict items) |} c
  = (CheckStatusResponse instance_id, c2, [(instance_id, input)]).
Proof.
  intros Huser Hnames Hlower Hfmt instance_id input Hstart Hstatus Hrun.
  unfold http_start. rewrite (validate_valid _ _ _ Huser Hnames Hlower Hfmt).
  fold instance_id input. rewrite Hstart, Hstatus.
  unfold respond. destruct status as [s|]; [|reflexivity].
  cbn [completed_successfully] in Hrun.
  destruct (is_Completed (runtime_status s)); [|reflexivity].
  destruct (output s) as [r|]; [|reflexivity].
  cbn in Hrun. by rewrite Hrun.
Qed.

Lemma http_start_unfinished_or_failed_run_gets_status_handle_witness :
  http_start unit accepting_start (completed_with no_recipes_found)
    "20240101-000000"
    {| route_user_id := Some "u1";
       get_json := Some (JDict [("recipe_names", JList [JStr "Pie"])]) |} tt
  = (CheckStatusResponse "recipes-u1-20240101-000000", tt,
     [("recipes-u1-20240101-000000",
       start_input "u1" [("recipe_names", JList [JStr "Pie"])] "pdf")]).
Proof.
  apply (http_start_unfinished_or_failed_run_gets_status_handle
           accepting_start (completed_with no_recipes_found)
           "20240101-000000" "u1" [("recipe_names", JList [JStr "Pie"])] "pdf"
           tt tt tt
           (Some {| runtime_status := Completed;
                    output := Some no_recipes_found |}));
    try reflexivity; [discriminate | by left].
Defined.

(** X9. For a valid request with a true [download] whose run completed
    successfully with a document under the requested format, the answer is
    that document's decoded bytes with status 200, the content type of the
    format ([application/pdf] for ['pdf'], the Word type for ['docx']) and an
    attachment file name [recipes_<user_id>.<format>]; with a false or absent
    [download] the answer is the JSON result. *)
Theorem http_start_download_response {C : Type}
    (start_new : string → string → StartInput → C → result unit * C)
    (get_status : string → C → result (option Status) * C)
    (now user_id : string) (items : list (string * json))
    (format_type : string) (c c1 c2 : C) (r : OrchestratorResult)
    (docs : list (string * b64string)) (content : b64string) :
  user_id ≠ "" →
  truthy (default (JList []) (assoc "recipe_names" items)) = true →
  json_lower (default (JStr "pdf") (assoc "format" items)) = Ok format_type →
  format_type ∈ ["pdf"; "docx"] →
  let instance_id := "recipes-" +:+ user_id +:+ "-" +:+ now in
  let input := start_input user_id items format_type in
  start_new "RecipeOrchestrator" instance_id input c = (Ok tt, c1) →
  get_status instance_id c1
    = (Ok (Some {| runtime_status := Completed; output := Some r |}), c2) →
  success r = true →
  documents r = Some docs →
  assoc format_type docs = Some content →
  http_start C start_new get_status now
    {| route_user_id := Some user_id; get_json := Some (JDict items) |} c
  = (if truthy (default (JBool false) (assoc "download" items))
     then Response (file_body (b64decode content)) 200
            [ ("Content-Type",
               if bool_decide (format_type = "pdf") then "application/pdf"
               else "application/vnd.openxmlformats-officedocument.wordprocessingml.document");
              ("Content-Disposition",
               "attachment; filename=" +:+ quote
                 +:+ ("recipes_" +:+ user_id +:+ "." +:+ format_type)
                 +:+ quote);
              ("Access-Control-Expose-Headers", "Content-Disposition") ]
     else Response (result_body r) 200 [("Content-Type", "application/json")],
     c2, [(instance_id, input)]).
Proof.
  intros Huser Hnames Hlower Hfmt instance_id input Hstart Hstatus Hsuccess
    Hdocs Hcontent.
  unfold http_start. rewrite (validate_valid _ _ _ Huser Hnames Hlower Hfmt).
  fold instance_id input. rewrite Hstart, Hstatus.
  unfold respond.
  cbn [runtime_status output is_Completed input start_input start_format
       start_download].
  rewrite Hsuccess, Hdocs, Hcontent.
  destruct (truthy (default (JBool false) (assoc "download" items)));
    [|reflexivity].
  apply elem_of_cons in Hfmt as [->|[->|[]%elem_of_nil]%elem_of_cons];
    reflexivity.
Qed.

Lemma http_start_download_response_witness :
  (http_start unit accepting_start
     (completed_with
        {| success := true; message := None; error := None;
           documents := Some [("docx", b64encode (DocxFile []))] |})
     "20240101-000000"
     {| route_user_id := Some "u1";
        get_json := Some (JDict [("recipe_names", JList [JStr "Toast"]);
                                 ("format", JStr "DOCX");
                                 ("download", JBool true)]) |} tt).1.1
  = Response (file_body (DocxFile [])) 200
      [ ("Content-Type",
         "application/vnd.openxmlformats-officedocument.wordprocessingml.document");
        ("Content-Disposition",
         "attachment; filename=" +:+ quote +:+ "recipes_u1.docx" +:+ quote);
        ("Access-Control-Expose-Headers", "Content-Disposition") ].
Proof.
  rewrite (http_start_download_response accepting_start
             (completed_with
                {| success := true; message := None; error := None;
                   documents := Some [("docx", b64encode (DocxFile []))] |})
             "20240101-000000" "u1"
             [("recipe_names", JList [JStr "Toast"]); ("format", JStr "DOCX");
              ("download", JBool true)]
             "docx" tt tt tt
             {| success := true; message := None; error := None;
                documents := Some [("docx", b64encode (DocxFile []))] |}
             [("docx", b64encode (DocxFile []))]
             (b64encode (DocxFile [])));
    try reflexivity; [discriminate | right; left].
Defined.

(** X10. For a valid request, an exception raised by the durable client is
    answered with 500 and the exception's message: when [start_new] raises,
    the status is not asked for; when [get_status] raises, likewise 500. *)
Theorem http_start_client_fault_is_server_error {C : Type}
    (start_new : string → string → StartInput → C → result unit * C)
    (get_status : string → C → result (option Status) * C)
    (now user_id : string) (items : list (string * json))
    (format_type : string) (c : C) :
  user_id ≠ "" →
  truthy (default (JList []) (assoc "recipe_names" items)) = true →
  json_lower (default (JStr "pdf") (assoc "format" items)) = Ok format_type →
  format_type ∈ ["pdf"; "docx"] →
  let instance_id := "recipes-" +:+ user_id +:+ "-" +:+ now in
  let input := start_input user_id items format_type in
  let req := {| route_user_id := Some user_id;
                get_json := Some (JDict items) |} in
  let started := start_new "RecipeOrchestrator" instance_id input c in
  let asked := get_status instance_id started.2 in
  match started.1, asked.1 with
  | Raise e, _ =>
      http_start C start_new get_status now req c
      = (Response (error_body (str_exn e)) 500 json_headers, started.2,
         [(instance_id, input)])
  | Ok _, Raise e =>
      http_start C start_new get_status now req c
      = (Response (error_body (str_exn e)) 500 json_headers, asked.2,
         [(instance_id, input)])
  | Ok _, Ok _ =>
      (http_start C start_new get_status now req c).1.2 = asked.2
  end.
Proof.
  intros Huser Hnames Hlower Hfmt instance_id input req started asked.
  subst req asked started.
  unfold http_start. rewrite (validate_valid _ _ _ Huser Hnames Hlower Hfmt).
  fold instance_id input.
  destruct (start_new _ _ _ c) as [[[]|e] c1]; cbn [fst snd]; [|reflexivity].
  destruct (get_status _ c1) as [[status|e] c2]; cbn [fst snd]; [|reflexivity].
  by destruct (respond _ _ _ _).
Qed.

Definition failing_start (wf instance_id : string) (input : StartInput)
    (c : unit) : result unit * unit :=
  (Raise (Exception "task hub unavailable"), c).

Lemma http_start_client_fault_is_server_error_witness :
  http_start unit failing_start unknown_status "20240101-000000"
    {| route_user_id := Some "u1";
       get_json := Some (JDict [("recipe_names", JList [JStr "Toast"])]) |} tt
  = (Response (error_body "task hub unavailable") 500 json_headers, tt,
     [("recipes-u1-20240101-000000",
       start_input "u1" [("recipe_names", JList [JStr "Toast"])] "pdf")]).
Proof.
  exact (http_start_client_fault_is_server_error failing_start unknown_status
           "20240101-000000" "u1" [("recipe_names", JList [JStr "Toast"])]
           "pdf" tt ltac:(discriminate) eq_refl eq_refl
           ltac:(by left)).
Defined.

(** ** [RecipeOrchestrator] *)

Definition succeeded (docs : list (string * b64string)) : OrchestratorResult :=
  {| success := true; message := None; error := None; documents := Some docs |}.

(** X11. The coordinator never raises and calls at most two activities:
    first [GetRecipes]; if it raises, the result is [{success: False, error:
    str(e)}]; if it returns a non-empty list, [GenerateDocuments] is called
    next, in the state [GetRecipes] left, with that very list and the input's
    user id and format, and its documents, or its exception as [{success:
    False, error: str(e)}], are the result. *)
Theorem orchestrator_reports_every_outcome {S : Type}
    (act : ∀ X, activityE X → S → result X * S)
    (input_data : OrchestratorInput) (s : S) :
  let user_id := in_user_id input_data in
  let lookup := act _ (call_GetRecipes user_id (in_recipe_ids input_data)) s in
  drive act (RecipeOrchestrator input_data) s
  = match lookup.1 with
    | Raise e => (failure e, lookup.2, ["GetRecipes"])
    | Ok [] => (no_recipes_found, lookup.2, ["GetRecipes"])
    | Ok recipes =>
        let rendering :=
          act _ (call_GenerateDocuments user_id recipes
                   (in_format input_data)) lookup.2 in
        (match rendering.1 with
         | Ok docs => succeeded docs
         | Raise e => failure e
         end, rendering.2, ["GetRecipes"; "GenerateDocuments"])
    end.
Proof.
  intros user_id lookup. subst lookup user_id.
  cbn [RecipeOrchestrator drive].
  destruct (act _ (call_GetRecipes _ _) s) as [[[|r rs]|e] s1];
    cbn [fst snd truthy_list negb drive]; try reflexivity.
  by destruct (act _ (call_GenerateDocuments _ _ _) s1) as [[docs|e] s2].
Qed.

(** A host whose lookup fails. *)
Definition store_down (X : Type) (e : activityE X) (s : unit)
  : result X * unit :=
  (Raise (Exception "store unreachable"), s).

Example orchestrator_reports_lookup_failure :
  drive store_down
    (RecipeOrchestrator {| in_user_id := "u1"; in_recipe_ids := ["Toast"];
                           in_format := "pdf" |}) tt
  = ({| success := false; message := None;
        error := Some "store unreachable"; documents := None |},
     tt, ["GetRecipes"]).
Proof. reflexivity. Qed.

(** ** [GenerateDocuments] *)

Lemma GenerateDocuments_unfold {W : Type}
    (chat : string → W → result string * W) (loads : string → result ai_value)
    faults r rest user_id format (w : World W) :
  GenerateDocuments chat loads faults (r :: rest) user_id format w
  = match synthesis_loop chat loads (r :: rest) [] w with
    | (Ok l, w1) =>
        render_in_temp_dir faults user_id (default "pdf" format) (r :: rest) l
          PDFGenerator_init WordGenerator_init w1
    | (Raise e, w1) => (Raise e, w1)
    end.
Proof. reflexivity. Qed.

(** When the rendering step returns, nothing has failed, and what it returns
    is the one encoded file of the format. *)
Lemma render_in_temp_dir_ok {W : Type} faults user_id format_type recipes
    ai_list (w : World W) docs :
  (render_in_temp_dir faults user_id format_type recipes ai_list
     PDFGenerator_init WordGenerator_init w).1 = Ok docs →
  on_build faults = build_ok ∧ on_read faults = None
  ∧ docs
    = if String.eqb format_type "pdf"
      then [("pdf", b64encode (PdfFile
               (create_recipe_pdf PDFGenerator_init recipes ai_list).2))]
      else [("docx", b64encode (DocxFile
               (create_recipe_docx WordGenerator_init recipes ai_list).2))].
Proof.
  unfold render_in_temp_dir, bind, mkdtemp, try_finally, write_document,
    read_file, rmtree, ret.
  destruct (String.eqb format_type "pdf");
    destruct (has_slash _); cbn [fst fs with_fs]; try discriminate;
    destruct (on_build faults) as [|e []]; cbn [fst fs with_fs];
    try discriminate;
    destruct (on_read faults); cbn [fst fs with_fs]; try discriminate;
    rewrite lookup_alter_eq, lookup_insert_eq;
    cbn [fmap option_fmap option_map];
    rewrite option_bind_Some_l_eq, lookup_insert_eq; cbn [fst];
    intros [= <-]; done.
Qed.

(** X12. With an empty recipe list [GenerateDocuments] raises
    [ValueError("No recipes data provided")] at once: the generation service
    is not called and no directory is created. *)
Theorem GenerateDocuments_rejects_empty_recipes {W : Type}
    (chat : string → W → result string * W)
    (loads : string → result ai_value)
    (faults : Faults) (user_id : string) (format : option string)
    (w : World W) :
  GenerateDocuments chat loads faults [] user_id format w
  = (Raise (ValueError "No recipes data provided"), w).
Proof. reflexivity. Qed.

(** X13. No partial success: [GenerateDocuments] returns documents only when
    the recipe list is non-empty, every call to the generation service
    returned, and the file was written and read back; what it then returns is
    a single entry, under ['pdf'] when the format is ['pdf'] or missing and
    under ['docx'] for every other format, holding the encoded document
    rendered from the recipes and the synthesized instructions. *)
Theorem GenerateDocuments_all_or_nothing {W : Type}
    (chat : string → W → result string * W)
    (loads : string → result ai_value)
    (faults : Faults) (recipes : list Recipe) (user_id : string)
    (format : option string) (w w' : World W)
    (docs : list (string * b64string)) :
  GenerateDocuments chat loads faults recipes user_id format w = (Ok docs, w') →
  recipes ≠ []
  ∧ on_build faults = build_ok ∧ on_read faults = None
  ∧ ∃ ai_instructions_list,
      synthesis_loop chat loads recipes [] w = (Ok ai_instructions_list, w')
      ∧ length ai_instructions_list = length recipes
      ∧ docs
        = if String.eqb (default "pdf" format) "pdf"
          then [("pdf", b64encode (PdfFile
                   (create_recipe_pdf PDFGenerator_init recipes
                      ai_instructions_list).2))]
          else [("docx", b64encode (DocxFile
                   (create_recipe_docx WordGenerator_init recipes
                      ai_instructions_list).2))].
Proof.
  destruct recipes as [|r rest]; [discriminate|].
  rewrite GenerateDocuments_unfold. intros Hrun. split; [done|].
  pose proof (synthesis_loop_spec chat loads (r :: rest) [] w) as [Hloop _].
  destruct (synthesis_loop chat loads (r :: rest) [] w) as [[l|e] w1];
    [|discriminate].
  destruct Hloop as (l' & -> & Hsyn & _). cbn [app] in *.
  pose proof (render_in_temp_dir_restores faults user_id (default "pdf" format)
                (r :: rest) l' PDFGenerator_init WordGenerator_init w1) as Hw.
  rewrite Hrun in Hw. cbn [snd] in Hw. subst w'.
  apply (f_equal fst) in Hrun. cbn [fst] in Hrun.
  apply render_in_temp_dir_ok in Hrun as (Hbuild & Hread & ->).
  split; [done|]. split; [done|]. exists l'.
  split; [done|]. split; [|done].
  exact (synthesized_length _ _ _ _ _ _ Hsyn).
Qed.

(** ** The renderers, continued *)

Lemma create_recipe_docx_eq self recipe_list ai_instructions_list :
  create_recipe_docx self recipe_list ai_instructions_list
  = let b := body (doc self)
             ++ join_sections DocxPageBreak
                  (map (λ '(r, ai), docx_section r ai)
                     (zip recipe_list ai_instructions_list)) in
    ({| doc := with_body (doc self) b |}, b).
Proof. unfold create_recipe_docx. by rewrite docx_loop_layout. Qed.

(** An instructions value with its [techniques] emptied. *)
Definition forget_techniques (v : ai_value) : ai_value :=
  match v with
  | ai_dict i =>
      ai_dict {| preparation_steps := preparation_steps i;
                 cooking_tips := cooking_tips i;
                 timing := timing i;
                 techniques := [];
                 storage := storage i;
                 serving := serving i |}
  | _ => v
  end.

Lemma sections_forget_techniques {A : Type}
    (section : Recipe → ai_value → list A) (rl : list Recipe)
    (al al' : list ai_value) :
  (∀ r v, section r (forget_techniques v) = section r v) →
  Forall2 (λ v v', forget_techniques v = forget_techniques v') al al' →
  map (λ '(r, ai), section r ai) (zip rl al)
  = map (λ '(r, ai), section r ai) (zip rl al').
Proof.
  intros Hsec Hal. revert rl.
  induction Hal as [|v v' al al' Hv _ IH]; intros [|r rl]; try reflexivity.
  cbn. by rewrite <- (Hsec r v), Hv, Hsec, IH.
Qed.

(** X15. The [techniques] the generation service is asked for are never
    rendered: two instruction lists that differ only in their [techniques]
    give the same PDF story and the same Word document. *)
Theorem renderers_ignore_techniques (pdf_generator : PDFGenerator)
    (word_generator : WordGenerator) (recipe_list : list Recipe)
    (ai_instructions_list ai_instructions_list' : list ai_value) :
  Forall2 (λ v v', forget_techniques v = forget_techniques v')
    ai_instructions_list ai_instructions_list' →
  create_recipe_pdf pdf_generator recipe_list ai_instructions_list
  = create_recipe_pdf pdf_generator recipe_list ai_instructions_list'
  ∧ create_recipe_docx word_generator recipe_list ai_instructions_list
    = create_recipe_docx word_generator recipe_list ai_instructions_list'.
Proof.
  intros Hal. split.
  - unfold create_recipe_pdf. rewrite !pdf_story_layout.
    rewrite (sections_forget_techniques (pdf_section pdf_generator) _ _ _
               ltac:(by intros r [| |i]) Hal).
    reflexivity.
  - rewrite !create_recipe_docx_eq.
    rewrite (sections_forget_techniques docx_section _ _ _
               ltac:(by intros r [| |i]) Hal).
    reflexivity.
Qed.

Lemma lookup_map {A B : Type} (f : A → B) (l : list A) (k : nat) :
  map f l !! k = f <$> l !! k.
Proof. revert k. induction l as [|x l IH]; intros [|k]; cbn; auto. Qed.

Lemma lookup_enumerate {A : Type} (l : list A) (n k : nat) :
  enumerate n l !! k = (λ x, ((n + k)%nat, x)) <$> l !! k.
Proof.
  revert n k. induction l as [|x l IH]; intros n [|k]; cbn; try reflexivity.
  - by rewrite Nat.add_0_r.
  - rewrite IH. by rewrite Nat.add_succ_r.
Qed.

(** X16. The preparation steps are numbered from 1 in list order: in what
    either renderer adds for a recipe with an instructions object, the
    paragraph at offset [8 + k] (after the seven blocks every recipe gets and
    the "Preparation Method" heading) is the k-th step prefixed with
    [k + 1] and a full stop. *)
Theorem preparation_steps_numbered_from_one (self : PDFGenerator)
    (story : list Flowable) (d : Document) (recipe : Recipe)
    (ai : Instructions) (k : nat) (step : string) :
  preparation_steps ai !! k = Some step →
  let numbered := str_int (Z.of_nat (S k)) +:+ ". " +:+ step in
  pdf_recipe self story recipe (ai_dict ai) !! (length story + (8 + k))%nat
    = Some (Paragraph numbered (Normal self))
  ∧ body (docx_recipe d recipe (ai_dict ai))
      !! (length (body d) + (8 + k))%nat
    = Some (DocxParagraph numbered None false).
Proof.
  intros Hstep numbered. split.
  - rewrite pdf_recipe_appends, lookup_app_r by lia.
    replace (length story + (8 + k) - length story)%nat with (8 + k)%nat by lia.
    unfold pdf_section. rewrite lookup_app_r by (cbn; lia).
    replace (8 + k - length (pdf_recipe_blocks self recipe))%nat
      with (S k) by (cbn; lia).
    unfold pdf_instruction_blocks. rewrite lookup_cons. cbv iota.
    rewrite lookup_app_l.
    + by rewrite lookup_map, lookup_enumerate, Hstep.
    + rewrite length_map. apply lookup_lt_is_Some.
      rewrite lookup_enumerate, Hstep. by eexists.
  - rewrite docx_recipe_appends. cbn [body with_body].
    rewrite lookup_app_r by lia.
    replace (length (body d) + (8 + k) - length (body d))%nat
      with (8 + k)%nat by lia.
    unfold docx_section. rewrite lookup_app_r by (cbn; lia).
    replace (8 + k - length (docx_recipe_blocks recipe))%nat
      with (S k) by (cbn; lia).
    unfold docx_instruction_blocks. rewrite lookup_cons. cbv iota.
    rewrite lookup_app_l.
    + by rewrite lookup_map, lookup_enumerate, Hstep.
    + rewrite length_map. apply lookup_lt_is_Some.
      rewrite lookup_enumerate, Hstep. by eexists.
Qed.

(** A Word table whose rows all have as many cells as the table has
    columns; a PDF table whose rows all have as many cells as there are
    column widths. *)
Definition rectangular (b : Block) : bool :=
  match b with
  | DocxTable _ cols rows => forallb (λ row, (length row =? cols)%nat) rows
  | _ => true
  end.

Definition pdf_rectangular (f : Flowable) : bool :=
  match f with
  | Table cells colWidths _ =>
      forallb (λ row, (length row =? length colWidths)%nat) cells
  | _ => true
  end.

Lemma ingredient_rows_width (ings : list Ingredient) :
  forallb (λ row, (length row =? 4)%nat) (map ingredient_row ings) = true.
Proof. induction ings; cbn; auto. Qed.

Lemma Forall_join_sections {A : Type} (P : A → Prop) (brk : A)
    (sections : list (list A)) :
  P brk → Forall (Forall P) sections → Forall P (join_sections brk sections).
Proof.
  intros Hbrk Hsec. destruct Hsec as [|s rest Hs Hrest]; [constructor|].
  rewrite join_sections_cons. apply Forall_app_2; [done|].
  induction Hrest as [|s' rest' Hs' _ IH]; cbn; [constructor|].
  constructor; [done|]. by apply Forall_app_2.
Qed.

Lemma docx_section_rectangular recipe ai :
  Forall (λ b, rectangular b = true) (docx_section recipe ai).
Proof.
  unfold docx_section. apply Forall_app_2.
  - unfold docx_recipe_blocks. repeat (constructor; [try reflexivity|]);
      [|constructor].
    cbn [rectangular forallb length ingredients_header Nat.eqb andb].
    apply ingredient_rows_width.
  - destruct ai as [| |ai]; [constructor | constructor |].
    unfold docx_instruction_blocks. forall_blocks.
Qed.

Lemma pdf_section_rectangular self recipe ai :
  Forall (λ f, pdf_rectangular f = true) (pdf_section self recipe ai).
Proof.
  unfold pdf_section. apply Forall_app_2.
  - unfold pdf_recipe_blocks. repeat (constructor; [try reflexivity|]);
      [|constructor].
    cbn [pdf_rectangular forallb length ingredients_header Nat.eqb andb].
    apply ingredient_rows_width.
  - destruct ai as [| |ai]; [constructor | constructor |].
    unfold pdf_instruction_blocks. forall_blocks.
Qed.

(** X17. The tables stay rectangular: if every table of the document a
    [WordGenerator] holds has, in each row, as many cells as the table has
    columns, so has every table of the document after [create_recipe_docx],
    whose tables are created with [add_table], grown with [add_row] and
    filled cell by cell; and every table of a PDF story has, in each row, as
    many cells as it has column widths. *)
Theorem rendered_tables_are_rectangular (pdf_generator : PDFGenerator)
    (word_generator : WordGenerator) (recipe_list : list Recipe)
    (ai_instructions_list : list ai_value) :
  Forall (λ b, rectangular b = true) (body (doc word_generator)) →
  Forall (λ b, rectangular b = true)
    (create_recipe_docx word_generator recipe_list ai_instructions_list).2
  ∧ Forall (λ b, rectangular b = true)
      (body (doc (create_recipe_docx word_generator recipe_list
                    ai_instructions_list).1))
  ∧ Forall (λ f, pdf_rectangular f = true)
      (create_recipe_pdf pdf_generator recipe_list ai_instructions_list).2.
Proof.
  intros Hbody.
  assert (Hdocx : Forall (λ b, rectangular b = true)
            (create_recipe_docx word_generator recipe_list
               ai_instructions_list).2).
  { rewrite create_recipe_docx_layout. apply Forall_app_2; [done|].
    apply Forall_join_sections; [reflexivity|].
    apply Forall_map_all. intros [r ai]. apply docx_section_rectangular. }
  split; [exact Hdocx|]. split; [exact Hdocx|].
  cbn [create_recipe_pdf snd]. rewrite pdf_story_layout.
  apply Forall_join_sections; [reflexivity|].
  apply Forall_map_all. intros [r ai]. apply pdf_section_rectangular.
Qed.

Lemma docx_sections_no_break (items : list (Recipe * ai_value)) :
  Forall (Forall (λ b, is_DocxPageBreak b = false))
    (map (λ '(r, ai), docx_section r ai) items).
Proof.
  apply Forall_map_all. intros [r ai].
  by destruct (docx_section_is_section r ai) as (t & rest & _ & _ & _ & H).
Qed.

(** X18. Calls on one [WordGenerator] are not separated by a page break: after
    a first call that renders [n1] sections and a second call that renders
    [n2], the second file has the [n1 + n2] titles of both calls, in order,
    but only [(n1 - 1) + (n2 - 1)] page breaks, so the last section of the
    first call and the first section of the second share a page run. *)
Theorem WordGenerator_no_break_between_calls
    (recipes1 recipes2 : list Recipe) (ai1 ai2 : list ai_value) :
  let n1 := length recipes1 `min` length ai1 in
  let n2 := length recipes2 `min` length ai2 in
  let word1 := (create_recipe_docx WordGenerator_init recipes1 ai1).1 in
  let docx2 := (create_recipe_docx word1 recipes2 ai2).2 in
  omap docx_title docx2
    = map name (take n1 recipes1) ++ map name (take n2 recipes2)
  ∧ length (List.filter is_DocxPageBreak docx2) = (pred n1 + pred n2)%nat.
Proof.
  intros n1 n2 word1 docx2. subst docx2 word1.
  rewrite create_recipe_docx_layout.
  rewrite (create_recipe_docx_eq WordGenerator_init).
  cbn [fst doc body with_body WordGenerator_init app].
  split.
  - rewrite omap_app'.
    rewrite !(titles_join_sections DocxPageBreak docx_title (λ p, name p.1));
      try reflexivity;
      try (intros [r ai]; eapply section_of_titles, docx_section_is_section).
    subst n1 n2. by rewrite <- !map_fst_zip_take, !map_map.
  - rewrite List.filter_app, length_app.
    rewrite !breaks_join_sections;
      try reflexivity; try apply docx_sections_no_break.
    subst n1 n2. by rewrite !length_map, !length_zip_min.
Qed.

Example WordGenerator_two_single_recipe_calls :
  let word1 := (create_recipe_docx WordGenerator_init [toast] [ai_None]).1 in
  let docx2 := (create_recipe_docx word1 [tomato_soup] [ai_None]).2 in
  omap docx_title docx2 = ["Toast"; "Tomato Soup"]
  ∧ List.filter is_DocxPageBreak docx2 = [].
Proof. vm_compute. auto. Qed.

(** ** The activities together *)

(** The recipe titles a rendered file shows, in order. *)
Definition file_titles (f : file_content) : list string :=
  match f with
  | PdfFile story => omap (pdf_title PDFGenerator_init) story
  | DocxFile blocks => omap docx_title blocks
  | PartialFile => []
  end.

Lemma rendered_titles (recipes : list Recipe) (l : list ai_value) :
  length l = length recipes →
  omap (pdf_title PDFGenerator_init)
    (create_recipe_pdf PDFGenerator_init recipes l).2 = map name recipes
  ∧ omap docx_title (create_recipe_docx WordGenerator_init recipes l).2
    = map name recipes.
Proof.
  intros Hlen.
  assert (Hfst : map fst (zip recipes l) = recipes).
  { rewrite map_fst_zip_take, Hlen, Nat.min_id. apply firstn_all. }
  cbn [create_recipe_pdf snd].
  rewrite pdf_story_layout, create_recipe_docx_layout.
  cbn [WordGenerator_init doc body app].
  rewrite (titles_join_sections PageBreak _ (λ p, name p.1));
    [|reflexivity
     |intros [r ai]; eapply section_of_titles, pdf_section_is_section].
  rewrite (titles_join_sections DocxPageBreak _ (λ p, name p.1));
    [|reflexivity
     |intros [r ai]; eapply section_of_titles, docx_section_is_section].
  assert (Hnames : map (λ p : Recipe * ai_value, name p.1) (zip recipes l)
                   = map name recipes).
  { rewrite <- Hfst at 2. by rewrite map_map. }
  by rewrite Hnames.
Qed.

(** X19. Lookup and rendering compose: when the coordinator, run on the two
    activities of [function_app.py] with a non-empty request list, reports
    success, its result holds exactly one encoded document, and the titles of
    that document are the names of the user's stored recipes whose name was
    requested, in stored order, one title per such recipe. *)
Theorem orchestrator_document_shows_requested_recipes {W : Type}
    (container : list UserDoc)
    (chat : string → W → result string * W)
    (loads : string → result ai_value)
    (faults : Faults) (input_data : OrchestratorInput) (w : World W) :
  in_recipe_ids input_data ≠ [] →
  let result :=
    (drive (activities container chat loads faults)
       (RecipeOrchestrator input_data) w).1.1 in
  success result = true →
  ∃ key file,
    documents result = Some [(key, b64encode file)]
    ∧ file_titles file
      = map name
          (filter (λ r, name r ∈ in_recipe_ids input_data)
             (default [] (stored_recipes container (in_user_id input_data)))).
Proof.
  intros Hids result Hsuccess. subst result.
  cbn [RecipeOrchestrator drive activities] in Hsuccess |- *.
  rewrite GetRecipes_unfold in Hsuccess |- *.
  destruct (in_recipe_ids input_data) as [|n ns] eqn:Hnames; [done|].
  cbn [truthy_list] in Hsuccess |- *.
  destruct (stored_recipes container (in_user_id input_data)) as [stored|];
    cbn [default id] in Hsuccess |- *; [|discriminate].
  destruct (filter (λ r, name r ∈ n :: ns) stored) as [|r rest];
    cbn [truthy_list negb drive] in Hsuccess |- *; [discriminate|].
  change (activities container chat loads faults _
            (call_GenerateDocuments ?u ?rs ?f) w)
    with (GenerateDocuments chat loads faults rs u (Some f) w) in *.
  destruct (GenerateDocuments chat loads faults (r :: rest)
              (in_user_id input_data) (Some (in_format input_data)) w)
    as [[docs|e] w2] eqn:Hgen; cbn [drive fst snd success failure] in *;
    [|discriminate].
  rewrite GenerateDocuments_unfold in Hgen.
  pose proof (synthesis_loop_spec chat loads (r :: rest) [] w) as [Hloop _].
  destruct (synthesis_loop chat loads (r :: rest) [] w) as [[l|e] w1];
    [|discriminate].
  destruct Hloop as (l' & -> & Hsyn & _). cbn [app] in *.
  apply (synthesized_length chat loads) in Hsyn.
  apply (f_equal fst) in Hgen. cbn [fst] in Hgen.
  apply render_in_temp_dir_ok in Hgen as (_ & _ & ->).
  cbn [documents].
  destruct (rendered_titles (r :: rest) l' Hsyn) as [Hpdf Hdocx].
  destruct (String.eqb _ "pdf"); eexists _, _; (split; [reflexivity|]);
    cbn [file_titles]; assumption.
Qed.

(** ** [generate_instructions] *)

(** X20. Only the name and the amount of an ingredient reach the generation
    service, and only in upper case: two ingredient lists that agree on the
    upper-cased names and amounts give the same prompt, whatever their
    costs, so the same request is sent. *)
Theorem prompt_depends_on_names_and_amounts_only (recipe_name : string)
    (ingredients ingredients' : list Ingredient) :
  Forall2
    (λ i i', upper (ingredient i) = upper (ingredient i')
             ∧ upper (recipe_amount i) = upper (recipe_amount i'))
    ingredients ingredients' →
  prompt recipe_name ingredients = prompt recipe_name ingredients'.
Proof.
  intros Hsame. unfold prompt.
  assert (Hlines : map prompt_line ingredients = map prompt_line ingredients').
  { induction Hsame as [|i i' l l' [Hn Ha] _ IH]; [reflexivity|].
    cbn [map]. unfold prompt_line at 1 3. by rewrite Hn, Ha, IH. }
  by rewrite Hlines.
Qed.

(** ** [GenerateDocuments], failures *)

(** X21. The cleanup does not swallow a failure: when the synthesis loop has
    completed and writing the document raises [e], [GenerateDocuments] raises
    [e]; when writing succeeds and reading the file back raises [e],
    [GenerateDocuments] raises [e]; either way the world is the one the
    synthesis loop left, with no directory remaining. *)
Theorem GenerateDocuments_propagates_file_failures {W : Type}
    (chat : string → W → result string * W)
    (loads : string → result ai_value)
    (faults : Faults) (r : Recipe) (rest : list Recipe) (user_id : string)
    (format : option string) (w w1 : World W)
    (ai_instructions_list : list ai_value) (e : exn) :
  has_slash user_id = false →
  synthesis_loop chat loads (r :: rest) [] w = (Ok ai_instructions_list, w1) →
  (∃ left_behind, on_build faults = build_raises e left_behind)
  ∨ (on_build faults = build_ok ∧ on_read faults = Some e) →
  GenerateDocuments chat loads faults (r :: rest) user_id format w
  = (Raise e, w1).
Proof.
  intros Hslash Hloop Hfault.
  rewrite GenerateDocuments_unfold, Hloop.
  pose proof (render_in_temp_dir_restores faults user_id
                (default "pdf" format) (r :: rest) ai_instructions_list
                PDFGenerator_init WordGenerator_init w1) as Hw.
  assert (Hres :
    (render_in_temp_dir faults user_id (default "pdf" format) (r :: rest)
       ai_instructions_list PDFGenerator_init WordGenerator_init w1).1
    = Raise e).
  { assert (Hname : ∀ ext, has_slash ("recipes_" +:+ user_id +:+ ext)
                           = has_slash ext).
    { intros ext. by rewrite !has_slash_app, Hslash. }
    unfold render_in_temp_dir, bind, mkdtemp, try_finally, write_document,
      read_file, rmtree, ret.
    destruct (String.eqb (default "pdf" format) "pdf"); rewrite Hname;
      cbn [has_slash Ascii.eqb Bool.eqb orb];
      destruct Hfault as [[[] ->] | [-> ->]]; reflexivity. }
  destruct (render_in_temp_dir _ _ _ _ _ _ _ w1) as [res w2].
  cbn [fst snd] in Hres, Hw. by subst.
Qed.

End python_runtime.

(** * The properties at work *)

(** The runtime restricted to ASCII text, where [str.upper] is
    [ascii_upper]. *)
#[global] Instance ascii_runtime : PythonStr :=
  {| upper := ascii_upper; upper_ascii := λ _ _, eq_refl |}.

Example tomato_soup_ingredient_rows :
  omap docx_table (docx_section tomato_soup ai_None) !! 1%nat
  = Some [ ["INGREDIENT"; "AMOUNT"; "COST PER UNIT"; "TOTAL COST"];
           ["TOMATO"; "2 KG"; "$5.00"; "$10.00"];
           ["BASIL"; "1 BUNCH"; "$2.38"; "$2.38"] ].
Proof. vm_compute. reflexivity. Qed.

Lemma renderers_one_section_per_recipe_witness :
  (create_recipe_pdf PDFGenerator_init [tomato_soup; toast]
     [ai_dict fresh_instructions; ai_None]).2
  = join_sections PageBreak
      [ pdf_section PDFGenerator_init tomato_soup (ai_dict fresh_instructions);
        pdf_section PDFGenerator_init toast ai_None ].
Proof.
  exact (proj1 (renderers_one_section_per_recipe [tomato_soup; toast]
                  [ai_dict fresh_instructions; ai_None] eq_refl)).
Defined.

Lemma orchestrator_short_circuits_on_no_recipes_witness :
  drive (activities example_container (counting_chat 7) always_loads no_faults)
    (RecipeOrchestrator {| in_user_id := "u1"; in_recipe_ids := ["Pie"];
                           in_format := "pdf" |})
    empty_world
  = (no_recipes_found, empty_world, ["GetRecipes"]).
Proof.
  apply (orchestrator_short_circuits_on_no_recipes
           (activities example_container (counting_chat 7) always_loads
              no_faults)
           {| in_user_id := "u1"; in_recipe_ids := ["Pie"];
              in_format := "pdf" |} empty_world).
  reflexivity.
Defined.

Lemma GenerateDocuments_all_or_nothing_witness :
  on_build no_faults = build_ok
  ∧ synthesis_loop (counting_chat 7) always_loads [toast] [] empty_world
    = (Ok [ai_dict fresh_instructions],
       {| llm := 1%nat; invocations := [synthesis_call toast]; fs := ∅ |}).
Proof.
  destruct (GenerateDocuments_all_or_nothing (counting_chat 7) always_loads
              no_faults [toast] "u1" (Some "xml") empty_world
              {| llm := 1%nat; invocations := [synthesis_call toast]; fs := ∅ |}
              [("docx", b64encode (DocxFile
                  (docx_section toast (ai_dict fresh_instructions))))])
    as (_ & Hbuild & _ & l & Hloop & _ & _).
  - vm_compute. reflexivity.
  - split; [exact Hbuild | reflexivity].
Defined.

Lemma renderers_ignore_techniques_witness :
  create_recipe_pdf PDFGenerator_init [toast] [ai_dict fresh_instructions]
  = create_recipe_pdf PDFGenerator_init [toast]
      [forget_techniques (ai_dict fresh_instructions)].
Proof.
  apply (renderers_ignore_techniques PDFGenerator_init WordGenerator_init
           [toast] [ai_dict fresh_instructions]
           [forget_techniques (ai_dict fresh_instructions)]).
  repeat constructor.
Defined.

Lemma preparation_steps_numbered_from_one_witness :
  pdf_recipe PDFGenerator_init [] toast (ai_dict fresh_instructions) !! 9%nat
  = Some (Paragraph "2. Simmer" (Normal PDFGenerator_init)).
Proof.
  exact (proj1 (preparation_steps_numbered_from_one PDFGenerator_init []
                  (doc WordGenerator_init) toast fresh_instructions 1 "Simmer"
                  eq_refl)).
Defined.

Lemma rendered_tables_are_rectangular_witness :
  Forall (λ b, rectangular b = true)
    (create_recipe_docx WordGenerator_init [tomato_soup] [ai_None]).2.
Proof.
  apply (rendered_tables_are_rectangular PDFGenerator_init WordGenerator_init
           [tomato_soup] [ai_None]).
  constructor.
Defined.

Lemma orchestrator_document_shows_requested_recipes_witness :
  ∃ key file,
    documents
      (drive (activities example_container (counting_chat 7) always_loads
                no_faults)
         (RecipeOrchestrator {| in_user_id := "u1";
                                in_recipe_ids := ["Toast"; "Pie"];
                                in_format := "docx" |})
         empty_world).1.1
    = Some [(key, b64encode file)]
    ∧ file_titles file = ["Toast"].
Proof.
  destruct (orchestrator_document_shows_requested_recipes example_container
              (counting_chat 7) always_loads no_faults
              {| in_user_id := "u1"; in_recipe_ids := ["Toast"; "Pie"];
                 in_format := "docx" |}
              empty_world ltac:(discriminate) eq_refl)
    as (key & file & Hdocs & Htitles).
  exists key, file. split; [exact Hdocs|].
  rewrite Htitles. vm_compute. reflexivity.
Defined.

Lemma prompt_depends_on_names_and_amounts_only_witness :
  prompt "Soup" [tomato]
  = prompt "Soup"
      [ {| ingredient := "tomato"; recipe_amount := "2 KG";
           unit_cost := PyFloat false 0 0; ing_total_cost := PyFloat true 1 0 |} ].
Proof.
  apply (prompt_depends_on_names_and_amounts_only "Soup" [tomato]
           [ {| ingredient := "tomato"; recipe_amount := "2 KG";
                unit_cost := PyFloat false 0 0;
                ing_total_cost := PyFloat true 1 0 |} ]).
  repeat constructor.
Defined.

Lemma GenerateDocuments_propagates_file_failures_witness :
  GenerateDocuments (counting_chat 7) always_loads
    {| on_build := build_ok; on_read := Some (OSError "read error") |}
    [toast] "u1" (Some "pdf") empty_world
  = (Raise (OSError "read error"),
     {| llm := 1%nat; invocations := [synthesis_call toast]; fs := ∅ |}).
Proof.
  apply (GenerateDocuments_propagates_file_failures (counting_chat 7)
           always_loads
           {| on_build := build_ok; on_read := Some (OSError "read error") |}
           toast [] "u1" (Some "pdf") empty_world
           {| llm := 1%nat; invocations := [synthesis_call toast]; fs := ∅ |}
           [ai_dict fresh_instructions] (OSError "read error"));
    [reflexivity | reflexivity | right; split; reflexivity].
Defined.

Lemma synthesis_once_per_recipe_in_order_witness :
  synthesis_loop (counting_chat 7) always_loads [toast; tomato_soup] []
    empty_world
  = (Ok [ai_dict fresh_instructions; ai_dict fresh_instructions],
     {| llm := 2%nat;
        invocations := [synthesis_call toast; synthesis_call tomato_soup];
        fs := ∅ |})
  ∧ GenerateDocuments (counting_chat 1) always_loads no_faults
      [toast; tomato_soup; toast] "u1" None empty_world
    = (Raise (Exception "service unavailable"),
       {| llm := 2%nat;
          invocations := [synthesis_call toast; synthesis_call tomato_soup];
          fs := ∅ |}).
Proof.
  split.
  - destruct (synthesis_once_per_recipe_in_order (counting_chat 7)
                always_loads no_faults toast [tomato_soup] "u1" None
                empty_world) as (Hreturns & _).
    apply Hreturns.
    apply (synthesized_cons _ _ toast [tomato_soup] empty_world
             (ai_dict fresh_instructions)
             {| llm := 1%nat; invocations := [synthesis_call toast];
                fs := ∅ |}); [reflexivity|].
    apply (synthesized_cons _ _ tomato_soup []
             {| llm := 1%nat; invocations := [synthesis_call toast];
                fs := ∅ |}
             (ai_dict fresh_instructions)
             {| llm := 2%nat;
                invocations := [synthesis_call toast;
                                synthesis_call tomato_soup];
                fs := ∅ |}); [reflexivity|].
    apply synthesized_nil.
  - destruct (synthesis_once_per_recipe_in_order (counting_chat 1)
                always_loads no_faults toast [tomato_soup; toast] "u1" None
                empty_world) as (_ & _ & _ & Hraises).
    apply (Hraises 1%nat tomato_soup [ai_dict fresh_instructions]
             {| llm := 1%nat; invocations := [synthesis_call toast];
                fs := ∅ |}); [reflexivity| |reflexivity].
    apply (synthesized_cons _ _ toast [] empty_world
             (ai_dict fresh_instructions)
             {| llm := 1%nat; invocations := [synthesis_call toast];
                fs := ∅ |}); [reflexivity|].
    apply synthesized_nil.
Defined.

(** A user id with a slash names a directory that was never made: the
    generator cannot open its file, and the temporary directory is removed
    all the same. *)
Example GenerateDocuments_user_id_with_slash :
  GenerateDocuments (counting_chat 7) always_loads no_faults [toast] "a/b"
    None empty_world
  = (Raise (FileNotFoundError "No such file or directory"
              (fresh (dom (fs empty_world)) +:+ "/recipes_a/b.pdf")),
     {| llm := 1%nat; invocations := [synthesis_call toast]; fs := ∅ |}).
Proof. vm_compute. reflexivity. Qed.

(** An answer of the generation service that has the preparation steps and
    nothing else. *)
Definition steps_only : ai_object :=
  py_dict {| dict_preparation_steps := Some ["Chop"; "Simmer"];
             dict_cooking_tips := None; dict_timing := None;
             dict_techniques := None; dict_storage := None;
             dict_serving := None; dict_other_keys := [] |}.


(** The paragraphs added before the exception stay in the generator's
    document. *)
Example steps_only_leaves_partial_section :
  omap docx_heading
    (body (doc (create_recipe_docx_raw WordGenerator_init [toast]
                  [steps_only]).1))
  = ["INGREDIENTS"; "Preparation Method"; "Cooking Tips"].
Proof. vm_compute. reflexivity. Qed.


